(** * Portfolio builder: drift analysis, trade planning and execution

    A shallow embedding of the portfolio core of the repository
    ([src/agent/portfolio-builder.ts], [src/agent/claude-agent.ts],
    [src/sdk/trading.ts], the portfolio module and the strategy files) and
    the properties its specification states about it.

    Numbers.  In the main development a JavaScript [number] is an exact
    rational ([Q]): comparisons of numbers are the boolean tests of [Num],
    and [===] on numbers is [Qeq_bool].  Division by zero gives a
    non-finite number in JavaScript and [0] in [Q]: no theorem below relies
    on a quotient whose divisor may be zero.  The rounding of IEEE doubles
    is not part of that model, so the theorems stated over it are those
    that rounding does not touch: they are structural, or they compare and
    bound values the program itself has computed by operations that are
    monotone in double precision too.  Where rounding decides what the
    program returns, the functions concerned are embedded a second time on
    binary64 floats (module [Ieee]), operation by operation, and the
    program's result is computed there on concrete inputs. *)

From Stdlib Require Import QArith Qround Qabs Lqa ZArith Lia List String Bool.
From Stdlib Require Import Permutation.
From Stdlib Require Import Sorted DecimalString Ascii.
From Stdlib Require Import Floats.
Import ListNotations.

Local Open Scope Q_scope.

(* ====================================================================== *)
(** ** JavaScript numbers *)
(* ====================================================================== *)

Module Num.

(** [a < b], [a > b], [a >= b] and [a === b] on numbers. *)
Definition ltb (a b : Q) : bool := negb (Qle_bool b a).
Definition gtb (a b : Q) : bool := ltb b a.
Definition geb (a b : Q) : bool := Qle_bool b a.
Definition eqb (a b : Q) : bool := Qeq_bool a b.

(** [Math.abs], [Math.max], [Math.min]. *)
Definition Math_abs (x : Q) : Q := Qabs x.
Definition Math_max (a b : Q) : Q := if Qle_bool a b then b else a.
Definition Math_min (a b : Q) : Q := if Qle_bool a b then a else b.

(** [Math.floor], and [Math.round]: the nearest integer, a tie going up. *)
Definition Math_floor (x : Q) : Z := Qfloor x.
Definition Math_round (x : Q) : Z := Qfloor (x + (1 # 2)).

(** [x || d] on an optional number: [undefined] and [0] are falsy. *)
Definition or_default (x : option Q) (d : Q) : Q :=
  match x with
  | Some v => if eqb v 0 then d else v
  | None => d
  end.

End Num.

Export Num.

Local Open Scope string_scope.
Local Open Scope list_scope.

(* ====================================================================== *)
(** ** Token constants ([COMMON_TOKENS] of the SDK types) *)
(* ====================================================================== *)

Module COMMON_TOKENS.
Definition USDC : string := "EPjFWdd5AufqSSqeM2qN1xzybapC8G4wEGGkZwyTDt1v".
Definition USDT : string := "Es9vMFrzaCERmJfrF4H2FYD4KCoNkY11McCe8BenwNYB".
Definition SOL : string := "So11111111111111111111111111111111111111112".
Definition WBTC : string := "3NZ9JMVBmGAqocybic2c7LQCJScmgsAZ6vQqTDzcqmJh".
Definition WETH : string := "7vfCXTUXx5WJV5JADk17DUJ4ksgau7utNKj4b963voxs".
End COMMON_TOKENS.

(** Truthiness of an optional string: [undefined] and [''] are falsy. *)
Definition truthy (s : option string) : bool :=
  match s with
  | Some v => negb (String.eqb v "")
  | None => false
  end.

(* ====================================================================== *)
(** ** Data model *)
(* ====================================================================== *)

(** The four category percentages: [StrategyDefinition.allocations],
    [PortfolioAllocation] and the target of [compareToTarget] share this
    shape. *)
Record Allocations := mkAllocations {
  stablecoins : Q;
  sol : Q;
  otherTokens : Q;
  stocks : Q
}.

Inductive RiskLevel := conservative | moderate | aggressive.
Inductive Goal := growth | income | preservation | speculation.
Inductive TimeHorizon := short | medium | long.

Record UserProfile := mkUserProfile {
  riskTolerance : RiskLevel;
  investmentGoals : list Goal;
  timeHorizon : TimeHorizon;
  totalInvestment : Q
}.

(** [StrategyDefinition]; the recommended assets are constant data that no
    function of the core reads and are left out. *)
Record StrategyDefinition := mkStrategy {
  name : string;
  riskLevel : RiskLevel;
  allocations : Allocations
}.

Record TokenBalance := mkTokenBalance {
  mint : string;
  symbol : string;
  balance : Q;
  valueUsd : Q
}.

Record StockBalance := mkStockBalance {
  stockSymbol : string;
  stockValueUsd : Q
}.

Record Portfolio := mkPortfolio {
  accountAddress : string;
  tokens : list TokenBalance;
  portfolioStocks : list StockBalance;
  totalValueUsd : Q;
  allocation : Allocations
}.

Inductive TradeType := swap | stock_buy | stock_sell.

Record PlannedTrade := mkPlannedTrade {
  type : TradeType;
  fromAsset : option string;
  toAsset : string;
  amountUsd : Q;
  priority : nat;
  reason : string
}.

Record ExecutionPlan := mkExecutionPlan {
  strategy : StrategyDefinition;
  currentPortfolio : Portfolio;
  trades : list PlannedTrade;
  totalTradeValueUsd : Q;
  estimatedFeesUsd : Q;
  warnings : list string
}.

Record PortfolioBuilderConfig := mkConfig {
  minTradeSize : Q;
  maxSlippageBps : Q;
  rebalanceThresholdPct : Q;
  autoExecute : bool;
  includeStocks : bool;
  dryRun : bool
}.

Definition DEFAULT_CONFIG : PortfolioBuilderConfig :=
  {| minTradeSize := 10;
     maxSlippageBps := 300;
     rebalanceThresholdPct := 5;
     autoExecute := false;
     includeStocks := false;
     dryRun := true |}.

Inductive SwapStatus := swap_success | swap_failed | swap_pending.

Record SwapResult := mkSwapResult {
  signature : string;
  inputMint : string;
  outputMint : string;
  inputAmount : Q;
  outputAmount : Q;
  swapStatus : SwapStatus;
  swapError : option string
}.

Inductive StepStatus := pending | executing | completed | failed.

Record ExecutionStep := mkStep {
  stepType : TradeType;
  asset : string;
  stepAmountUsd : Q;
  percentage : Q;
  status : StepStatus;
  result : option SwapResult;
  error : option string
}.

Inductive ResultStatus := res_success | res_partial | res_failed.

Record Summary := mkSummary {
  totalTradesAttempted : nat;
  totalTradesCompleted : nat;
  totalValueTraded : Q;
  errors : list string
}.

Record ExecutionResult := mkResult {
  resultStatus : ResultStatus;
  steps : list ExecutionStep;
  summary : Summary;
  portfolio : option Portfolio
}.

(* ====================================================================== *)
(** ** Strategies ([strategies/conservative], [moderate], [aggressive]) *)
(* ====================================================================== *)

Definition conservativeStrategy : StrategyDefinition :=
  {| name := "Conservative"; riskLevel := conservative;
     allocations := {| stablecoins := 50; sol := 15; otherTokens := 5; stocks := 30 |} |}.

Definition moderateStrategy : StrategyDefinition :=
  {| name := "Moderate"; riskLevel := moderate;
     allocations := {| stablecoins := 25; sol := 30; otherTokens := 15; stocks := 30 |} |}.

Definition aggressiveStrategy : StrategyDefinition :=
  {| name := "Aggressive"; riskLevel := aggressive;
     allocations := {| stablecoins := 10; sol := 40; otherTokens := 30; stocks := 20 |} |}.

Definition getStrategy (r : RiskLevel) : StrategyDefinition :=
  match r with
  | conservative => conservativeStrategy
  | moderate => moderateStrategy
  | aggressive => aggressiveStrategy
  end.

(* ====================================================================== *)
(** ** Profile analysis ([PortfolioBuilderAgent.analyzeProfile]) *)
(* ====================================================================== *)

Definition Goal_eqb (a b : Goal) : bool :=
  match a, b with
  | growth, growth | income, income
  | preservation, preservation | speculation, speculation => true
  | _, _ => false
  end.

(** [investmentGoals.includes(g)]. *)
Definition includes (gs : list Goal) (g : Goal) : bool := existsb (Goal_eqb g) gs.

(** The four adjustment steps of [adjustStrategyForProfile], each an update
    of the copied allocations. *)
Definition adjustHorizon (h : TimeHorizon) (a : Allocations) : Allocations :=
  match h with
  | short =>
      {| stablecoins := stablecoins a + 10; sol := sol a - 5;
         otherTokens := otherTokens a - 5; stocks := stocks a |}
  | long =>
      {| stablecoins := stablecoins a - 5; sol := sol a + 5;
         otherTokens := otherTokens a; stocks := stocks a |}
  | medium => a
  end.

Definition adjustIncome (gs : list Goal) (a : Allocations) : Allocations :=
  if includes gs income then
    {| stablecoins := stablecoins a + 5; sol := sol a;
       otherTokens := otherTokens a - 5; stocks := stocks a |}
  else a.

Definition adjustSpeculation (gs : list Goal) (a : Allocations) : Allocations :=
  if includes gs speculation then
    {| stablecoins := stablecoins a - 10; sol := sol a;
       otherTokens := otherTokens a + 10; stocks := stocks a |}
  else a.

Definition allocationTotal (a : Allocations) : Q :=
  stablecoins a + sol a + otherTokens a + stocks a.

Definition normalize (a : Allocations) : Allocations :=
  let total := allocationTotal a in
  if negb (Num.eqb total 100) then
    let factor := 100 / total in
    {| stablecoins := stablecoins a * factor; sol := sol a * factor;
       otherTokens := otherTokens a * factor; stocks := stocks a * factor |}
  else a.

Definition adjustStrategyForProfile
    (s : StrategyDefinition) (profile : UserProfile) : StrategyDefinition :=
  let a0 := allocations s in
  let a1 := adjustHorizon (timeHorizon profile) a0 in
  let a2 := adjustIncome (investmentGoals profile) a1 in
  let a3 := adjustSpeculation (investmentGoals profile) a2 in
  {| name := name s; riskLevel := riskLevel s; allocations := normalize a3 |}.

Definition analyzeProfile (profile : UserProfile) : StrategyDefinition :=
  adjustStrategyForProfile (getStrategy (riskTolerance profile)) profile.

(* ====================================================================== *)
(** ** Portfolio module ([PortfolioClient]) *)
(* ====================================================================== *)

(** [xs.reduce((sum, x) => sum + f(x), 0)]: a left fold from [0]. *)
Definition reduce_sum {A : Type} (f : A -> Q) (xs : list A) : Q :=
  fold_left (fun sum x => sum + f x) xs 0.

Definition stablecoinMints : list string :=
  [COMMON_TOKENS.USDC; COMMON_TOKENS.USDT].

(** [stablecoinMints.includes(m)]. *)
Definition isStablecoin (m : string) : bool :=
  existsb (String.eqb m) stablecoinMints.

Definition isSol (m : string) : bool := String.eqb m COMMON_TOKENS.SOL.

Definition stablecoinValue (ts : list TokenBalance) : Q :=
  reduce_sum valueUsd (filter (fun t => isStablecoin (mint t)) ts).

Definition solValue (ts : list TokenBalance) : Q :=
  reduce_sum valueUsd (filter (fun t => isSol (mint t)) ts).

Definition otherTokenValue (ts : list TokenBalance) : Q :=
  reduce_sum valueUsd
    (filter (fun t => negb (isStablecoin (mint t)) && negb (isSol (mint t))) ts).

Definition stockValue (ss : list StockBalance) : Q := reduce_sum stockValueUsd ss.

Definition calculateAllocation
    (ts : list TokenBalance) (ss : list StockBalance) (total : Q) : Allocations :=
  if Num.eqb total 0 then
    {| stablecoins := 0; sol := 0; otherTokens := 0; stocks := 0 |}
  else
    {| stablecoins := (stablecoinValue ts / total) * 100;
       sol := (solValue ts / total) * 100;
       otherTokens := (otherTokenValue ts / total) * 100;
       stocks := (stockValue ss / total) * 100 |}.

(** The tail of [getPortfolio]: totals and allocation of the balances read
    from the chain. *)
Definition buildPortfolio
    (account : string) (ts : list TokenBalance) (ss : list StockBalance) : Portfolio :=
  let totalTokenValue := reduce_sum valueUsd ts in
  let totalStockValue := reduce_sum stockValueUsd ss in
  let total := totalTokenValue + totalStockValue in
  {| accountAddress := account;
     tokens := ts;
     portfolioStocks := ss;
     totalValueUsd := total;
     allocation := calculateAllocation ts ss total |}.

Record Comparison := mkComparison {
  assetType : string;
  targetPct : Q;
  actualPct : Q;
  deviationPct : Q
}.

Definition compareToTarget (p : Portfolio) (target : Allocations) : list Comparison :=
  let a := allocation p in
  [ {| assetType := "stablecoins"; targetPct := stablecoins target;
       actualPct := stablecoins a;
       deviationPct := stablecoins a - stablecoins target |};
    {| assetType := "sol"; targetPct := sol target;
       actualPct := sol a;
       deviationPct := sol a - sol target |};
    {| assetType := "otherTokens"; targetPct := otherTokens target;
       actualPct := otherTokens a;
       deviationPct := otherTokens a - otherTokens target |};
    {| assetType := "stocks"; targetPct := stocks target;
       actualPct := stocks a;
       deviationPct := stocks a - stocks target |} ].

Definition needsRebalancing
    (p : Portfolio) (target : Allocations) (thresholdPct : Q) : bool :=
  existsb (fun c => Num.gtb (Math_abs (deviationPct c)) thresholdPct)
          (compareToTarget p target).

(* ====================================================================== *)
(** ** Health score ([PortfolioBuilderAgent.calculateHealthScore]) *)
(* ====================================================================== *)

Definition totalDeviation (comparison : list Comparison) : Q :=
  fold_left (fun sum c => sum + Math_abs (deviationPct c)) comparison 0.

Definition calculateHealthScore (comparison : list Comparison) : Z :=
  let score := Math_max 0 (100 - totalDeviation comparison / 2) in
  Math_round score.

(* ====================================================================== *)
(** ** Execution planning ([PortfolioBuilderAgent.createExecutionPlan]) *)
(* ====================================================================== *)

(** One category block of the plan: nothing when [|delta|] is below the
    minimum trade size, else one trade built by [buy] or [sell], taking the
    next priority. *)
Definition categoryTrade
    (minSize delta : Q) (buy sell : Q -> nat -> PlannedTrade)
    (st : list PlannedTrade * nat) : list PlannedTrade * nat :=
  let '(ts, prio) := st in
  if Num.geb (Math_abs delta) minSize then
    if Num.gtb delta 0 then (ts ++ [buy delta prio], S prio)
    else (ts ++ [sell (Math_abs delta) prio], S prio)
  else (ts, prio).

Definition mkSwap (from to why : string) (amount : Q) (prio : nat) : PlannedTrade :=
  {| type := swap; fromAsset := Some from; toAsset := to;
     amountUsd := amount; priority := prio; reason := why |}.

Definition mkStock (t : TradeType) (why : string) (amount : Q) (prio : nat)
  : PlannedTrade :=
  {| type := t; fromAsset := None; toAsset := "AAPL";
     amountUsd := amount; priority := prio; reason := why |}.

(** Target minus current value of each category, in USD. *)
Definition planDeltas (s : StrategyDefinition) (p : Portfolio) : Allocations :=
  let totalValue := totalValueUsd p in
  let a := allocations s in
  {| stablecoins := (stablecoins a / 100) * totalValue - stablecoinValue (tokens p);
     sol := (sol a / 100) * totalValue - solValue (tokens p);
     otherTokens := (otherTokens a / 100) * totalValue - otherTokenValue (tokens p);
     stocks := (stocks a / 100) * totalValue - stockValue (portfolioStocks p) |}.

Definition planTrades
    (cfg : PortfolioBuilderConfig) (s : StrategyDefinition) (p : Portfolio)
  : list PlannedTrade :=
  let deltas := planDeltas s p in
  let st0 : list PlannedTrade * nat := ([], 0%nat) in
  let st1 :=
    categoryTrade (minTradeSize cfg) (sol deltas)
      (mkSwap COMMON_TOKENS.USDC COMMON_TOKENS.SOL "Increase SOL allocation")
      (mkSwap COMMON_TOKENS.SOL COMMON_TOKENS.USDC "Decrease SOL allocation") st0 in
  let st2 :=
    categoryTrade (minTradeSize cfg) (otherTokens deltas)
      (mkSwap COMMON_TOKENS.USDC COMMON_TOKENS.WBTC "Increase other tokens allocation")
      (mkSwap COMMON_TOKENS.WBTC COMMON_TOKENS.USDC "Decrease other tokens allocation")
      st1 in
  let st3 :=
    if includeStocks cfg then
      categoryTrade (minTradeSize cfg) (stocks deltas)
        (mkStock stock_buy "Increase stocks allocation")
        (mkStock stock_sell "Decrease stocks allocation") st2
    else st2 in
  fst st3.

Definition planWarnings
    (cfg : PortfolioBuilderConfig) (s : StrategyDefinition) (p : Portfolio)
  : list string :=
  (if negb (includeStocks cfg) && Num.gtb (stocks (allocations s)) 0
   then ["Stock trading is disabled. Stock allocation target will not be achieved."]
   else [])
  ++
  (if Num.ltb (totalValueUsd p) 100
   then ["Portfolio value is very low. Some trades may not be possible due to minimum sizes."]
   else []).

(** [createExecutionPlan] once the portfolio has been fetched. *)
Definition planFor
    (cfg : PortfolioBuilderConfig) (profile : UserProfile) (p : Portfolio)
  : ExecutionPlan :=
  let s := analyzeProfile profile in
  let ts := planTrades cfg s p in
  {| strategy := s;
     currentPortfolio := p;
     trades := ts;
     totalTradeValueUsd := reduce_sum amountUsd ts;
     estimatedFeesUsd := inject_Z (Z.of_nat (List.length ts)) * (1 # 2);
     warnings := planWarnings cfg s p |}.

(* ====================================================================== *)
(** ** Effects: calls to external services, and exceptions *)
(* ====================================================================== *)

(** What a [throw] carries: an [Error] with its message, or any other
    value ([error instanceof Error] tells them apart). *)
Inductive Thrown := ErrorObject (message : string) | OtherValue.

Inductive Outcome (A : Type) := Returned (a : A) | Threw (e : Thrown).
Arguments Returned {A} a.
Arguments Threw {A} e.

(** [error instanceof Error ? error.message : 'Unknown error']. *)
Definition thrownMessage (e : Thrown) : string :=
  match e with
  | ErrorObject m => m
  | OtherValue => "Unknown error"
  end.

(** The calls that leave the process, as they are logged.  The reads of
    [getPortfolio] (the balances and their prices) are logged as one call. *)
Inductive Call :=
| CallGetPortfolio (account : string)
| CallGetTokenPrice (m : string)
| CallGetToken (m : string)
| CallQuote (inMint outMint : string)
| CallSwapInstructions
| CallBuildTransaction
| CallSign
| CallSendRawTransaction
| CallConfirmTransaction.

(** The calls of the swap pipeline: everything but reading the portfolio. *)
Definition isPipelineCall (c : Call) : bool :=
  match c with
  | CallGetPortfolio _ => false
  | _ => true
  end.

Record SwapParams := mkSwapParams {
  paramInputMint : string;
  paramOutputMint : string;
  amount : Q;
  slippageBps : Q;
  userPublicKey : string
}.

(** A quote as the pipeline reads it: [Number(quote.outAmount)] and the raw
    response handed on to the instruction request. *)
Record SwapQuote := mkSwapQuote {
  outAmount : Q;
  raw : string
}.

(** The external services.  Each answers from the state of the world and
    moves it on; each may throw.  Instruction lists and transactions are
    opaque payloads. *)
Record Services (World : Type) := mkServices {
  fetchBalances :
    string -> World -> Outcome (list TokenBalance * list StockBalance) * World;
  fetchTokenPrice : string -> World -> Outcome (option Q) * World;
  fetchToken : string -> World -> Outcome (option nat) * World;
  fetchQuote : SwapParams -> Z -> World -> Outcome SwapQuote * World;
  fetchSwapInstructions : string -> string -> World -> Outcome string * World;
  buildTransaction : string -> string -> World -> Outcome string * World;
  signTransaction : string -> World -> Outcome string * World;
  sendRawTransaction : string -> World -> Outcome string * World;
  confirmTransaction : string -> World -> Outcome (option string) * World
}.

Arguments fetchBalances {World}.
Arguments fetchTokenPrice {World}.
Arguments fetchToken {World}.
Arguments fetchQuote {World}.
Arguments fetchSwapInstructions {World}.
Arguments buildTransaction {World}.
Arguments signTransaction {World}.
Arguments sendRawTransaction {World}.
Arguments confirmTransaction {World}.

Section Agent.

Variable World : Type.
Variable services : Services World.

(** The state threaded through an invocation: the world and the log of the
    calls made so far. *)
Record AgentState := mkAgentState {
  world : World;
  calls : list Call
}.

Definition Eff (A : Type) : Type := AgentState -> Outcome A * AgentState.

Definition ret {A} (a : A) : Eff A := fun st => (Returned a, st).

Definition throw {A} (e : Thrown) : Eff A := fun st => (Threw e, st).

Definition bind {A B} (m : Eff A) (k : A -> Eff B) : Eff B :=
  fun st =>
    match m st with
    | (Returned a, st') => k a st'
    | (Threw e, st') => (Threw e, st')
    end.

(** [try { body } catch (error) { handler }]: what the body did to the
    world before it threw stays done. *)
Definition try_catch {A} (body : Eff A) (handler : Thrown -> Eff A) : Eff A :=
  fun st =>
    match body st with
    | (Returned a, st') => (Returned a, st')
    | (Threw e, st') => handler e st'
    end.

(** One logged call to a service. *)
Definition call {A} (c : Call) (f : World -> Outcome A * World) : Eff A :=
  fun st =>
    let '(r, w) := f (world st) in
    (r, {| world := w; calls := calls st ++ [c] |}).

Notation "x <- m ;; k" := (bind m (fun x => k))
  (at level 61, m at next level, right associativity).

(** [for (const x of xs) body], threading the loop's variables. *)
Fixpoint forEach {A S : Type} (body : S -> A -> Eff S) (xs : list A) (acc : S)
  : Eff S :=
  match xs with
  | [] => ret acc
  | x :: rest => acc' <- body acc x ;; forEach body rest acc'
  end.

(** *** SDK calls *)

Definition getPortfolio (account : string) : Eff Portfolio :=
  b <- call (CallGetPortfolio account) (fetchBalances services account) ;;
  ret (buildPortfolio account (fst b) (snd b)).

Definition getTokenPrice (m : string) : Eff (option Q) :=
  call (CallGetTokenPrice m) (fetchTokenPrice services m).

Definition getToken (m : string) : Eff (option nat) :=
  call (CallGetToken m) (fetchToken services m).

(** *** The swap pipeline ([TradingClient]) *)

Definition pow10 (decimals : nat) : Q := inject_Z (10 ^ Z.of_nat decimals).

Definition getSwapQuote (params : SwapParams) : Eff SwapQuote :=
  token <- getToken (paramInputMint params) ;;
  match token with
  | None =>
      throw (ErrorObject
               (String.append "Unknown input token: " (paramInputMint params)))
  | Some decimals =>
      let rawAmount := Math_floor (amount params * pow10 decimals) in
      call (CallQuote (paramInputMint params) (paramOutputMint params))
           (fetchQuote services params rawAmount)
  end.

Definition getSwapInstructions (quoteResponse user : string) : Eff string :=
  call CallSwapInstructions (fetchSwapInstructions services quoteResponse user).

Definition buildSwapTransaction (instructions user : string) : Eff string :=
  call CallBuildTransaction (buildTransaction services instructions user).

Definition swapOutcome
    (params : SwapParams) (sig : string) (out : Q)
    (st : SwapStatus) (err : option string) : SwapResult :=
  {| signature := sig;
     inputMint := paramInputMint params;
     outputMint := paramOutputMint params;
     inputAmount := amount params;
     outputAmount := out;
     swapStatus := st;
     swapError := err |}.

(** The body of the [try] block of [executeSwap]: the stages of one swap,
    in order. *)
Definition swapPipeline (params : SwapParams) : Eff SwapResult :=
  inputToken <- getToken (paramInputMint params) ;;
  outputToken <- getToken (paramOutputMint params) ;;
  match inputToken, outputToken with
  | Some _, Some outDecimals =>
      quote <- getSwapQuote params ;;
      instructions <- getSwapInstructions (raw quote) (userPublicKey params) ;;
      transaction <- buildSwapTransaction instructions (userPublicKey params) ;;
      signed <- call CallSign (signTransaction services transaction) ;;
      sig <- call CallSendRawTransaction (sendRawTransaction services signed) ;;
      confirmation <-
        call CallConfirmTransaction (confirmTransaction services sig) ;;
      match confirmation with
      | Some err =>
          ret (swapOutcome params sig 0 swap_failed
                 (Some (String.append "Transaction failed: " err)))
      | None =>
          ret (swapOutcome params sig (outAmount quote / pow10 outDecimals)
                 swap_success None)
      end
  | _, _ => throw (ErrorObject "Could not resolve token info")
  end.

Definition executeSwap (params : SwapParams) : Eff SwapResult :=
  try_catch (swapPipeline params)
    (fun error =>
       ret (swapOutcome params "" 0 swap_failed (Some (thrownMessage error)))).

(** *** Trade execution ([PortfolioBuilderAgent.executeAllocation]) *)

Variable config : PortfolioBuilderConfig.

Definition executeSwapTrade
    (account fromMint toMint : string) (amountUsd : Q) : Eff SwapResult :=
  price <- getTokenPrice fromMint ;;
  match price with
  | None =>
      ret {| signature := ""; inputMint := fromMint; outputMint := toMint;
             inputAmount := 0; outputAmount := 0; swapStatus := swap_failed;
             swapError := Some "Could not get input token price" |}
  | Some priceUsd =>
      let amount := amountUsd / priceUsd in
      executeSwap {| paramInputMint := fromMint; paramOutputMint := toMint;
                     amount := amount; slippageBps := maxSlippageBps config;
                     userPublicKey := account |}
  end.

(** [[...plan.trades].sort((a, b) => a.priority - b.priority)]: a stable
    sort by ascending priority. *)
Fixpoint insertByPriority (t : PlannedTrade) (sorted : list PlannedTrade)
  : list PlannedTrade :=
  match sorted with
  | [] => [t]
  | u :: rest =>
      if (priority t <=? priority u)%nat then t :: u :: rest
      else u :: insertByPriority t rest
  end.

Definition sortByPriority (ts : list PlannedTrade) : list PlannedTrade :=
  fold_right insertByPriority [] ts.

(** The variables of the execution loop. *)
Record LoopState := mkLoopState {
  loopSteps : list ExecutionStep;
  loopErrors : list string;
  loopValueTraded : Q
}.

Definition tradeTypeName (t : TradeType) : string :=
  match t with
  | swap => "swap"
  | stock_buy => "stock_buy"
  | stock_sell => "stock_sell"
  end.

Definition isSwap (t : TradeType) : bool :=
  match t with swap => true | _ => false end.

Definition stepOf (totalValue : Q) (trade : PlannedTrade) (st : StepStatus)
  : ExecutionStep :=
  {| stepType := type trade;
     asset := toAsset trade;
     stepAmountUsd := amountUsd trade;
     percentage := (amountUsd trade / totalValue) * 100;
     status := st;
     result := None;
     error := None |}.

Definition withResult (s : ExecutionStep) (r : SwapResult) (st : StepStatus)
  : ExecutionStep :=
  {| stepType := stepType s; asset := asset s; stepAmountUsd := stepAmountUsd s;
     percentage := percentage s; status := st; result := Some r;
     error := error s |}.

Definition withError (s : ExecutionStep) (st : StepStatus) (msg : string)
  : ExecutionStep :=
  {| stepType := stepType s; asset := asset s; stepAmountUsd := stepAmountUsd s;
     percentage := percentage s; status := st; result := result s;
     error := Some msg |}.

Definition pushStep (acc : LoopState) (s : ExecutionStep) : LoopState :=
  {| loopSteps := loopSteps acc ++ [s];
     loopErrors := loopErrors acc;
     loopValueTraded := loopValueTraded acc |}.

Definition pushStepError (acc : LoopState) (s : ExecutionStep) (msg : string)
  : LoopState :=
  {| loopSteps := loopSteps acc ++ [s];
     loopErrors := loopErrors acc ++ [msg];
     loopValueTraded := loopValueTraded acc |}.

Definition pushStepValue (acc : LoopState) (s : ExecutionStep) (v : Q) : LoopState :=
  {| loopSteps := loopSteps acc ++ [s];
     loopErrors := loopErrors acc;
     loopValueTraded := loopValueTraded acc + v |}.

(** What the loop does with the result of a swap. *)
Definition recordSwap
    (acc : LoopState) (step : ExecutionStep) (trade : PlannedTrade)
    (r : SwapResult) : LoopState :=
  match swapStatus r with
  | swap_success =>
      pushStepValue acc (withResult step r completed) (amountUsd trade)
  | _ =>
      if truthy (swapError r) then
        let e := match swapError r with Some e => e | None => "" end in
        pushStepError acc (withError (withResult step r failed) failed e)
          (String.append (tradeTypeName (type trade))
             (String.append " failed: " e))
      else pushStep acc (withResult step r failed)
  end.

(** One iteration of the loop.  The step object is pushed first and filled
    in afterwards; the array holds the same object, so the iteration is
    modelled by pushing the step as it stands when the iteration ends. *)
Definition executeTrade
    (account : string) (totalValue : Q)
    (acc : LoopState) (trade : PlannedTrade) : Eff LoopState :=
  let step := stepOf totalValue trade executing in
  let notSwap :=
    match type trade with
    | stock_buy | stock_sell =>
        ret (pushStepError acc
               (withError step failed "Stock trading not yet implemented")
               "Stock trading not yet implemented")
    | swap => ret (pushStep acc step)
    end in
  try_catch
    (match type trade, fromAsset trade with
     | swap, Some fromMint =>
         if truthy (Some fromMint) then
           r <- executeSwapTrade account fromMint (toAsset trade) (amountUsd trade) ;;
           ret (recordSwap acc step trade r)
         else notSwap
     | _, _ => notSwap
     end)
    (fun e =>
       let msg := thrownMessage e in
       ret (pushStepError acc (withError step failed msg)
              (String.append "Trade failed: " msg))).

Definition runTrades (account : string) (totalValue : Q) (ts : list PlannedTrade)
  : Eff LoopState :=
  forEach (executeTrade account totalValue) (sortByPriority ts)
    {| loopSteps := []; loopErrors := []; loopValueTraded := 0 |}.

Definition isCompleted (s : ExecutionStep) : bool :=
  match status s with completed => true | _ => false end.

Definition createExecutionPlan (account : string) (profile : UserProfile)
  : Eff ExecutionPlan :=
  p <- getPortfolio account ;;
  ret (planFor config profile p).

(** The three objects [executeAllocation] returns: for an empty plan, for a
    dry run, and after the loop. *)
Definition emptyReport (plan : ExecutionPlan) : ExecutionResult :=
  {| resultStatus := res_success;
     steps := [];
     summary := {| totalTradesAttempted := 0;
                   totalTradesCompleted := 0;
                   totalValueTraded := 0;
                   errors := [] |};
     portfolio := Some (currentPortfolio plan) |}.

Definition dryRunReport (plan : ExecutionPlan) : ExecutionResult :=
  {| resultStatus := res_success;
     steps :=
       map (fun t => stepOf (totalValueUsd (currentPortfolio plan)) t pending)
           (trades plan);
     summary := {| totalTradesAttempted := List.length (trades plan);
                   totalTradesCompleted := 0;
                   totalValueTraded := totalTradeValueUsd plan;
                   errors := ["Dry run mode - no trades executed"] |};
     portfolio := Some (currentPortfolio plan) |}.

Definition liveReport (acc : LoopState) (finalPortfolio : Portfolio)
  : ExecutionResult :=
  let completedSteps := List.length (filter isCompleted (loopSteps acc)) in
  {| resultStatus :=
       if (completedSteps =? List.length (loopSteps acc))%nat then res_success
       else if (0 <? completedSteps)%nat then res_partial
       else res_failed;
     steps := loopSteps acc;
     summary := {| totalTradesAttempted := List.length (loopSteps acc);
                   totalTradesCompleted := completedSteps;
                   totalValueTraded := loopValueTraded acc;
                   errors := loopErrors acc |};
     portfolio := Some finalPortfolio |}.

Definition executeAllocation (account : string) (profile : UserProfile)
  : Eff ExecutionResult :=
  plan <- createExecutionPlan account profile ;;
  if (List.length (trades plan) =? 0)%nat then ret (emptyReport plan)
  else if dryRun config then ret (dryRunReport plan)
  else
    acc <- runTrades account (totalValueUsd (currentPortfolio plan)) (trades plan) ;;
    finalPortfolio <- getPortfolio account ;;
    ret (liveReport acc finalPortfolio).

(** *** What a step records of its trade

    [pipelineRun] is what the swap pipeline does for a trade when the loop
    reaches it in state [st]: nothing when the loop does not call it (a
    stock trade, or a swap with no source asset). *)
Definition pipelineRun (account : string) (trade : PlannedTrade) (st : AgentState)
  : option (Outcome SwapResult * AgentState) :=
  match type trade, fromAsset trade with
  | swap, Some fromMint =>
      if truthy (Some fromMint) then
        Some (executeSwapTrade account fromMint (toAsset trade) (amountUsd trade) st)
      else None
  | _, _ => None
  end.

(** A step records a run of the pipeline for its trade. *)
Definition recorded
    (trade : PlannedTrade) (run : option (Outcome SwapResult)) (s : ExecutionStep)
  : Prop :=
  stepType s = type trade /\ asset s = toAsset trade /\
  stepAmountUsd s = amountUsd trade /\
  match run with
  | Some (Threw e) => status s = failed /\ error s = Some (thrownMessage e)
  | Some (Returned r) =>
      result s = Some r /\
      match swapStatus r with
      | swap_success => status s = completed
      | _ => status s = failed /\
             error s = if truthy (swapError r) then swapError r else None
      end
  | None =>
      match type trade with
      | swap => status s = executing
      | _ => status s = failed /\
             error s = Some "Stock trading not yet implemented"
      end
  end.

(** The sum of [amountUsd] over the completed steps, in the order of the
    steps. *)
Definition completedValue (ss : list ExecutionStep) : Q :=
  reduce_sum stepAmountUsd (filter isCompleted ss).

Definition completedCount (ss : list ExecutionStep) : nat :=
  List.length (filter isCompleted ss).

(** The steps a run of the loop adds: one per trade, in order, each
    recording the run of the pipeline from the state the loop had reached. *)
Definition stepsRecord (account : string)
  : list PlannedTrade -> list ExecutionStep -> Prop :=
  Forall2 (fun trade s =>
             exists st_k : AgentState,
               recorded trade (option_map fst (pipelineRun account trade st_k)) s).

End Agent.

Arguments world {World}.
Arguments calls {World}.
Arguments mkAgentState {World}.
Arguments ret {World A} a.
Arguments throw {World A} e.
Arguments bind {World A B} m k.
Arguments try_catch {World A} body handler.
Arguments call {World A} c f.
Arguments forEach {World A S} body xs acc.
Arguments getPortfolio {World} services account.
Arguments getTokenPrice {World} services m.
Arguments getToken {World} services m.
Arguments getSwapQuote {World} services params.
Arguments swapPipeline {World} services params.
Arguments executeSwap {World} services params.
Arguments executeSwapTrade {World} services config account fromMint toMint amountUsd.
Arguments executeTrade {World} services config account totalValue acc trade.
Arguments runTrades {World} services config account totalValue ts.
Arguments createExecutionPlan {World} services config account profile.
Arguments executeAllocation {World} services config account profile.
Arguments pipelineRun {World} services config account trade st.
Arguments stepsRecord {World} services config account.

(* ====================================================================== *)
(** ** The autonomous manager ([AutonomousPortfolioManager]) *)
(* ====================================================================== *)

Module Manager.

Module TOKENS.
Definition SOL : string := "So11111111111111111111111111111111111111112".
Definition USDC : string := "EPjFWdd5AufqSSqeM2qN1xzybapC8G4wEGGkZwyTDt1v".
Definition USDT : string := "Es9vMFrzaCERmJfrF4H2FYD4KCoNkY11McCe8BenwNYB".
Definition USDY : string := "A1KLoBrKBde8Ty9qtNQUtq3C2ortoC3u7twggz7sEto6".
Definition EURC : string := "HzwqbKZw8HxMN6bF2yFZNrht3c2iXXzpKcFu7uBEDKtr".
End TOKENS.

Record TokenInfo := mkTokenInfo {
  mint : string;
  decimals : nat;
  priceUsd : option Q
}.

(** A JavaScript object read as a map from keys to values: its entries in
    insertion order. *)
Definition Dict (V : Type) : Type := list (string * V).

Fixpoint lookup {V : Type} (d : Dict V) (key : string) : option V :=
  match d with
  | [] => None
  | (k, v) :: rest => if String.eqb k key then Some v else lookup rest key
  end.

Definition TOKEN_INFO : Dict TokenInfo :=
  [ ("SOL", {| mint := TOKENS.SOL; decimals := 9; priceUsd := Some 180 |});
    ("USDC", {| mint := TOKENS.USDC; decimals := 6; priceUsd := Some 1 |});
    ("USDY", {| mint := TOKENS.USDY; decimals := 6; priceUsd := Some (112 # 100) |});
    ("EURC", {| mint := TOKENS.EURC; decimals := 6; priceUsd := Some (104 # 100) |});
    ("USDT", {| mint := TOKENS.USDT; decimals := 6; priceUsd := Some 1 |}) ].

(** [TargetAllocation]: token symbol to target percentage. *)
Definition TargetAllocation : Type := Dict Q.

Record Holding := mkHolding {
  symbol : string;
  holdingMint : string;
  holdingAmount : Q;
  valueUsd : Q;
  percentage : Q
}.

Record PortfolioState := mkPortfolioState {
  totalValueUsd : Q;
  holdings : list Holding
}.

Record ManagerConfig := mkManagerConfig {
  rebalanceThresholdPct : option Q;
  minTradeUsd : option Q
}.

(** A rebalance action.  [amount] is the raw token amount, which the source
    prints as a decimal string; [tradeUsd] is the matched size in USD, which
    the source writes into the [reason] text. *)
Record RebalanceAction := mkAction {
  fromSymbol : string;
  toSymbol : string;
  amount : Z;
  tradeUsd : Q
}.

Record Overweight := mkOverweight {
  overSymbol : string;
  excessUsd : Q;
  overMint : string;
  overDecimals : nat
}.

Record Underweight := mkUnderweight {
  underSymbol : string;
  deficitUsd : Q;
  underMint : string
}.

Definition threshold (cfg : ManagerConfig) : Q :=
  or_default (rebalanceThresholdPct cfg) 5.

Definition minTrade (cfg : ManagerConfig) : Q :=
  or_default (minTradeUsd cfg) (1 # 2).

(** [state.holdings.find(h => h.symbol === symbol)]. *)
Definition findHolding (state : PortfolioState) (sym : string) : option Holding :=
  find (fun h => String.eqb (symbol h) sym) (holdings state).

(** [holding?.percentage || 0] and [holding?.valueUsd || 0]. *)
Definition currentPct (state : PortfolioState) (sym : string) : Q :=
  or_default (option_map percentage (findHolding state sym)) 0.

Definition currentValueUsd (state : PortfolioState) (sym : string) : Q :=
  or_default (option_map valueUsd (findHolding state sym)) 0.

(** The first loop of [calculateRebalanceActions]: the overweight and the
    underweight positions, in the order of the target's entries. *)
Fixpoint partition
    (cfg : ManagerConfig) (state : PortfolioState) (target : TargetAllocation)
  : list Overweight * list Underweight :=
  match target with
  | [] => ([], [])
  | (sym, targetPct) :: rest =>
      let '(overweight, underweight) := partition cfg state rest in
      let cur := currentPct state sym in
      let targetValueUsd := (targetPct / 100) * totalValueUsd state in
      let diff := currentValueUsd state sym - targetValueUsd in
      if Num.gtb diff (minTrade cfg) && Num.gtb (cur - targetPct) (threshold cfg) then
        match lookup TOKEN_INFO sym with
        | Some info =>
            ({| overSymbol := sym; excessUsd := diff; overMint := mint info;
                overDecimals := decimals info |} :: overweight, underweight)
        | None => (overweight, underweight)
        end
      else if Num.ltb diff (- minTrade cfg)
              && Num.gtb (targetPct - cur) (threshold cfg) then
        match lookup TOKEN_INFO sym with
        | Some info =>
            (overweight,
             {| underSymbol := sym; deficitUsd := - diff; underMint := mint info |}
               :: underweight)
        | None => (overweight, underweight)
        end
      else (overweight, underweight)
  end.

(** [TOKEN_INFO[symbol]?.priceUsd || 1]. *)
Definition priceOf (sym : string) : Q :=
  or_default (match lookup TOKEN_INFO sym with
              | Some info => priceUsd info
              | None => None
              end) 1.

(** The inner loop for one overweight position: it walks the underweight
    positions in order, and both the position and the ones it walks are
    updated in place. *)
Fixpoint matchUnder (minT : Q) (over : Overweight) (unders : list Underweight)
  : Overweight * list Underweight * list RebalanceAction :=
  match unders with
  | [] => (over, [], [])
  | under :: rest =>
      if Num.ltb (excessUsd over) minT || Num.ltb (deficitUsd under) minT then
        let '(over', rest', acts) := matchUnder minT over rest in
        (over', under :: rest', acts)
      else
        let trade := Math_min (excessUsd over) (deficitUsd under) in
        let tokenAmount := trade / priceOf (overSymbol over) in
        let rawAmount := Math_floor (tokenAmount * pow10 (overDecimals over)) in
        let action :=
          {| fromSymbol := overSymbol over; toSymbol := underSymbol under;
             amount := rawAmount; tradeUsd := trade |} in
        let over1 :=
          {| overSymbol := overSymbol over; excessUsd := excessUsd over - trade;
             overMint := overMint over; overDecimals := overDecimals over |} in
        let under1 :=
          {| underSymbol := underSymbol under;
             deficitUsd := deficitUsd under - trade;
             underMint := underMint under |} in
        let '(over', rest', acts) := matchUnder minT over1 rest in
        (over', under1 :: rest', action :: acts)
  end.

(** The outer loop over the overweight positions. *)
Fixpoint matchAll (minT : Q) (overs : list Overweight) (unders : list Underweight)
  : list Overweight * list Underweight * list RebalanceAction :=
  match overs with
  | [] => ([], unders, [])
  | over :: rest =>
      let '(over', unders', acts) := matchUnder minT over unders in
      let '(rest', unders'', acts') := matchAll minT rest unders' in
      (over' :: rest', unders'', acts ++ acts')
  end.

(** [calculateRebalanceActions] on the portfolio state it has read. *)
Definition calculateRebalanceActions
    (cfg : ManagerConfig) (target : TargetAllocation) (state : PortfolioState)
  : list RebalanceAction :=
  let '(overweight, underweight) := partition cfg state target in
  snd (matchAll (minTrade cfg) overweight underweight).

End Manager.

(* ====================================================================== *)
(** ** Analysis, recommendations and rebalancing
       ([PortfolioBuilderAgent.analyzePortfolio],
        [generateRecommendations], [rebalanceIfNeeded]) *)
(* ====================================================================== *)

Inductive TradeAction := action_sell | action_buy | action_hold.

Record ComparisonRow := mkComparisonRow {
  rowAssetType : string;
  rowCurrentPct : Q;
  rowTargetPct : Q;
  rowDeviationPct : Q;
  action : TradeAction
}.

Record PortfolioAnalysis := mkPortfolioAnalysis {
  analysisPortfolio : Portfolio;
  recommendedStrategy : StrategyDefinition;
  analysisComparison : list ComparisonRow;
  healthScore : Z;
  recommendations : list string
}.

Record RebalanceResult := mkRebalanceResult {
  rebalanceNeeded : bool;
  executionResult : option ExecutionResult;
  before : Portfolio;
  after : option Portfolio;
  rebalanceSummary : string
}.

Definition resultStatusName (s : ResultStatus) : string :=
  match s with
  | res_success => "success"
  | res_partial => "partial"
  | res_failed => "failed"
  end.

(** A count printed in decimal, as a template literal prints it. *)
Definition showNat (n : nat) : string := NilZero.string_of_uint (Nat.to_uint n).

Section AgentReporting.

Variable World : Type.
Variable services : Services World.
Variable config : PortfolioBuilderConfig.

(** [Number.prototype.toFixed]: the printing of a number with a fixed count
    of decimals is left as a parameter. *)
Variable toFixed : Q -> nat -> string.

Notation "x <- m ;; k" := (bind m (fun x => k))
  (at level 61, m at next level, right associativity).

(** The body of the loop of [generateRecommendations] for one comparison. *)
Definition recommendationFor (c : Comparison) : list string :=
  let absDeviation := Math_abs (deviationPct c) in
  if Num.gtb absDeviation (rebalanceThresholdPct config) then
    if Num.gtb (deviationPct c) 0 then
      [String.concat ""
         ["Consider selling "; toFixed absDeviation 1; "% of "; assetType c;
          " to reach target allocation"]]
    else
      [String.concat ""
         ["Consider buying "; toFixed absDeviation 1; "% more "; assetType c;
          " to reach target allocation"]]
  else [].

(** [generateRecommendations]; its strategy and portfolio arguments are not
    read by the source. *)
Definition generateRecommendations (comparison : list Comparison) : list string :=
  let found := flat_map recommendationFor comparison in
  if (List.length found =? 0)%nat then
    ["Portfolio is well-balanced. No immediate action needed."]
  else found.

Definition actionFor (deviation : Q) : TradeAction :=
  if Num.gtb deviation 0 then action_sell
  else if Num.ltb deviation 0 then action_buy
  else action_hold.

Definition analyzePortfolio (account : string) (profile : UserProfile)
  : Eff World PortfolioAnalysis :=
  p <- getPortfolio services account ;;
  let s := analyzeProfile profile in
  let comparison := compareToTarget p (allocations s) in
  ret {| analysisPortfolio := p;
         recommendedStrategy := s;
         analysisComparison :=
           map (fun c => {| rowAssetType := assetType c;
                            rowCurrentPct := actualPct c;
                            rowTargetPct := targetPct c;
                            rowDeviationPct := deviationPct c;
                            action := actionFor (deviationPct c) |})
               comparison;
         healthScore := calculateHealthScore comparison;
         recommendations := generateRecommendations comparison |}.

(** [rebalanceIfNeeded]; [signer] is the optional key pair. *)
Definition rebalanceIfNeeded
    (account : string) (profile : UserProfile) (signer : option string)
  : Eff World RebalanceResult :=
  p <- getPortfolio services account ;;
  let s := analyzeProfile profile in
  let needed := needsRebalancing p (allocations s) (rebalanceThresholdPct config) in
  if negb needed then
    ret {| rebalanceNeeded := false;
           executionResult := None;
           before := p;
           after := None;
           rebalanceSummary :=
             "Portfolio is balanced within threshold. No rebalancing needed." |}
  else if match signer with None => true | Some _ => false end
          || negb (autoExecute config) then
    ret {| rebalanceNeeded := true;
           executionResult := None;
           before := p;
           after := None;
           rebalanceSummary :=
             "Portfolio needs rebalancing but auto-execute is disabled or no signer provided." |}
  else
    r <- executeAllocation services config account profile ;;
    ret {| rebalanceNeeded := true;
           executionResult := Some r;
           before := p;
           after := portfolio r;
           rebalanceSummary :=
             String.concat ""
               ["Rebalancing "; resultStatusName (resultStatus r); ". ";
                showNat (totalTradesCompleted (summary r)); "/";
                showNat (totalTradesAttempted (summary r));
                " trades completed."] |}.

(** [getPortfolioSummary] with a profile: the portfolio is read once for
    the summary and once more by the analysis. *)
Definition getPortfolioSummary (account : string) (profile : option UserProfile)
  : Eff World (Portfolio * option PortfolioAnalysis * list string) :=
  p <- getPortfolio services account ;;
  match profile with
  | None =>
      ret (p, None, ["Provide a user profile to get personalized recommendations."])
  | Some userProfile =>
      analysis <- analyzePortfolio account userProfile ;;
      ret (p, Some analysis, recommendations analysis)
  end.

End AgentReporting.

Arguments analyzePortfolio {World} services config toFixed account profile.
Arguments rebalanceIfNeeded {World} services config account profile signer.
Arguments getPortfolioSummary {World} services config toFixed account profile.

(* ====================================================================== *)
(** ** The manager's view of the portfolio
       ([AutonomousPortfolioManager.getPortfolioState],
        [checkRebalanceNeeded]) *)
(* ====================================================================== *)

Module ManagerPortfolio.
Import Manager.

(** The wallet's portfolio ([AgentWallet.getPortfolio]): the SOL balance and
    the token balances, a token's symbol being optional. *)
Record WalletToken := mkWalletToken {
  tokenMint : string;
  tokenAmount : Q;
  tokenDecimals : nat;
  tokenSymbol : option string
}.

Record WalletPortfolio := mkWalletPortfolio {
  solBalance : Q;
  walletTokens : list WalletToken
}.

(** [for (const [sym, info] of Object.entries(TOKEN_INFO))
       if (info.mint === token.mint) { ...; break; }]:
    the first entry with the mint. *)
Fixpoint findByMint (infos : Dict TokenInfo) (m : string)
  : option (string * TokenInfo) :=
  match infos with
  | [] => None
  | (sym, info) :: rest =>
      if String.eqb (mint info) m then Some (sym, info) else findByMint rest m
  end.

(** The holding pushed for one token, its percentage still 0. *)
Definition tokenHolding (token : WalletToken) : Holding :=
  let unknown :=
    if truthy (tokenSymbol token)
    then match tokenSymbol token with Some s => s | None => "UNKNOWN" end
    else "UNKNOWN" in
  let '(sym, price) :=
    match findByMint TOKEN_INFO (tokenMint token) with
    | Some (sym, info) => (sym, or_default (priceUsd info) 1)
    | None => (unknown, 1)
    end in
  {| symbol := sym;
     holdingMint := tokenMint token;
     holdingAmount := tokenAmount token;
     valueUsd := tokenAmount token * price;
     percentage := 0 |}.

(** [TOKEN_INFO.SOL.priceUsd || 180]. *)
Definition solPrice : Q :=
  or_default (match lookup TOKEN_INFO "SOL" with
              | Some info => priceUsd info
              | None => None
              end) 180.

(** The holdings as pushed, before the percentages are filled in. *)
Definition rawHoldings (p : WalletPortfolio) : list Holding :=
  (if Num.gtb (solBalance p) 0 then
     [ {| symbol := "SOL";
          holdingMint := TOKENS.SOL;
          holdingAmount := solBalance p;
          valueUsd := solBalance p * solPrice;
          percentage := 0 |} ]
   else [])
  ++ map tokenHolding (walletTokens p).

Definition withPercentage (total : Q) (h : Holding) : Holding :=
  {| symbol := symbol h;
     holdingMint := holdingMint h;
     holdingAmount := holdingAmount h;
     valueUsd := valueUsd h;
     percentage := if Num.gtb total 0 then (valueUsd h / total) * 100 else 0 |}.

(** [getPortfolioState] on the portfolio the wallet returned. *)
Definition getPortfolioState (p : WalletPortfolio) : PortfolioState :=
  let pushed := rawHoldings p in
  let total := fold_left (fun sum h => sum + valueUsd h) pushed 0 in
  {| totalValueUsd := total;
     holdings := map (withPercentage total) pushed |}.

(** [checkRebalanceNeeded] on the state it has read. *)
Definition checkRebalanceNeeded
    (cfg : ManagerConfig) (target : TargetAllocation) (state : PortfolioState)
  : bool :=
  existsb
    (fun holding =>
       let targetPct := or_default (lookup target (symbol holding)) 0 in
       let drift := Math_abs (percentage holding - targetPct) in
       Num.gtb drift (threshold cfg))
    (holdings state).

(** The raw amount [handleSwap] asks the wallet to swap for an amount in
    USD: [None] for a symbol that [TOKEN_INFO] does not list. *)
Definition swapRawAmount (fromSymbol toSymbol : string) (amountUsd : Q) : option Z :=
  match lookup TOKEN_INFO fromSymbol, lookup TOKEN_INFO toSymbol with
  | Some fromInfo, Some _ =>
      let tokenAmount := amountUsd / or_default (priceUsd fromInfo) 1 in
      Some (Math_floor (tokenAmount * pow10 (decimals fromInfo)))
  | _, _ => None
  end.

End ManagerPortfolio.

(* ====================================================================== *)
(** ** The agent wallet ([sdk/agent-wallet.ts]) *)
(* ====================================================================== *)

Module AgentWallet.

(** [TOKENS]: symbol to mint, in the order of the object's entries. *)
Definition TOKENS : list (string * string) :=
  [ ("SOL", "So11111111111111111111111111111111111111112");
    ("USDC", "EPjFWdd5AufqSSqeM2qN1xzybapC8G4wEGGkZwyTDt1v");
    ("USDT", "Es9vMFrzaCERmJfrF4H2FYD4KCoNkY11McCe8BenwNYB");
    ("USDY", "A1KLoBrKBde8Ty9qtNQUtq3C2ortoC3u7twggz7sEto6");
    ("EURC", "HzwqbKZw8HxMN6bF2yFZNrht3c2iXXzpKcFu7uBEDKtr");
    ("JUP", "JUPyiwrYJFskUPiHa7hkeR8VUtAeFoSYbKedZNsDvCN");
    ("BONK", "DezXAZ8z7PnrnRJjz3wXBoRgixCa6xjnB7YaB1pPB263");
    ("SPYx", "XsoCS1TfEyfFhfvj8EtZ528L3CaKBDBRqRapnBbDF2W");
    ("QQQx", "Xs8S1uUs1zvS2p7iwtsG3b6fkhpvmwz4GYU3gWAmWHZ");
    ("TSLAx", "XsDoVfqeBukxuZHWhdvWHBhgEHjGNst4MLodqsJHzoB");
    ("AAPLx", "XsbEhLAtcf6HdfpFZ5xEMdqW8nfAvcsP5bdudRLJzJp");
    ("NVDAx", "Xsc9qvGR1efVDFGLrVsmkzv3qi45LTBjeUKSPmx9qEh");
    ("GOOGLx", "XsCPL9dNWBMvFtTmwcCA5v3xWPSMEBCszbQdiLLq6aN");
    ("AMZNx", "Xs3eBt7uRfJX8QUs4suhyU8p2M6DoUDrJyWBa8LLZsg") ].

Definition SOL_MINT : string := "So11111111111111111111111111111111111111112".

Record Wallet := mkWallet {
  id : string;
  address : string;
  chainType : string
}.

Record SwapResult := mkSwapResult {
  success : bool;
  txSignature : option string;
  error : option string;
  inputAmount : string;
  outputAmount : option string
}.

Record TokenBalance := mkTokenBalance {
  mint : string;
  symbol : option string;
  amount : Q;
  decimals : nat
}.

Record Portfolio := mkPortfolio {
  solBalance : Q;
  tokens : list TokenBalance
}.

(** The bodies of the responses the wallet reads. *)
Record ParsedTokenAccount := mkParsedTokenAccount {
  accountMint : string;
  uiAmount : option Q;
  accountDecimals : nat
}.

Record JupiterQuoteResponse := mkQuote {
  inAmount : string;
  outAmount : option string;
  quoteError : option string
}.

Record JupiterSwapInstructionsResponse := mkInstructions {
  instructionsError : option string;
  instructionsBody : string
}.

Record PrivySignResponse := mkSignResponse {
  signError : option string;
  signedTransaction : option string
}.

(** An HTTP response read by [createWallet] and [loadWallet]: not ok, with
    the error field of its body and its status text, or ok with a wallet. *)
Inductive WalletResponse :=
| NotOk (errorField : option string) (statusText : string)
| Ok (wallet : Wallet).

(** The requests that leave the process, as they are logged. *)
Inductive Request :=
| ReqCreateWallet
| ReqLoadWallet (walletId : string)
| ReqBalance (addr : string)
| ReqTokenAccounts (addr : string)
| ReqQuote (inputMint outputMint amountRaw : string)
| ReqSwapInstructions
| ReqBlockhash
| ReqSign (walletId : string)
| ReqSend.

(** The services behind the wallet.  A request stands for the [fetch] (or
    the RPC call) together with the reading of its body, any of which may
    throw.  [publicKey] ([new PublicKey]), decoding the instructions and
    compiling the transaction make no request but may throw;
    [undefinedDataMessage] is the message of the [TypeError] that reading
    [signed_transaction] of a missing [data] throws. *)
Record Backend (World : Type) := mkBackend {
  publicKey : string -> Outcome unit;
  postWallet : World -> Outcome WalletResponse * World;
  fetchWallet : string -> World -> Outcome WalletResponse * World;
  getBalance : string -> World -> Outcome Q * World;
  getTokenAccounts : string -> World -> Outcome (list ParsedTokenAccount) * World;
  fetchQuote : string -> string -> string -> Q -> World
               -> Outcome JupiterQuoteResponse * World;
  postSwapInstructions : JupiterQuoteResponse -> string -> Q -> World
                         -> Outcome JupiterSwapInstructionsResponse * World;
  decodeInstructions : string -> Outcome string;
  getLatestBlockhash : World -> Outcome string * World;
  compileTransaction : string -> string -> string -> Outcome string;
  postSign : string -> string -> World -> Outcome PrivySignResponse * World;
  sendRawTransaction : string -> World -> Outcome string * World;
  undefinedDataMessage : string
}.

Arguments publicKey {World}.
Arguments postWallet {World}.
Arguments fetchWallet {World}.
Arguments getBalance {World}.
Arguments getTokenAccounts {World}.
Arguments fetchQuote {World}.
Arguments postSwapInstructions {World}.
Arguments decodeInstructions {World}.
Arguments getLatestBlockhash {World}.
Arguments compileTransaction {World}.
Arguments postSign {World}.
Arguments sendRawTransaction {World}.
Arguments undefinedDataMessage {World}.

Section Methods.

Variable World : Type.
Variable backend : Backend World.

(** The wallet object and what surrounds it: the world, the log of
    requests and the two private fields. *)
Record State := mkState {
  net : World;
  requests : list Request;
  walletId : option string;
  walletAddress : option string
}.

Definition M (A : Type) : Type := State -> Outcome A * State.

Definition ret {A} (a : A) : M A := fun st => (Returned a, st).

Definition throw {A} (e : Thrown) : M A := fun st => (Threw e, st).

Definition bind {A B} (m : M A) (k : A -> M B) : M B :=
  fun st =>
    match m st with
    | (Returned a, st') => k a st'
    | (Threw e, st') => (Threw e, st')
    end.

Definition try_catch {A} (body : M A) (handler : Thrown -> M A) : M A :=
  fun st =>
    match body st with
    | (Returned a, st') => (Returned a, st')
    | (Threw e, st') => handler e st'
    end.

(** One logged request. *)
Definition request {A} (r : Request) (f : World -> Outcome A * World) : M A :=
  fun st =>
    let '(o, w) := f (net st) in
    (o, {| net := w; requests := requests st ++ [r];
           walletId := walletId st; walletAddress := walletAddress st |}).

(** A step that makes no request but may throw. *)
Definition lift {A} (o : Outcome A) : M A := fun st => (o, st).

Definition getFields : M (option string * option string) :=
  fun st => (Returned (walletId st, walletAddress st), st).

Definition setFields (i a : string) : M unit :=
  fun st => (Returned tt,
             {| net := net st; requests := requests st;
                walletId := Some i; walletAddress := Some a |}).

Notation "x <- m ;; k" := (bind m (fun x => k))
  (at level 61, m at next level, right associativity).

(** [a || b] on strings: [a] when it is truthy. *)
Definition orElse (a : option string) (b : string) : string :=
  if truthy a then match a with Some s => s | None => b end else b.

Definition noWalletLoaded : Thrown :=
  ErrorObject "No wallet loaded. Call createWallet() or loadWallet() first.".

Definition createWallet : M Wallet :=
  response <- request ReqCreateWallet (postWallet backend) ;;
  match response with
  | NotOk errorField statusText =>
      throw (ErrorObject (String.append "Failed to create wallet: "
                            (orElse errorField statusText)))
  | Ok wallet =>
      _ <- setFields (id wallet) (address wallet) ;;
      ret {| id := id wallet; address := address wallet;
             chainType := chainType wallet |}
  end.

Definition loadWallet (walletId : string) : M Wallet :=
  response <- request (ReqLoadWallet walletId) (fetchWallet backend walletId) ;;
  match response with
  | NotOk _ statusText =>
      throw (ErrorObject (String.append "Failed to load wallet: " statusText))
  | Ok wallet =>
      _ <- setFields (id wallet) (address wallet) ;;
      ret {| id := id wallet; address := address wallet;
             chainType := chainType wallet |}
  end.

Definition getAddress : M string :=
  fields <- getFields ;;
  if truthy (snd fields)
  then ret (match snd fields with Some a => a | None => "" end)
  else throw noWalletLoaded.

(** [for (const [symbol, mint] of Object.entries(TOKENS))
       if (token.mint === mint) { token.symbol = symbol; break; }]. *)
Fixpoint symbolOf (entries : list (string * string)) (m : string) : option string :=
  match entries with
  | [] => None
  | (sym, mint') :: rest =>
      if String.eqb m mint' then Some sym else symbolOf rest m
  end.

Definition tokenOf (acc : ParsedTokenAccount) : TokenBalance :=
  {| mint := accountMint acc;
     symbol := None;
     amount := or_default (uiAmount acc) 0;
     decimals := accountDecimals acc |}.

Definition named (t : TokenBalance) : TokenBalance :=
  {| mint := mint t;
     symbol := match symbolOf TOKENS (mint t) with
               | Some sym => Some sym
               | None => symbol t
               end;
     amount := amount t;
     decimals := decimals t |}.

Definition getPortfolio : M Portfolio :=
  addr <- getAddress ;;
  _ <- lift (publicKey backend addr) ;;
  lamports <- request (ReqBalance addr) (getBalance backend addr) ;;
  _ <- lift (publicKey backend addr) ;;
  accounts <- request (ReqTokenAccounts addr) (getTokenAccounts backend addr) ;;
  let tokens :=
    filter (fun t => Num.gtb (amount t) 0) (map tokenOf accounts) in
  ret {| solBalance := lamports / 1000000000;
         tokens := map named tokens |}.

Definition getQuote (inputMint outputMint amountRaw : string) (slippageBps : Q)
  : M JupiterQuoteResponse :=
  quote <- request (ReqQuote inputMint outputMint amountRaw)
             (fetchQuote backend inputMint outputMint amountRaw slippageBps) ;;
  if truthy (quoteError quote) || negb (truthy (outAmount quote)) then
    throw (ErrorObject (orElse (quoteError quote) "No route found for this swap"))
  else ret quote.

(** The body of the [try] block of [swap]. *)
Definition swapSteps
    (wid addr inputMint outputMint amountRaw : string) (slippageBps : Q)
  : M SwapResult :=
  quote <- getQuote inputMint outputMint amountRaw slippageBps ;;
  instructions <-
    request ReqSwapInstructions (postSwapInstructions backend quote addr slippageBps) ;;
  if truthy (instructionsError instructions) then
    throw (ErrorObject (match instructionsError instructions with
                        | Some e => e
                        | None => ""
                        end))
  else
    allInstructions <- lift (decodeInstructions backend (instructionsBody instructions)) ;;
    blockhash <- request ReqBlockhash (getLatestBlockhash backend) ;;
    serializedTx <- lift (compileTransaction backend allInstructions addr blockhash) ;;
    signResult <- request (ReqSign wid) (postSign backend wid serializedTx) ;;
    if truthy (signError signResult) then
      throw (ErrorObject (match signError signResult with
                          | Some e => e
                          | None => ""
                          end))
    else
      match signedTransaction signResult with
      | None => throw (ErrorObject (undefinedDataMessage backend))
      | Some signedTx =>
          txSig <- request ReqSend (sendRawTransaction backend signedTx) ;;
          ret {| success := true;
                 txSignature := Some txSig;
                 error := None;
                 inputAmount := inAmount quote;
                 outputAmount := outAmount quote |}
      end.

Definition swap (inputMint outputMint amountRaw : string) (slippageBps : Q)
  : M SwapResult :=
  fields <- getFields ;;
  if negb (truthy (fst fields)) || negb (truthy (snd fields)) then
    throw noWalletLoaded
  else
    let wid := match fst fields with Some s => s | None => "" end in
    let addr := match snd fields with Some s => s | None => "" end in
    try_catch (swapSteps wid addr inputMint outputMint amountRaw slippageBps)
      (fun e =>
         ret {| success := false;
                txSignature := None;
                error := Some (thrownMessage e);
                inputAmount := amountRaw;
                outputAmount := Some "0" |}).

End Methods.

Arguments net {World}.
Arguments requests {World}.
Arguments walletId {World}.
Arguments walletAddress {World}.
Arguments mkState {World}.
Arguments createWallet {World} backend.
Arguments loadWallet {World} backend walletId.
Arguments getAddress {World}.
Arguments getPortfolio {World} backend.
Arguments getQuote {World} backend inputMint outputMint amountRaw slippageBps.
Arguments swapSteps {World} backend wid addr inputMint outputMint amountRaw slippageBps.
Arguments swap {World} backend inputMint outputMint amountRaw slippageBps.

End AgentWallet.

(* ====================================================================== *)
(** ** The market data client ([sdk/market.ts]) *)
(* ====================================================================== *)

Module Market.

Record Token := mkToken {
  mint : string;
  symbol : string;
  name : string;
  decimals : nat;
  logoURI : option string;
  coingeckoId : option string;
  tags : option (list string)
}.

(** [timestamp] is a [Date], kept as its milliseconds. *)
Record TokenPrice := mkTokenPrice {
  priceMint : string;
  priceSymbol : string;
  priceUsd : Q;
  timestamp : Z
}.

(** The body of the token service's answer. *)
Record RawToken := mkRawToken {
  rawAddress : string;
  rawSymbol : string;
  rawName : string;
  rawDecimals : nat;
  rawLogoURI : option string;
  rawTags : option (list string);
  rawExtensions : option (option string)
}.

(** [data.data[mint]] of the price service's answer. *)
Record PriceData := mkPriceData {
  priceId : string;
  price : string
}.

Inductive Response (A : Type) :=
| NotOk (status : string)
| Ok (body : A).
Arguments NotOk {A} status.
Arguments Ok {A} body.

Inductive Request :=
| ReqTokenList
| ReqToken (mint : string)
| ReqPrice (mint : string)
| ReqPrices (mints : list string).

(** A [Map] with string keys: [get] finds the entry of a key, [set]
    replaces the value of a key that is present and appends one that is
    not. *)
Fixpoint mapGet {V} (m : list (string * V)) (k : string) : option V :=
  match m with
  | [] => None
  | (k', v) :: rest => if String.eqb k k' then Some v else mapGet rest k
  end.

Fixpoint mapSet {V} (m : list (string * V)) (k : string) (v : V)
  : list (string * V) :=
  match m with
  | [] => [(k, v)]
  | (k', v') :: rest =>
      if String.eqb k k' then (k', v) :: rest else (k', v') :: mapSet rest k v
  end.

Definition PRICE_CACHE_TTL : Z := 30000.

(** [Object.entries(COMMON_TOKENS)]. *)
Definition COMMON_TOKEN_ENTRIES : list (string * string) :=
  [ ("USDC", "EPjFWdd5AufqSSqeM2qN1xzybapC8G4wEGGkZwyTDt1v");
    ("USDT", "Es9vMFrzaCERmJfrF4H2FYD4KCoNkY11McCe8BenwNYB");
    ("SOL", "So11111111111111111111111111111111111111112");
    ("WBTC", "3NZ9JMVBmGAqocybic2c7LQCJScmgsAZ6vQqTDzcqmJh");
    ("WETH", "7vfCXTUXx5WJV5JADk17DUJ4ksgau7utNKj4b963voxs");
    ("RAY", "4k3Dyjzvzp8eMZWUXbBCjEvwSkkk59S5iCNLY3QrkX6R");
    ("SRM", "SRMuApVNdxXokk5GT7XD5cUUgXMBCoAz2LHeuAoKWRt");
    ("BONK", "DezXAZ8z7PnrnRJjz3wXBoRgixCa6xjnB7YaB1pPB263") ].

(** The services behind the client.  A request stands for the [fetch] and
    the reading of its body, either of which may throw; [now] reads the
    clock ([Date.now()], [new Date()]); [parseFloat] reads the number a
    string holds (a string that holds none, for which JavaScript gives
    [NaN], has no counterpart here).  What [console.error] prints is not
    modelled. *)
Record Backend (World : Type) := mkBackend {
  now : World -> Z * World;
  fetchTokenList : World -> Outcome (Response (list RawToken)) * World;
  fetchToken : string -> World -> Outcome (Response RawToken) * World;
  fetchPrice : string -> World -> Outcome (Response (option PriceData)) * World;
  fetchPrices : list string -> World
                -> Outcome (Response (list (string * PriceData))) * World;
  parseFloat : string -> Q
}.

Arguments now {World}.
Arguments fetchTokenList {World}.
Arguments fetchToken {World}.
Arguments fetchPrice {World}.
Arguments fetchPrices {World}.
Arguments parseFloat {World}.

Section Methods.

Variable World : Type.
Variable backend : Backend World.

Record State := mkState {
  net : World;
  requests : list Request;
  tokenCache : list (string * Token);
  priceCache : list (string * (TokenPrice * Z))
}.

Definition M (A : Type) : Type := State -> Outcome A * State.

Definition ret {A} (a : A) : M A := fun st => (Returned a, st).

Definition throw {A} (e : Thrown) : M A := fun st => (Threw e, st).

Definition bind {A B} (m : M A) (k : A -> M B) : M B :=
  fun st =>
    match m st with
    | (Returned a, st') => k a st'
    | (Threw e, st') => (Threw e, st')
    end.

Definition try_catch {A} (body : M A) (handler : Thrown -> M A) : M A :=
  fun st =>
    match body st with
    | (Returned a, st') => (Returned a, st')
    | (Threw e, st') => handler e st'
    end.

Definition request {A} (r : Request) (f : World -> Outcome A * World) : M A :=
  fun st =>
    let '(o, w) := f (net st) in
    (o, {| net := w; requests := requests st ++ [r];
           tokenCache := tokenCache st; priceCache := priceCache st |}).

Definition readClock : M Z :=
  fun st =>
    let '(t, w) := now backend (net st) in
    (Returned t, {| net := w; requests := requests st;
                    tokenCache := tokenCache st; priceCache := priceCache st |}).

Definition getTokenCache : M (list (string * Token)) :=
  fun st => (Returned (tokenCache st), st).

Definition getPriceCache : M (list (string * (TokenPrice * Z))) :=
  fun st => (Returned (priceCache st), st).

Definition setTokenCache (k : string) (t : Token) : M unit :=
  fun st => (Returned tt,
             {| net := net st; requests := requests st;
                tokenCache := mapSet (tokenCache st) k t;
                priceCache := priceCache st |}).

Definition setPriceCache (k : string) (entry : TokenPrice * Z) : M unit :=
  fun st => (Returned tt,
             {| net := net st; requests := requests st;
                tokenCache := tokenCache st;
                priceCache := mapSet (priceCache st) k entry |}).

Notation "x <- m ;; k" := (bind m (fun x => k))
  (at level 61, m at next level, right associativity).

Definition tokenOfRaw (t : RawToken) : Token :=
  {| mint := rawAddress t;
     symbol := rawSymbol t;
     name := rawName t;
     decimals := rawDecimals t;
     logoURI := rawLogoURI t;
     coingeckoId := match rawExtensions t with
                    | Some c => c
                    | None => None
                    end;
     tags := rawTags t |}.

(** [for (const token of result) this.tokenCache.set(token.mint, token)]. *)
Fixpoint cacheAll (result : list Token) : M unit :=
  match result with
  | [] => ret tt
  | token :: rest => _ <- setTokenCache (mint token) token ;; cacheAll rest
  end.

Definition getAvailableTokens : M (list Token) :=
  try_catch
    (response <- request ReqTokenList (fetchTokenList backend) ;;
     match response with
     | NotOk status =>
         throw (ErrorObject (String.append "Failed to fetch tokens: " status))
     | Ok tokens =>
         let result := map tokenOfRaw tokens in
         _ <- cacheAll result ;;
         ret result
     end)
    (fun error => throw error).

Definition getToken (mint : string) : M (option Token) :=
  cache <- getTokenCache ;;
  match mapGet cache mint with
  | Some token => ret (Some token)
  | None =>
      try_catch
        (response <- request (ReqToken mint) (fetchToken backend mint) ;;
         match response with
         | NotOk _ => ret None
         | Ok t =>
             let token := tokenOfRaw t in
             _ <- setTokenCache mint token ;;
             ret (Some token)
         end)
        (fun _ => ret None)
  end.

(** [token?.symbol || 'UNKNOWN']. *)
Definition symbolOr (token : option Token) : string :=
  match token with
  | Some t => if String.eqb (symbol t) "" then "UNKNOWN" else symbol t
  | None => "UNKNOWN"
  end.

(** The part of [getTokenPrice] after the cache check. *)
Definition fetchTokenPrice (mint : string) : M (option TokenPrice) :=
  try_catch
    (response <- request (ReqPrice mint) (fetchPrice backend mint) ;;
     match response with
     | NotOk status =>
         throw (ErrorObject (String.append "Failed to fetch price: " status))
     | Ok None => ret None
     | Ok (Some priceData) =>
         token <- getToken mint ;;
         date <- readClock ;;
         let price := {| priceMint := mint;
                         priceSymbol := symbolOr token;
                         priceUsd := parseFloat backend (price priceData);
                         timestamp := date |} in
         stamp <- readClock ;;
         _ <- setPriceCache mint (price, stamp) ;;
         ret (Some price)
     end)
    (fun _ => ret None).

Definition getTokenPrice (mint : string) : M (option TokenPrice) :=
  cache <- getPriceCache ;;
  match mapGet cache mint with
  | Some (price, stamp) =>
      t <- readClock ;;
      if (t - stamp <? PRICE_CACHE_TTL)%Z then ret (Some price)
      else fetchTokenPrice mint
  | None => fetchTokenPrice mint
  end.

(** The first loop of [getTokenPrices]: the prices the cache still serves
    and the mints it does not. *)
Fixpoint checkCache (mints : list string)
    (result : list (string * TokenPrice)) (uncached : list string)
  : M (list (string * TokenPrice) * list string) :=
  match mints with
  | [] => ret (result, uncached)
  | mint :: rest =>
      cache <- getPriceCache ;;
      match mapGet cache mint with
      | Some (price, stamp) =>
          t <- readClock ;;
          if (t - stamp <? PRICE_CACHE_TTL)%Z
          then checkCache rest (mapSet result mint price) uncached
          else checkCache rest result (uncached ++ [mint])
      | None => checkCache rest result (uncached ++ [mint])
      end
  end.

(** The second loop of [getTokenPrices], over the mints that were not
    served from the cache. *)
Fixpoint storePrices (data : list (string * PriceData)) (uncached : list string)
    (result : list (string * TokenPrice)) : M (list (string * TokenPrice)) :=
  match uncached with
  | [] => ret result
  | mint :: rest =>
      match mapGet data mint with
      | Some priceData =>
          token <- getToken mint ;;
          date <- readClock ;;
          let price := {| priceMint := mint;
                          priceSymbol := symbolOr token;
                          priceUsd := parseFloat backend (price priceData);
                          timestamp := date |} in
          stamp <- readClock ;;
          _ <- setPriceCache mint (price, stamp) ;;
          storePrices data rest (mapSet result mint price)
      | None => storePrices data rest result
      end
  end.

Definition getTokenPrices (mints : list string) : M (list (string * TokenPrice)) :=
  checked <- checkCache mints [] [] ;;
  let '(result, uncached) := checked in
  match uncached with
  | [] => ret result
  | _ :: _ =>
      try_catch
        (response <- request (ReqPrices uncached) (fetchPrices backend uncached) ;;
         match response with
         | NotOk status =>
             throw (ErrorObject (String.append "Failed to fetch prices: " status))
         | Ok data => storePrices data uncached result
         end)
        (fun error => throw error)
  end.

(** The loop of [getCommonTokens]. *)
Fixpoint collectTokens (mints : list string) (tokens : list Token)
  : M (list Token) :=
  match mints with
  | [] => ret tokens
  | mint :: rest =>
      token <- getToken mint ;;
      collectTokens rest (match token with
                          | Some t => tokens ++ [t]
                          | None => tokens
                          end)
  end.

Definition getCommonTokens : M (list Token) :=
  collectTokens (map snd COMMON_TOKEN_ENTRIES) [].

Definition clearPriceCache : M unit :=
  fun st => (Returned tt,
             {| net := net st; requests := requests st;
                tokenCache := tokenCache st; priceCache := [] |}).

Definition calculateTokenValue (mint : string) (amount : Q) : M Q :=
  price <- getTokenPrice mint ;;
  match price with
  | None => throw (ErrorObject (String.append "Could not get price for " mint))
  | Some p => ret (amount * priceUsd p)
  end.

End Methods.

Arguments net {World}.
Arguments requests {World}.
Arguments tokenCache {World}.
Arguments priceCache {World}.
Arguments mkState {World}.
Arguments cacheAll {World} result.
Arguments getAvailableTokens {World} backend.
Arguments getToken {World} backend mint.
Arguments fetchTokenPrice {World} backend mint.
Arguments getTokenPrice {World} backend mint.
Arguments checkCache {World} backend mints result uncached.
Arguments storePrices {World} backend data uncached result.
Arguments getTokenPrices {World} backend mints.
Arguments collectTokens {World} backend mints tokens.
Arguments getCommonTokens {World} backend.
Arguments clearPriceCache {World}.
Arguments calculateTokenValue {World} backend mint amount.

End Market.

(* ====================================================================== *)
(** ** Double precision

    The definitions above compute on exact rationals.  Where a property
    depends on the rounding of IEEE doubles, the functions concerned are
    embedded a second time on the kernel's binary64 floats ([PrimFloat]),
    operation by operation as the source has them, so that the program's
    own result can be computed on a concrete input. *)
(* ====================================================================== *)

Module Ieee.

Local Open Scope float_scope.

Set Warnings "-inexact-float".

(** The rational a finite double denotes; [None] for an infinity or a
    [NaN]. *)
Definition toQ (x : float) : option Q :=
  match Prim2SF x with
  | S754_zero _ => Some 0%Q
  | S754_finite s m e =>
      let magnitude :=
        if (0 <=? e)%Z then inject_Z (Zpos m * 2 ^ e)
        else Qmake (Zpos m) (Z.to_pos (2 ^ (- e))) in
      Some (if s then Qopp magnitude else magnitude)
  | S754_infinity _ | S754_nan => None
  end.

(** [a > b], [a < b], [a >= b], [a === b] on numbers. *)
Definition gtb (a b : float) : bool := PrimFloat.ltb b a.
Definition ltb (a b : float) : bool := PrimFloat.ltb a b.
Definition geb (a b : float) : bool := PrimFloat.leb b a.
Definition eqb (a b : float) : bool := PrimFloat.eqb a b.

(** [x || d] on an optional number: [undefined], [0], [-0] and [NaN] are
    falsy. *)
Definition or_default (x : option float) (d : float) : float :=
  match x with
  | Some v => if PrimFloat.eqb v 0 || PrimFloat.is_nan v then d else v
  | None => d
  end.

Definition Math_abs (x : float) : float := PrimFloat.abs x.

(** [Math.min] and [Math.max]: [NaN] when an argument is [NaN]; [-0] counts
    as smaller than [+0]. *)
Definition isNegativeZero (x : float) : bool :=
  PrimFloat.eqb x 0 && PrimFloat.ltb (1 / x) 0.

Definition Math_min (a b : float) : float :=
  if PrimFloat.is_nan a || PrimFloat.is_nan b then nan
  else if PrimFloat.ltb a b then a
  else if PrimFloat.ltb b a then b
  else if isNegativeZero a then a else b.

Definition Math_max (a b : float) : float :=
  if PrimFloat.is_nan a || PrimFloat.is_nan b then nan
  else if PrimFloat.ltb b a then a
  else if PrimFloat.ltb a b then b
  else if isNegativeZero a then b else a.

(** [Math.round] (the nearest integer, a tie going up) and [Math.floor] of
    a finite double, as integers. *)
Definition Math_round (x : float) : option Z :=
  option_map (fun q => Qfloor (q + (1 # 2))%Q) (toQ x).

Definition Math_floor (x : float) : option Z := option_map Qfloor (toQ x).

(** [Math.pow(10, decimals)] for the decimals of a token: the powers of ten
    up to [10^22] are doubles. *)
Definition pow10 (decimals : nat) : float :=
  PrimFloat.of_uint63 (Uint63.of_Z (10 ^ Z.of_nat decimals)).

(** [xs.reduce((sum, x) => sum + f(x), 0)]. *)
Definition reduce_sum {A : Type} (f : A -> float) (xs : list A) : float :=
  fold_left (fun sum x => sum + f x) xs 0.

(** *** The portfolio module and the health score *)

Record Allocations := mkAllocations {
  stablecoins : float;
  sol : float;
  otherTokens : float;
  stocks : float
}.

Record TokenBalance := mkTokenBalance {
  mint : string;
  valueUsd : float
}.

Record StockBalance := mkStockBalance {
  stockSymbol : string;
  stockValueUsd : float
}.

Record Portfolio := mkPortfolio {
  tokens : list TokenBalance;
  portfolioStocks : list StockBalance;
  totalValueUsd : float;
  allocation : Allocations
}.

Definition stablecoinValue (ts : list TokenBalance) : float :=
  reduce_sum valueUsd (filter (fun t => isStablecoin (mint t)) ts).

Definition solValue (ts : list TokenBalance) : float :=
  reduce_sum valueUsd (filter (fun t => isSol (mint t)) ts).

Definition otherTokenValue (ts : list TokenBalance) : float :=
  reduce_sum valueUsd
    (filter (fun t => negb (isStablecoin (mint t)) && negb (isSol (mint t))) ts).

Definition stockValue (ss : list StockBalance) : float := reduce_sum stockValueUsd ss.

Definition calculateAllocation
    (ts : list TokenBalance) (ss : list StockBalance) (total : float) : Allocations :=
  if eqb total 0 then
    {| stablecoins := 0; sol := 0; otherTokens := 0; stocks := 0 |}
  else
    {| stablecoins := (stablecoinValue ts / total) * 100;
       sol := (solValue ts / total) * 100;
       otherTokens := (otherTokenValue ts / total) * 100;
       stocks := (stockValue ss / total) * 100 |}.

Definition buildPortfolio (ts : list TokenBalance) (ss : list StockBalance)
  : Portfolio :=
  let totalTokenValue := reduce_sum valueUsd ts in
  let totalStockValue := reduce_sum stockValueUsd ss in
  let total := totalTokenValue + totalStockValue in
  {| tokens := ts;
     portfolioStocks := ss;
     totalValueUsd := total;
     allocation := calculateAllocation ts ss total |}.


Definition totalDeviation (deviationPcts : list float) : float :=
  fold_left (fun sum d => sum + Math_abs d) deviationPcts 0.

Definition calculateHealthScore (deviationPcts : list float) : option Z :=
  let score := Math_max 0 (100 - totalDeviation deviationPcts / 2) in
  Math_round score.


(** *** The autonomous manager *)

Record TokenInfo := mkTokenInfo {
  infoMint : string;
  decimals : nat;
  priceUsd : option float
}.

Definition TOKEN_INFO : Manager.Dict TokenInfo :=
  [ ("SOL", {| infoMint := Manager.TOKENS.SOL; decimals := 9; priceUsd := Some 180 |});
    ("USDC", {| infoMint := Manager.TOKENS.USDC; decimals := 6; priceUsd := Some 1 |});
    ("USDY", {| infoMint := Manager.TOKENS.USDY; decimals := 6; priceUsd := Some 1.12 |});
    ("EURC", {| infoMint := Manager.TOKENS.EURC; decimals := 6; priceUsd := Some 1.04 |});
    ("USDT", {| infoMint := Manager.TOKENS.USDT; decimals := 6; priceUsd := Some 1 |}) ].


Record Holding := mkHolding {
  symbol : string;
  holdingMint : string;
  holdingAmount : float;
  holdingValueUsd : float;
  percentage : float
}.

Record PortfolioState := mkPortfolioState {
  stateTotalValueUsd : float;
  holdings : list Holding
}.

Record ManagerConfig := mkManagerConfig {
  rebalanceThresholdPct : option float;
  minTradeUsd : option float
}.

Record RebalanceAction := mkAction {
  fromSymbol : string;
  toSymbol : string;
  amount : option Z;
  tradeUsd : float
}.

Record Overweight := mkOverweight {
  overSymbol : string;
  excessUsd : float;
  overMint : string;
  overDecimals : nat
}.

Record Underweight := mkUnderweight {
  underSymbol : string;
  deficitUsd : float;
  underMint : string
}.

Record WalletToken := mkWalletToken {
  tokenMint : string;
  tokenAmount : float;
  tokenSymbol : option string
}.

Record WalletPortfolio := mkWalletPortfolio {
  solBalance : float;
  walletTokens : list WalletToken
}.

Fixpoint findByMint (infos : Manager.Dict TokenInfo) (m : string)
  : option (string * TokenInfo) :=
  match infos with
  | [] => None
  | (sym, info) :: rest =>
      if String.eqb (infoMint info) m then Some (sym, info) else findByMint rest m
  end.

Definition tokenHolding (token : WalletToken) : Holding :=
  let unknown :=
    if truthy (tokenSymbol token)
    then match tokenSymbol token with Some s => s | None => "UNKNOWN" end
    else "UNKNOWN" in
  let '(sym, price) :=
    match findByMint TOKEN_INFO (tokenMint token) with
    | Some (sym, info) => (sym, or_default (priceUsd info) 1)
    | None => (unknown, 1)
    end in
  {| symbol := sym;
     holdingMint := tokenMint token;
     holdingAmount := tokenAmount token;
     holdingValueUsd := tokenAmount token * price;
     percentage := 0 |}.

Definition solPrice : float :=
  or_default (match Manager.lookup TOKEN_INFO "SOL" with
              | Some info => priceUsd info
              | None => None
              end) 180.

Definition rawHoldings (p : WalletPortfolio) : list Holding :=
  (if gtb (solBalance p) 0 then
     [ {| symbol := "SOL";
          holdingMint := Manager.TOKENS.SOL;
          holdingAmount := solBalance p;
          holdingValueUsd := solBalance p * solPrice;
          percentage := 0 |} ]
   else [])
  ++ map tokenHolding (walletTokens p).

Definition withPercentage (total : float) (h : Holding) : Holding :=
  {| symbol := symbol h;
     holdingMint := holdingMint h;
     holdingAmount := holdingAmount h;
     holdingValueUsd := holdingValueUsd h;
     percentage := if gtb total 0 then (holdingValueUsd h / total) * 100 else 0 |}.

Definition getPortfolioState (p : WalletPortfolio) : PortfolioState :=
  let pushed := rawHoldings p in
  let total := fold_left (fun sum h => sum + holdingValueUsd h) pushed 0 in
  {| stateTotalValueUsd := total;
     holdings := map (withPercentage total) pushed |}.

Definition threshold (cfg : ManagerConfig) : float :=
  or_default (rebalanceThresholdPct cfg) 5.

Definition minTrade (cfg : ManagerConfig) : float :=
  or_default (minTradeUsd cfg) 0.5.

Definition findHolding (state : PortfolioState) (sym : string) : option Holding :=
  find (fun h => String.eqb (symbol h) sym) (holdings state).

Definition currentPct (state : PortfolioState) (sym : string) : float :=
  or_default (option_map percentage (findHolding state sym)) 0.

Definition currentValueUsd (state : PortfolioState) (sym : string) : float :=
  or_default (option_map holdingValueUsd (findHolding state sym)) 0.

Fixpoint partition
    (cfg : ManagerConfig) (state : PortfolioState) (target : Manager.Dict float)
  : list Overweight * list Underweight :=
  match target with
  | [] => ([], [])
  | (sym, targetPct) :: rest =>
      let '(overweight, underweight) := partition cfg state rest in
      let cur := currentPct state sym in
      let targetValueUsd := (targetPct / 100) * stateTotalValueUsd state in
      let diff := currentValueUsd state sym - targetValueUsd in
      if gtb diff (minTrade cfg) && gtb (cur - targetPct) (threshold cfg) then
        match Manager.lookup TOKEN_INFO sym with
        | Some info =>
            ({| overSymbol := sym; excessUsd := diff; overMint := infoMint info;
                overDecimals := decimals info |} :: overweight, underweight)
        | None => (overweight, underweight)
        end
      else if ltb diff (- minTrade cfg)
              && gtb (targetPct - cur) (threshold cfg) then
        match Manager.lookup TOKEN_INFO sym with
        | Some info =>
            (overweight,
             {| underSymbol := sym; deficitUsd := - diff; underMint := infoMint info |}
               :: underweight)
        | None => (overweight, underweight)
        end
      else (overweight, underweight)
  end.

Definition priceOf (sym : string) : float :=
  or_default (match Manager.lookup TOKEN_INFO sym with
              | Some info => priceUsd info
              | None => None
              end) 1.

Fixpoint matchUnder (minT : float) (over : Overweight) (unders : list Underweight)
  : Overweight * list Underweight * list RebalanceAction :=
  match unders with
  | [] => (over, [], [])
  | under :: rest =>
      if ltb (excessUsd over) minT || ltb (deficitUsd under) minT then
        let '(over', rest', acts) := matchUnder minT over rest in
        (over', under :: rest', acts)
      else
        let trade := Math_min (excessUsd over) (deficitUsd under) in
        let tokenAmount := trade / priceOf (overSymbol over) in
        let rawAmount := Math_floor (tokenAmount * pow10 (overDecimals over)) in
        let action :=
          {| fromSymbol := overSymbol over; toSymbol := underSymbol under;
             amount := rawAmount; tradeUsd := trade |} in
        let over1 :=
          {| overSymbol := overSymbol over; excessUsd := excessUsd over - trade;
             overMint := overMint over; overDecimals := overDecimals over |} in
        let under1 :=
          {| underSymbol := underSymbol under;
             deficitUsd := deficitUsd under - trade;
             underMint := underMint under |} in
        let '(over', rest', acts) := matchUnder minT over1 rest in
        (over', under1 :: rest', action :: acts)
  end.

Fixpoint matchAll (minT : float) (overs : list Overweight) (unders : list Underweight)
  : list Overweight * list Underweight * list RebalanceAction :=
  match overs with
  | [] => ([], unders, [])
  | over :: rest =>
      let '(over', unders', acts) := matchUnder minT over unders in
      let '(rest', unders'', acts') := matchAll minT rest unders' in
      (over' :: rest', unders'', acts ++ acts')
  end.

Definition calculateRebalanceActions
    (cfg : ManagerConfig) (target : Manager.Dict float) (state : PortfolioState)
  : list RebalanceAction :=
  let '(overweight, underweight) := partition cfg state target in
  snd (matchAll (minTrade cfg) overweight underweight).


End Ieee.

(* ====================================================================== *)
(** ** Example data *)
(* ====================================================================== *)

(** A state with two overweight and two underweight positions. *)
Definition exampleManagerConfig : Manager.ManagerConfig :=
  {| Manager.rebalanceThresholdPct := Some 5; Manager.minTradeUsd := Some (1 # 2) |}.

Definition exampleTarget : Manager.TargetAllocation :=
  [("SOL", 60); ("USDY", 20); ("USDC", 15); ("EURC", 5)].

Definition exampleState : Manager.PortfolioState :=
  {| Manager.totalValueUsd := 1000;
     Manager.holdings :=
       [ {| Manager.symbol := "USDC"; Manager.holdingMint := Manager.TOKENS.USDC;
            Manager.holdingAmount := 700; Manager.valueUsd := 700;
            Manager.percentage := 70 |};
         {| Manager.symbol := "EURC"; Manager.holdingMint := Manager.TOKENS.EURC;
            Manager.holdingAmount := 300 / (104 # 100); Manager.valueUsd := 300;
            Manager.percentage := 30 |} ] |}.

(** A portfolio one point away from the moderate target. *)
Definition nearTargetProfile : UserProfile :=
  {| riskTolerance := moderate; investmentGoals := [growth];
     timeHorizon := medium; totalInvestment := 10000 |}.

Definition nearTargetPortfolio : Portfolio :=
  buildPortfolio "acct"
    [ {| mint := COMMON_TOKENS.SOL; symbol := "SOL"; balance := 2900 / 180;
         valueUsd := 2900 |};
      {| mint := COMMON_TOKENS.USDC; symbol := "USDC"; balance := 2600;
         valueUsd := 2600 |};
      {| mint := COMMON_TOKENS.WBTC; symbol := "WBTC"; balance := 1500 / 60000;
         valueUsd := 1500 |} ]
    [ {| stockSymbol := "AAPL"; stockValueUsd := 3000 |} ].

(** Services that answer every call, but for the first quote request when
    [firstQuote] says what it throws.  The world counts the quote requests
    made so far. *)
Definition scriptedServices
    (balances : list TokenBalance * list StockBalance) (firstQuote : option Thrown)
  : Services nat :=
  {| fetchBalances := fun _ w => (Returned balances, w);
     fetchTokenPrice := fun _ w => (Returned (Some 1), w);
     fetchToken := fun _ w => (Returned (Some 6%nat), w);
     fetchQuote := fun _ rawAmount w =>
       match firstQuote, w with
       | Some e, O => (Threw e, S w)
       | _, _ => (Returned {| outAmount := inject_Z rawAmount; raw := "quote" |}, S w)
       end;
     fetchSwapInstructions := fun _ _ w => (Returned "instructions", w);
     buildTransaction := fun _ _ w => (Returned "transaction", w);
     signTransaction := fun _ w => (Returned "signed", w);
     sendRawTransaction := fun _ w => (Returned "signature", w);
     confirmTransaction := fun _ w => (Returned None, w) |}.

(** An account that holds 800 USD of USDC and 200 USD of SOL. *)
Definition walletBalances : list TokenBalance * list StockBalance :=
  ([ {| mint := COMMON_TOKENS.SOL; symbol := "SOL"; balance := 200 / 180;
        valueUsd := 200 |};
     {| mint := COMMON_TOKENS.USDC; symbol := "USDC"; balance := 800;
        valueUsd := 800 |} ], []).

Definition walletProfile : UserProfile :=
  {| riskTolerance := moderate; investmentGoals := [growth];
     timeHorizon := medium; totalInvestment := 1000 |}.

Definition liveConfig : PortfolioBuilderConfig :=
  {| minTradeSize := 10; maxSlippageBps := 300; rebalanceThresholdPct := 5;
     autoExecute := true; includeStocks := false; dryRun := false |}.

Definition initialState : AgentState nat := {| world := 0%nat; calls := [] |}.

(* ====================================================================== *)
(** ** Reference definitions used by the statements *)
(* ====================================================================== *)

(** The sum of the absolute deviations, written as the specification writes
    it: a sum over the list, with no accumulator. *)
Fixpoint sumAbsDeviation (comparison : list Comparison) : Q :=
  match comparison with
  | [] => 0
  | c :: rest => Qabs (deviationPct c) + sumAbsDeviation rest
  end.

(** The score before rounding, as a function of the total deviation. *)
Definition rawScore (total : Q) : Q := Math_max 0 (100 - total / 2).



Fixpoint totalDeficit (unders : list Manager.Underweight) : Q :=
  match unders with
  | [] => 0
  | u :: rest => Manager.deficitUsd u + totalDeficit rest
  end.

(** The two shapes of a planned trade: a swap with USDC on one side and SOL
    or WBTC on the other, and a stock order for AAPL with no source asset. *)
Definition routedThroughUsdc (t : PlannedTrade) : Prop :=
  type t = swap /\
  ((fromAsset t = Some COMMON_TOKENS.USDC /\
    (toAsset t = COMMON_TOKENS.SOL \/ toAsset t = COMMON_TOKENS.WBTC)) \/
   (toAsset t = COMMON_TOKENS.USDC /\
    (fromAsset t = Some COMMON_TOKENS.SOL \/ fromAsset t = Some COMMON_TOKENS.WBTC))).

Definition stockOrder (t : PlannedTrade) : Prop :=
  (type t = stock_buy \/ type t = stock_sell) /\
  fromAsset t = None /\ toAsset t = "AAPL".

(** The calls of one swap, in the order [executeSwap] makes them. *)
Definition pipelineCalls (params : SwapParams) : list Call :=
  [ CallGetToken (paramInputMint params);
    CallGetToken (paramOutputMint params);
    CallGetToken (paramInputMint params);
    CallQuote (paramInputMint params) (paramOutputMint params);
    CallSwapInstructions;
    CallBuildTransaction;
    CallSign;
    CallSendRawTransaction;
    CallConfirmTransaction ].

(** An account already at the moderate target for SOL and the other
    tokens, and a configuration that also trades stocks. *)
Definition balancedBalances : list TokenBalance * list StockBalance :=
  ([ {| mint := COMMON_TOKENS.SOL; symbol := "SOL"; balance := 300 / 180;
        valueUsd := 300 |};
     {| mint := COMMON_TOKENS.WBTC; symbol := "WBTC"; balance := 150 / 60000;
        valueUsd := 150 |};
     {| mint := COMMON_TOKENS.USDC; symbol := "USDC"; balance := 550;
        valueUsd := 550 |} ], []).

Definition stocksConfig : PortfolioBuilderConfig :=
  {| minTradeSize := 10; maxSlippageBps := 300; rebalanceThresholdPct := 5;
     autoExecute := true; includeStocks := true; dryRun := false |}.

(** The line [generateRecommendations] returns for a balanced portfolio. *)
Definition balancedMessage : string :=
  "Portfolio is well-balanced. No immediate action needed.".

(** The requests of one complete swap by the wallet [wid], in the order of
    the stages of [AgentWallet.swap]. *)
Definition swapStages (wid inputMint outputMint amountRaw : string)
  : list AgentWallet.Request :=
  [ AgentWallet.ReqQuote inputMint outputMint amountRaw;
    AgentWallet.ReqSwapInstructions;
    AgentWallet.ReqBlockhash;
    AgentWallet.ReqSign wid;
    AgentWallet.ReqSend ].

(** A backend that answers every request; the quote service answers [quote]
    and the wallet service answers [wallet].  The world counts nothing. *)
Definition exampleBackend
    (wallet : AgentWallet.Wallet) (quote : AgentWallet.JupiterQuoteResponse)
    (accounts : list AgentWallet.ParsedTokenAccount)
  : AgentWallet.Backend unit :=
  {| AgentWallet.publicKey := fun _ => Returned tt;
     AgentWallet.postWallet := fun w => (Returned (AgentWallet.Ok wallet), w);
     AgentWallet.fetchWallet := fun _ w => (Returned (AgentWallet.Ok wallet), w);
     AgentWallet.getBalance := fun _ w => (Returned 2500000000, w);
     AgentWallet.getTokenAccounts := fun _ w => (Returned accounts, w);
     AgentWallet.fetchQuote := fun _ _ _ _ w => (Returned quote, w);
     AgentWallet.postSwapInstructions := fun _ _ _ w =>
       (Returned {| AgentWallet.instructionsError := None;
                    AgentWallet.instructionsBody := "instructions" |}, w);
     AgentWallet.decodeInstructions := fun body => Returned body;
     AgentWallet.getLatestBlockhash := fun w => (Returned "blockhash", w);
     AgentWallet.compileTransaction := fun _ _ _ => Returned "transaction";
     AgentWallet.postSign := fun _ _ w =>
       (Returned {| AgentWallet.signError := None;
                    AgentWallet.signedTransaction := Some "signed" |}, w);
     AgentWallet.sendRawTransaction := fun _ w => (Returned "signature", w);
     AgentWallet.undefinedDataMessage := "data is undefined" |}.

Definition exampleWallet : AgentWallet.Wallet :=
  {| AgentWallet.id := "wallet-1"; AgentWallet.address := "address-1";
     AgentWallet.chainType := "solana" |}.

Definition goodQuote : AgentWallet.JupiterQuoteResponse :=
  {| AgentWallet.inAmount := "1000000"; AgentWallet.outAmount := Some "5400";
     AgentWallet.quoteError := None |}.

Definition noRouteQuote : AgentWallet.JupiterQuoteResponse :=
  {| AgentWallet.inAmount := "1000000"; AgentWallet.outAmount := None;
     AgentWallet.quoteError := None |}.

(** Token accounts: USDC, an empty BONK account and a mint [TOKENS] does not
    list. *)
Definition exampleAccounts : list AgentWallet.ParsedTokenAccount :=
  [ {| AgentWallet.accountMint := "EPjFWdd5AufqSSqeM2qN1xzybapC8G4wEGGkZwyTDt1v";
       AgentWallet.uiAmount := Some 12; AgentWallet.accountDecimals := 6 |};
    {| AgentWallet.accountMint := "DezXAZ8z7PnrnRJjz3wXBoRgixCa6xjnB7YaB1pPB263";
       AgentWallet.uiAmount := None; AgentWallet.accountDecimals := 5 |};
    {| AgentWallet.accountMint := "unlisted";
       AgentWallet.uiAmount := Some 3; AgentWallet.accountDecimals := 9 |} ].

Definition freshWallet : AgentWallet.State unit :=
  AgentWallet.mkState tt [] None None.

Definition loadedWallet : AgentWallet.State unit :=
  AgentWallet.mkState tt [] (Some "wallet-1") (Some "address-1").

(** A market backend whose world is the clock: every request takes 100 ms,
    the token service knows [known] and the price service quotes '1.5' for
    every mint. *)
Definition exampleMarket (known : string) : Market.Backend Z :=
  {| Market.now := fun w => (w, w);
     Market.fetchTokenList := fun w => (Returned (Market.Ok []), (w + 100)%Z);
     Market.fetchToken := fun m w =>
       (if String.eqb m known
        then Returned (Market.Ok
               {| Market.rawAddress := m; Market.rawSymbol := "USDC";
                  Market.rawName := "USD Coin"; Market.rawDecimals := 6;
                  Market.rawLogoURI := None; Market.rawTags := None;
                  Market.rawExtensions := None |})
        else Returned (Market.NotOk "404"), (w + 100)%Z);
     Market.fetchPrice := fun m w =>
       (Returned (Market.Ok (Some {| Market.priceId := m; Market.price := "1.5" |})),
        (w + 100)%Z);
     Market.fetchPrices := fun ms w =>
       (Returned (Market.Ok
          (map (fun m => (m, {| Market.priceId := m; Market.price := "1.5" |})) ms)),
        (w + 100)%Z);
     Market.parseFloat := fun _ => 3 / 2 |}.

Definition emptyMarket : Market.State Z := Market.mkState 0%Z [] [] [].

(** Every entry of the map [c] is an entry of [c']. *)
Definition extends {V} (c c' : list (string * V)) : Prop :=
  forall k v, Market.mapGet c k = Some v -> Market.mapGet c' k = Some v.

(** Every key of the map [c] is a key of [c']. *)
Definition keeps {V} (c c' : list (string * V)) : Prop :=
  forall k, Market.mapGet c k <> None -> Market.mapGet c' k <> None.

(** The calls a user of the market client can make, and the state a
    sequence of them leaves (whatever each one returns or throws). *)
Inductive MarketCall :=
| DoGetAvailableTokens
| DoGetToken (mint : string)
| DoGetTokenPrice (mint : string)
| DoGetTokenPrices (mints : list string)
| DoGetCommonTokens
| DoCalculateTokenValue (mint : string) (amount : Q)
| DoClearPriceCache.

Definition runMarketCall {World} (backend : Market.Backend World)
    (c : MarketCall) (st : Market.State World) : Market.State World :=
  match c with
  | DoGetAvailableTokens => snd (Market.getAvailableTokens backend st)
  | DoGetToken m => snd (Market.getToken backend m st)
  | DoGetTokenPrice m => snd (Market.getTokenPrice backend m st)
  | DoGetTokenPrices ms => snd (Market.getTokenPrices backend ms st)
  | DoGetCommonTokens => snd (Market.getCommonTokens backend st)
  | DoCalculateTokenValue m amount => snd (Market.calculateTokenValue backend m amount st)
  | DoClearPriceCache => snd (Market.clearPriceCache st)
  end.

Definition runMarketCalls {World} (backend : Market.Backend World)
    (cs : list MarketCall) (st : Market.State World) : Market.State World :=
  fold_left (fun st c => runMarketCall backend c st) cs st.



Set Warnings "-inexact-float".







(** The category a planned trade adjusts: a swap to or from SOL adjusts
    the SOL category, any other swap the other tokens, a stock order the
    stocks. *)
Definition tradeCategory (t : PlannedTrade) : string :=
  match type t with
  | swap =>
      if String.eqb (toAsset t) COMMON_TOKENS.SOL
         || match fromAsset t with
            | Some from => String.eqb from COMMON_TOKENS.SOL
            | None => false
            end
      then "sol" else "otherTokens"
  | stock_buy | stock_sell => "stocks"
  end.

(** The gap, target minus current value in USD, of a category. *)
Definition categoryGap (deltas : Allocations) (category : string) : Q :=
  if String.eqb category "sol" then sol deltas
  else if String.eqb category "otherTokens" then otherTokens deltas
  else if String.eqb category "stocks" then stocks deltas
  else stablecoins deltas.

(** The categories whose gap reaches the minimum trade size, in the order
    the planner looks at them; stocks only when they are enabled. *)
Definition plannedCategories
    (cfg : PortfolioBuilderConfig) (s : StrategyDefinition) (p : Portfolio)
  : list string :=
  let deltas := planDeltas s p in
  (if Num.geb (Math_abs (sol deltas)) (minTradeSize cfg) then ["sol"] else [])
  ++ (if Num.geb (Math_abs (otherTokens deltas)) (minTradeSize cfg)
      then ["otherTokens"] else [])
  ++ (if includeStocks cfg && Num.geb (Math_abs (stocks deltas)) (minTradeSize cfg)
      then ["stocks"] else []).

(** An aggressive profile, and an account without stocks that holds 3900
    USD of SOL, 1100 USD of USDC and 5000 USD of WBTC: SOL and the
    stablecoins are one point away from their targets of 40 % and 10 %. *)
Definition aggressiveProfile : UserProfile :=
  {| riskTolerance := aggressive; investmentGoals := [growth];
     timeHorizon := medium; totalInvestment := 10000 |}.

Definition driftedPortfolio : Portfolio :=
  buildPortfolio "acct"
    [ {| mint := COMMON_TOKENS.SOL; symbol := "SOL"; balance := 3900 / 180;
         valueUsd := 3900 |};
      {| mint := COMMON_TOKENS.USDC; symbol := "USDC"; balance := 1100;
         valueUsd := 1100 |};
      {| mint := COMMON_TOKENS.WBTC; symbol := "WBTC"; balance := 5000 / 60000;
         valueUsd := 5000 |} ]
    [].

(** A service that, when it throws, throws something whose message is not
    empty (a value that is not an [Error] reads as 'Unknown error'). *)
Definition throwsText {World A : Type} (f : World -> Outcome A * World) : Prop :=
  forall w e w', f w = (Threw e, w') -> thrownMessage e <> "".

(** Every failure the services of the swap pipeline raise carries a
    message. *)
Definition messagesCarryText {World : Type} (services : Services World) : Prop :=
  (forall m, throwsText (fetchToken services m)) /\
  (forall params rawAmount, throwsText (fetchQuote services params rawAmount)) /\
  (forall quote user, throwsText (fetchSwapInstructions services quote user)) /\
  (forall instructions user, throwsText (buildTransaction services instructions user)) /\
  (forall transaction, throwsText (signTransaction services transaction)) /\
  (forall signed, throwsText (sendRawTransaction services signed)) /\
  (forall sig, throwsText (confirmTransaction services sig)).

Definition isFailed (s : ExecutionStep) : bool :=
  match status s with failed => true | _ => false end.

(* ====================================================================== *)
(** * Properties *)
(* ====================================================================== *)

(** ** Facts about the number operations *)

Module NumFacts.

Lemma ltb_lt a b : ltb a b = true <-> a < b.
Proof.
  unfold ltb. rewrite negb_true_iff. split; intro H.
  - apply Qnot_le_lt. intro C. apply Qle_bool_iff in C. congruence.
  - destruct (Qle_bool b a) eqn:E; [|reflexivity].
    apply Qle_bool_iff in E. lra.
Qed.

Lemma ltb_ge a b : ltb a b = false <-> b <= a.
Proof.
  unfold ltb. rewrite negb_false_iff. apply Qle_bool_iff.
Qed.

Lemma gtb_gt a b : gtb a b = true <-> b < a.
Proof. apply ltb_lt. Qed.

Lemma geb_ge a b : geb a b = true <-> b <= a.
Proof. apply Qle_bool_iff. Qed.

Lemma eqb_eq a b : eqb a b = true <-> a == b.
Proof. apply Qeq_bool_iff. Qed.

Lemma eqb_neq a b : eqb a b = false <-> ~ a == b.
Proof.
  split; intro H.
  - intro C. apply eqb_eq in C. congruence.
  - destruct (eqb a b) eqn:E; [|reflexivity]. apply eqb_eq in E. contradiction.
Qed.



Lemma Math_min_glb a b c : c <= a -> c <= b -> c <= Math_min a b.
Proof. intros Ha Hb. unfold Math_min. destruct (Qle_bool a b); assumption. Qed.

Lemma Math_max_spec a b :
  (a <= b /\ Math_max a b = b) \/ (b < a /\ Math_max a b = a).
Proof.
  unfold Math_max. destruct (Qle_bool a b) eqn:E.
  - left. apply Qle_bool_iff in E. auto.
  - right. split; [|reflexivity]. apply Qnot_le_lt. intro C.
    apply Qle_bool_iff in C. congruence.
Qed.

Lemma Math_abs_nonneg x : 0 <= Math_abs x.
Proof. apply Qabs_nonneg. Qed.

Lemma Math_abs_cases x :
  (0 <= x /\ Math_abs x == x) \/ (x <= 0 /\ Math_abs x == - x).
Proof.
  unfold Math_abs. apply Qabs_case; intro H; [left | right]; split; lra.
Qed.

(** [Math.round] is monotone and within one half of its argument. *)
Lemma Math_round_le x y : x <= y -> (Math_round x <= Math_round y)%Z.
Proof. intro H. unfold Math_round. apply Qfloor_resp_le. lra. Qed.



End NumFacts.

Import NumFacts.

(** [reduce_sum] from any start value, and over a concatenation. *)
Lemma fold_sum_shift {A : Type} (f : A -> Q) (xs : list A) (a : Q) :
  fold_left (fun sum x => sum + f x) xs a == a + reduce_sum f xs.
Proof.
  unfold reduce_sum. revert a.
  induction xs as [|x xs IH]; intro a; simpl.
  - lra.
  - rewrite (IH (a + f x)), (IH (0 + f x)). lra.
Qed.

Lemma reduce_sum_cons {A : Type} (f : A -> Q) (x : A) (xs : list A) :
  reduce_sum f (x :: xs) == f x + reduce_sum f xs.
Proof.
  unfold reduce_sum at 1. simpl. rewrite fold_sum_shift. lra.
Qed.

Lemma reduce_sum_snoc {A : Type} (f : A -> Q) (xs : list A) (x : A) :
  reduce_sum f (xs ++ [x]) = reduce_sum f xs + f x.
Proof. unfold reduce_sum. rewrite fold_left_app. reflexivity. Qed.

Lemma reduce_sum_map {A B : Type} (g : A -> B) (f : B -> Q) (xs : list A) :
  reduce_sum f (map g xs) = reduce_sum (fun x => f (g x)) xs.
Proof.
  unfold reduce_sum. generalize 0.
  induction xs as [|x xs IH]; intro a; simpl; [reflexivity | apply IH].
Qed.

(* ---------------------------------------------------------------------- *)
(** ** Profile adjustment *)
(* ---------------------------------------------------------------------- *)

Lemma adjustHorizon_total h a :
  allocationTotal (adjustHorizon h a) == allocationTotal a.
Proof. destruct h; unfold allocationTotal; simpl; lra. Qed.

Lemma adjustIncome_total gs a :
  allocationTotal (adjustIncome gs a) == allocationTotal a.
Proof.
  unfold adjustIncome. destruct (includes gs income);
    unfold allocationTotal; simpl; lra.
Qed.

Lemma adjustSpeculation_total gs a :
  allocationTotal (adjustSpeculation gs a) == allocationTotal a.
Proof.
  unfold adjustSpeculation. destruct (includes gs speculation);
    unfold allocationTotal; simpl; lra.
Qed.

(** The adjustments move percentage points between categories: they never
    change the total. *)
Lemma adjustments_total h gs a :
  allocationTotal (adjustSpeculation gs (adjustIncome gs (adjustHorizon h a)))
  == allocationTotal a.
Proof.
  rewrite adjustSpeculation_total, adjustIncome_total, adjustHorizon_total.
  reflexivity.
Qed.

(** Normalisation brings any total other than zero to 100. *)
Lemma normalize_total a :
  ~ allocationTotal a == 0 -> allocationTotal (normalize a) == 100.
Proof.
  intro Hnz. unfold normalize.
  destruct (Num.eqb (allocationTotal a) 100) eqn:E; simpl.
  - apply eqb_eq in E. exact E.
  - unfold allocationTotal in *. simpl. field. exact Hnz.
Qed.

Lemma normalize_id a : allocationTotal a == 100 -> normalize a = a.
Proof.
  intro H. unfold normalize. apply eqb_eq in H. rewrite H. reflexivity.
Qed.

(** C9.  For every profile and every base strategy, the adjustments move
    points between categories and never change the total, and the
    normalisation step brings any total other than zero to 100: the
    returned percentages sum to 100 within 1e-6.  For a base strategy whose
    percentages sum to 100 the total is left at 100, the normalisation has
    nothing to restore and the adjusted percentages are returned as they
    are. *)
Theorem adjusted_allocations_sum_to_100 (s : StrategyDefinition) (profile : UserProfile) :
  let adjusted :=
    adjustSpeculation (investmentGoals profile)
      (adjustIncome (investmentGoals profile)
         (adjustHorizon (timeHorizon profile) (allocations s))) in
  let returned := allocations (adjustStrategyForProfile s profile) in
  ~ allocationTotal (allocations s) == 0 ->
  allocationTotal adjusted == allocationTotal (allocations s) /\
  returned = normalize adjusted /\
  allocationTotal returned == 100 /\
  Qabs (allocationTotal returned - 100) <= 1 # 1000000 /\
  (allocationTotal (allocations s) == 100 -> returned = adjusted).
Proof.
  intros adjusted returned Hbase.
  assert (Ha : allocationTotal adjusted == allocationTotal (allocations s))
    by apply adjustments_total.
  assert (Ht : allocationTotal returned == 100).
  { unfold returned, adjustStrategyForProfile. cbn [allocations].
    apply normalize_total. fold adjusted. rewrite Ha. exact Hbase. }
  split; [exact Ha|]. split; [reflexivity|]. split; [exact Ht|]. split.
  - apply Qabs_case; intro; lra.
  - intro H100. unfold returned, adjustStrategyForProfile. cbn [allocations].
    apply normalize_id. fold adjusted. rewrite Ha. exact H100.
Qed.

(** A base strategy whose percentages sum to 110: the normalisation runs,
    scales every percentage by 100/110 and restores the sum. *)
Lemma adjusted_allocations_sum_to_100_witness :
  let s :=
    {| name := "Custom"; riskLevel := moderate;
       allocations := {| stablecoins := 55; sol := 33; otherTokens := 11;
                         stocks := 11 |} |} in
  let profile :=
    {| riskTolerance := moderate; investmentGoals := [speculation; growth];
       timeHorizon := long; totalInvestment := 1000 |} in
  let returned := allocations (adjustStrategyForProfile s profile) in
  ~ allocationTotal (allocations s) == 0 /\
  allocationTotal (allocations s) == 110 /\
  Qred (stablecoins returned) = 400 # 11 /\
  Qred (sol returned) = 380 # 11 /\
  Qred (otherTokens returned) = 210 # 11 /\
  Qred (stocks returned) = 10 /\
  allocationTotal returned == 100 /\
  Qabs (allocationTotal returned - 100) <= 1 # 1000000.
Proof.
  intros s profile returned.
  assert (Hnz : ~ allocationTotal (allocations s) == 0) by (vm_compute; discriminate).
  split; [exact Hnz|]. split; [reflexivity|].
  split; [reflexivity|]. split; [reflexivity|].
  split; [reflexivity|]. split; [reflexivity|].
  destruct (adjusted_allocations_sum_to_100 s profile Hnz)
    as (_ & _ & Ht & Hq & _).
  split; [exact Ht | exact Hq].
Defined.

(** C10.  There is a profile whose adjusted strategy holds a negative
    percentage: conservative risk, short horizon and an income goal give
    otherTokens = 5 - 5 - 5 = -5, while the four percentages still sum to
    100; the percentages returned by [analyzeProfile] need not lie in
    [0, 100]. *)
Theorem analyzeProfile_negative_otherTokens :
  exists profile : UserProfile,
    riskTolerance profile = conservative /\
    timeHorizon profile = short /\
    In income (investmentGoals profile) /\
    otherTokens (allocations (getStrategy (riskTolerance profile))) = 5 /\
    otherTokens (allocations (analyzeProfile profile)) == - (5) /\
    allocationTotal (allocations (analyzeProfile profile)) == 100 /\
    ~ (0 <= otherTokens (allocations (analyzeProfile profile))).
Proof.
  exists {| riskTolerance := conservative; investmentGoals := [income];
            timeHorizon := short; totalInvestment := 1000 |}.
  repeat split; try reflexivity.
  - simpl. auto.
  - vm_compute. intro H. apply H. reflexivity.
Qed.

(* ---------------------------------------------------------------------- *)
(** ** Health score *)
(* ---------------------------------------------------------------------- *)

Lemma totalDeviation_sum comparison :
  totalDeviation comparison == sumAbsDeviation comparison.
Proof.
  unfold totalDeviation.
  change (fold_left (fun sum c => sum + Math_abs (deviationPct c)) comparison 0)
    with (reduce_sum (fun c => Math_abs (deviationPct c)) comparison).
  induction comparison as [|c rest IH]; simpl.
  - reflexivity.
  - rewrite reduce_sum_cons, IH. reflexivity.
Qed.



(** Division by the literal 2, put in the form linear arithmetic reads. *)
Ltac halves := unfold Qdiv in *; change (/ 2) with (1 # 2) in *.

Lemma rawScore_le a b : a <= b -> rawScore b <= rawScore a.
Proof.
  intro H. unfold rawScore.
  destruct (Math_max_spec 0 (100 - a / 2)) as [[Ha ->]|[Ha ->]];
    destruct (Math_max_spec 0 (100 - b / 2)) as [[Hb ->]|[Hb ->]]; halves; lra.
Qed.

Lemma rawScore_eq a b : a == b -> rawScore a == rawScore b.
Proof. intro H. apply Qle_antisym; apply rawScore_le; lra. Qed.

Lemma Math_round_eq x y : x == y -> Math_round x = Math_round y.
Proof.
  intro H. apply Z.le_antisymm; apply Math_round_le; lra.
Qed.

Lemma calculateHealthScore_raw comparison :
  calculateHealthScore comparison = Math_round (rawScore (sumAbsDeviation comparison)).
Proof.
  unfold calculateHealthScore. apply Math_round_eq, rawScore_eq, totalDeviation_sum.
Qed.



(* ---------------------------------------------------------------------- *)
(** ** Drift analysis of an empty portfolio *)
(* ---------------------------------------------------------------------- *)

(** C8.  For every portfolio whose total value is 0, the drift analysis
    returns its four comparisons (it has no error path): every current
    percentage is 0, the guard on the total keeping the division away, and
    every deviation is the negation of the target percentage. *)
Theorem zero_value_drift
    (account : string) (ts : list TokenBalance) (ss : list StockBalance)
    (target : Allocations) :
  let p := buildPortfolio account ts ss in
  totalValueUsd p == 0 ->
  allocation p = {| stablecoins := 0; sol := 0; otherTokens := 0; stocks := 0 |} /\
  map assetType (compareToTarget p target)
    = ["stablecoins"; "sol"; "otherTokens"; "stocks"] /\
  map targetPct (compareToTarget p target)
    = [stablecoins target; sol target; otherTokens target; stocks target] /\
  Forall (fun c => actualPct c = 0 /\ deviationPct c == - targetPct c)
         (compareToTarget p target).
Proof.
  intros p Hzero.
  assert (Ha : allocation p
               = {| stablecoins := 0; sol := 0; otherTokens := 0; stocks := 0 |}).
  { unfold p, buildPortfolio in *. simpl in *. unfold calculateAllocation.
    apply eqb_eq in Hzero. rewrite Hzero. reflexivity. }
  split; [exact Ha|].
  split; [reflexivity|]. split; [reflexivity|].
  unfold compareToTarget. rewrite Ha. simpl.
  repeat constructor; simpl; lra.
Qed.

Lemma zero_value_drift_witness :
  let p := buildPortfolio "acct"
             [ {| mint := COMMON_TOKENS.SOL; symbol := "SOL"; balance := 0;
                  valueUsd := 0 |} ] [] in
  let target := allocations conservativeStrategy in
  totalValueUsd p == 0 /\
  Forall (fun c => actualPct c = 0 /\ deviationPct c == - targetPct c)
         (compareToTarget p target).
Proof.
  intros p target. split.
  - reflexivity.
  - apply (zero_value_drift "acct" _ [] target). reflexivity.
Defined.

(* ---------------------------------------------------------------------- *)
(** ** The greedy matcher of the autonomous manager *)
(* ---------------------------------------------------------------------- *)

Module ManagerFacts.
Import Manager.

(** What the first loop lets through: a position is overweight (underweight)
    only for an entry of the target whose value gap exceeds the minimum
    trade and whose percentage gap exceeds the threshold. *)
Lemma partition_spec cfg state :
  forall target overs unders,
    partition cfg state target = (overs, unders) ->
    Forall (fun o =>
              minTrade cfg < excessUsd o /\
              exists t, In (overSymbol o, t) target /\
                        threshold cfg < currentPct state (overSymbol o) - t) overs /\
    Forall (fun u =>
              minTrade cfg < deficitUsd u /\
              exists t, In (underSymbol u, t) target /\
                        threshold cfg < t - currentPct state (underSymbol u)) unders.
Proof.
  induction target as [|[sym t] rest IH]; intros overs unders H;
    cbn [partition] in H.
  - inversion H; subst. split; constructor.
  - destruct (partition cfg state rest) as [os us] eqn:E.
    destruct (IH _ _ eq_refl) as [IHo IHu].
    assert (Ho : Forall (fun o =>
              minTrade cfg < excessUsd o /\
              exists t0, In (overSymbol o, t0) ((sym, t) :: rest) /\
                        threshold cfg < currentPct state (overSymbol o) - t0) os).
    { eapply Forall_impl; [|exact IHo]. intros o (Hm & t0 & Hin & Hth).
      split; [exact Hm|]. exists t0. split; [right; exact Hin | exact Hth]. }
    assert (Hu : Forall (fun u =>
              minTrade cfg < deficitUsd u /\
              exists t0, In (underSymbol u, t0) ((sym, t) :: rest) /\
                        threshold cfg < t0 - currentPct state (underSymbol u)) us).
    { eapply Forall_impl; [|exact IHu]. intros u (Hm & t0 & Hin & Hth).
      split; [exact Hm|]. exists t0. split; [right; exact Hin | exact Hth]. }
    destruct (Num.gtb _ (minTrade cfg) && Num.gtb _ (threshold cfg)) eqn:C1.
    + apply andb_true_iff in C1. destruct C1 as [Cd Cp].
      apply gtb_gt in Cd. apply gtb_gt in Cp.
      destruct (lookup TOKEN_INFO sym); inversion H; subst; split; auto.
      constructor; [|exact Ho]. simpl. split; [exact Cd|].
      exists t. split; [left; reflexivity | exact Cp].
    + destruct (Num.ltb _ (- minTrade cfg) && Num.gtb _ (threshold cfg)) eqn:C2.
      * apply andb_true_iff in C2. destruct C2 as [Cd Cp].
        apply ltb_lt in Cd. apply gtb_gt in Cp.
        destruct (lookup TOKEN_INFO sym); inversion H; subst; split; auto.
        constructor; [|exact Hu]. simpl. split; [lra|].
        exists t. split; [left; reflexivity | exact Cp].
      * inversion H; subst. split; auto.
Qed.

(** Every action of a pass sells the overweight position to one of the
    underweight positions walked, for at least the minimum trade. *)
Lemma matchUnder_actions minT :
  forall unders over over' unders' acts,
    matchUnder minT over unders = (over', unders', acts) ->
    Forall (fun a =>
              minT <= tradeUsd a /\
              fromSymbol a = overSymbol over /\
              In (toSymbol a) (map underSymbol unders)) acts /\
    overSymbol over' = overSymbol over /\
    map underSymbol unders' = map underSymbol unders.
Proof.
  induction unders as [|under rest IH]; intros over over' unders' acts H;
    cbn [matchUnder] in H.
  - inversion H; subst. repeat split; constructor.
  - destruct (Num.ltb (excessUsd over) minT || Num.ltb (deficitUsd under) minT) eqn:C.
    + destruct (matchUnder minT over rest) as [[o r] a] eqn:E.
      inversion H; subst. destruct (IH _ _ _ _ E) as (H1 & H2 & H3).
      split; [|split; [exact H2 | simpl; rewrite H3; reflexivity]].
      eapply Forall_impl; [|exact H1]. intros x (Hm & Hf & Ht).
      repeat split; auto. right. exact Ht.
    + apply orb_false_iff in C. destruct C as [Ce Cd].
      apply ltb_ge in Ce. apply ltb_ge in Cd.
      match type of H with
      | context [matchUnder minT ?o1 rest] =>
          destruct (matchUnder minT o1 rest) as [[o r] a] eqn:E
      end.
      inversion H; subst. destruct (IH _ _ _ _ E) as (H1 & H2 & H3).
      cbn [overSymbol] in *.
      split; [|split; [exact H2 | simpl; rewrite H3; reflexivity]].
      constructor.
      * cbn [tradeUsd fromSymbol toSymbol]. split; [|split].
        -- apply Math_min_glb; assumption.
        -- reflexivity.
        -- left. reflexivity.
      * eapply Forall_impl; [|exact H1]. intros x (Hm & Hf & Ht).
        repeat split; auto. right. exact Ht.
Qed.

Lemma matchAll_actions minT :
  forall overs unders overs' unders' acts,
    matchAll minT overs unders = (overs', unders', acts) ->
    Forall (fun a =>
              minT <= tradeUsd a /\
              In (fromSymbol a) (map overSymbol overs) /\
              In (toSymbol a) (map underSymbol unders)) acts /\
    map underSymbol unders' = map underSymbol unders.
Proof.
  induction overs as [|over rest IH]; intros unders overs' unders' acts H;
    cbn [matchAll] in H.
  - inversion H; subst. split; [constructor | reflexivity].
  - destruct (matchUnder minT over unders) as [[o u] a] eqn:E1.
    destruct (matchAll minT rest u) as [[r u'] a'] eqn:E2.
    inversion H; subst.
    destruct (matchUnder_actions _ _ _ _ _ _ E1) as (A1 & A2 & A3).
    destruct (IH _ _ _ _ E2) as (B1 & B2).
    split; [|congruence].
    apply Forall_app. split.
    + eapply Forall_impl; [|exact A1]. intros x (Hm & Hf & Ht).
      repeat split; auto. left. symmetry. exact Hf.
    + eapply Forall_impl; [|exact B1]. intros x (Hm & Hf & Ht).
      repeat split; auto.
      * right. exact Hf.
      * rewrite <- A3. exact Ht.
Qed.






End ManagerFacts.


Example example_actions :
  map (fun a => (Manager.fromSymbol a, Manager.toSymbol a,
                 Qred (Manager.tradeUsd a)))
      (Manager.calculateRebalanceActions exampleManagerConfig exampleTarget exampleState)
  = [("USDC", "SOL", 550); ("EURC", "SOL", 50); ("EURC", "USDY", 200)].
Proof. vm_compute. reflexivity. Qed.



(* ---------------------------------------------------------------------- *)
(** ** The trade plan *)
(* ---------------------------------------------------------------------- *)

Lemma categoryTrade_amounts minSize delta buy sell st :
  (forall a p, amountUsd (buy a p) = a) ->
  (forall a p, amountUsd (sell a p) = a) ->
  Forall (fun t => minSize <= amountUsd t) (fst st) ->
  Forall (fun t => minSize <= amountUsd t)
         (fst (categoryTrade minSize delta buy sell st)).
Proof.
  intros Hbuy Hsell HF. destruct st as [ts prio]. unfold categoryTrade.
  destruct (Num.geb (Math_abs delta) minSize) eqn:G; [|exact HF].
  apply geb_ge in G.
  destruct (Num.gtb delta 0) eqn:P; cbn [fst] in *;
    apply Forall_app; (split; [exact HF|]); constructor; try constructor.
  - rewrite Hbuy. apply gtb_gt in P.
    destruct (Math_abs_cases delta) as [[_ E]|[Hn _]]; lra.
  - rewrite Hsell. exact G.
Qed.

Lemma planTrades_amounts cfg s p :
  Forall (fun t => minTradeSize cfg <= amountUsd t) (planTrades cfg s p).
Proof.
  unfold planTrades.
  destruct (includeStocks cfg);
    repeat (apply categoryTrade_amounts; try reflexivity);
    constructor.
Qed.

(** A category's block leaves the plan as it is when the gap between target
    and current value is below the minimum trade size, and appends one trade
    when the gap reaches it; the rebalance threshold is not read. *)
Lemma categoryTrade_cases minSize delta buy sell st :
  (fst (categoryTrade minSize delta buy sell st) = fst st /\
   ~ minSize <= Math_abs delta) \/
  ((exists t, fst (categoryTrade minSize delta buy sell st) = fst st ++ [t]) /\
   minSize <= Math_abs delta).
Proof.
  destruct st as [ts prio]. unfold categoryTrade.
  destruct (Num.geb (Math_abs delta) minSize) eqn:G.
  - right. apply geb_ge in G. split; [|exact G].
    destruct (Num.gtb delta 0); cbn [fst]; eexists; reflexivity.
  - left. split; [reflexivity|]. intro C. apply geb_ge in C. congruence.
Qed.

Lemma snoc_not_nil {A : Type} (l : list A) (x : A) : l ++ [x] <> [].
Proof. destruct l; discriminate. Qed.

Ltac category_step C st :=
  match goal with
  | |- context [categoryTrade ?m ?d ?b ?s ?st0] =>
      lazymatch st0 with
      | context [categoryTrade] => fail
      | _ =>
          pose proof (categoryTrade_cases m d b s st0) as C;
          set (st := categoryTrade m d b s st0) in *
      end
  end.

Lemma planTrades_nonempty cfg s p :
  planTrades cfg s p <> [] <->
  minTradeSize cfg <= Math_abs (sol (planDeltas s p)) \/
  minTradeSize cfg <= Math_abs (otherTokens (planDeltas s p)) \/
  (includeStocks cfg = true /\
   minTradeSize cfg <= Math_abs (stocks (planDeltas s p))).
Proof.
  unfold planTrades. cbv zeta.
  category_step C1 st1. category_step C2 st2.
  destruct (includeStocks cfg).
  - category_step C3 st3.
    destruct C1 as [[E1 N1]|[[t1 E1] P1]];
      destruct C2 as [[E2 N2]|[[t2 E2] P2]];
      destruct C3 as [[E3 N3]|[[t3 E3] P3]];
      rewrite E3, ?E2, ?E1; cbn [fst app];
      (split; intro H;
       [ first [ left; assumption
               | right; left; assumption
               | right; right; split; [reflexivity | assumption]
               | exfalso; apply H; reflexivity ]
       | first [ discriminate
               | destruct H as [H|[H|[_ H]]]; contradiction ] ]).
  - destruct C1 as [[E1 N1]|[[t1 E1] P1]];
      destruct C2 as [[E2 N2]|[[t2 E2] P2]];
      rewrite E2, ?E1; cbn [fst app];
      (split; intro H;
       [ first [ left; assumption
               | right; left; assumption
               | exfalso; apply H; reflexivity ]
       | first [ discriminate
               | destruct H as [H|[H|[H _]]];
                 [contradiction | contradiction | discriminate] ] ]).
Qed.

(** The plan holds one trade per category whose gap reaches the minimum
    trade size, in the order SOL, other tokens, stocks. *)
Lemma planTrades_categories cfg s p :
  map tradeCategory (planTrades cfg s p) = plannedCategories cfg s p.
Proof.
  unfold planTrades, plannedCategories, categoryTrade. cbv zeta.
  destruct (includeStocks cfg);
    destruct (Num.geb (Math_abs (sol (planDeltas s p))) (minTradeSize cfg));
    destruct (Num.geb (Math_abs (otherTokens (planDeltas s p))) (minTradeSize cfg));
    destruct (Num.geb (Math_abs (stocks (planDeltas s p))) (minTradeSize cfg));
    destruct (Num.gtb (sol (planDeltas s p)) 0);
    destruct (Num.gtb (otherTokens (planDeltas s p)) 0);
    destruct (Num.gtb (stocks (planDeltas s p)) 0);
    reflexivity.
Qed.

(** The size of a trade is the absolute gap of the category it adjusts. *)
Lemma planTrades_gaps cfg s p :
  Forall (fun t => amountUsd t
                   == Math_abs (categoryGap (planDeltas s p) (tradeCategory t)))
         (planTrades cfg s p).
Proof.
  assert (Hpos : forall d, Num.gtb d 0 = true -> d == Math_abs d).
  { intros d H. apply gtb_gt in H.
    destruct (Math_abs_cases d) as [[_ E]|[Hn _]]; lra. }
  unfold planTrades, categoryTrade. cbv zeta.
  destruct (includeStocks cfg);
    destruct (Num.geb (Math_abs (sol (planDeltas s p))) (minTradeSize cfg));
    destruct (Num.geb (Math_abs (otherTokens (planDeltas s p))) (minTradeSize cfg));
    try destruct (Num.geb (Math_abs (stocks (planDeltas s p))) (minTradeSize cfg));
    destruct (Num.gtb (sol (planDeltas s p)) 0) eqn:P1;
    destruct (Num.gtb (otherTokens (planDeltas s p)) 0) eqn:P2;
    try destruct (Num.gtb (stocks (planDeltas s p)) 0) eqn:P3;
    cbn [fst app]; repeat constructor;
    cbn; first [reflexivity | apply Hpos; assumption].
Qed.

Lemma in_singleton_or_nil (b : bool) (c x : string) :
  In x (if b then [c] else []) <-> b = true /\ x = c.
Proof.
  destruct b; cbn [In]; split.
  - intros [H|H]; [split; [reflexivity | symmetry; exact H] | contradiction].
  - intros [_ H]. left. symmetry. exact H.
  - contradiction.
  - intros [H _]. discriminate H.
Qed.

(** A category has a trade in the plan exactly when its own gap reaches the
    minimum trade size (and, for stocks, stocks are enabled). *)
Lemma planTrades_category_iff cfg s p :
  ((exists t, In t (planTrades cfg s p) /\ tradeCategory t = "sol") <->
   minTradeSize cfg <= Math_abs (sol (planDeltas s p))) /\
  ((exists t, In t (planTrades cfg s p) /\ tradeCategory t = "otherTokens") <->
   minTradeSize cfg <= Math_abs (otherTokens (planDeltas s p))) /\
  ((exists t, In t (planTrades cfg s p) /\ tradeCategory t = "stocks") <->
   includeStocks cfg = true /\
   minTradeSize cfg <= Math_abs (stocks (planDeltas s p))).
Proof.
  assert (Hin : forall c,
            (exists t, In t (planTrades cfg s p) /\ tradeCategory t = c) <->
            In c (plannedCategories cfg s p)).
  { intro c. rewrite <- planTrades_categories, in_map_iff.
    split; intros (t & H1 & H2); exists t; split; assumption. }
  rewrite !Hin. unfold plannedCategories. cbv zeta.
  rewrite !in_app_iff, !in_singleton_or_nil, andb_true_iff, <- !geb_ge.
  split; [|split]; split; intro H.
  - destruct H as [[H _]|[[_ H]|[_ H]]]; [exact H | discriminate H | discriminate H].
  - left. split; [exact H | reflexivity].
  - destruct H as [[_ H]|[[H _]|[_ H]]]; [discriminate H | exact H | discriminate H].
  - right. left. split; [exact H | reflexivity].
  - destruct H as [[_ H]|[[_ H]|[H _]]]; [discriminate H | discriminate H | exact H].
  - right. right. split; [exact H | reflexivity].
Qed.

(** C3 (amended).  Every trade of a plan is at least the minimum trade
    size, and its size is the absolute gap between target and current
    value of the category it adjusts.  The plan does not read the rebalance
    threshold: a category (SOL, other tokens, or stocks when enabled) has a
    trade in the plan exactly when its own gap reaches the minimum trade
    size.  In the manager's matcher every action is at least the minimum
    trade and pairs a position more than the threshold above its target
    with one more than the threshold below its target. *)
Theorem plan_trades_respect_minimum :
  (forall cfg s p t,
     In t (planTrades cfg s p) ->
     minTradeSize cfg <= amountUsd t /\
     amountUsd t == Math_abs (categoryGap (planDeltas s p) (tradeCategory t))) /\
  (forall cfg s p,
     ((exists t, In t (planTrades cfg s p) /\ tradeCategory t = "sol") <->
      minTradeSize cfg <= Math_abs (sol (planDeltas s p))) /\
     ((exists t, In t (planTrades cfg s p) /\ tradeCategory t = "otherTokens") <->
      minTradeSize cfg <= Math_abs (otherTokens (planDeltas s p))) /\
     ((exists t, In t (planTrades cfg s p) /\ tradeCategory t = "stocks") <->
      includeStocks cfg = true /\
      minTradeSize cfg <= Math_abs (stocks (planDeltas s p)))) /\
  (forall cfg s p,
     planTrades cfg s p <> [] <->
     minTradeSize cfg <= Math_abs (sol (planDeltas s p)) \/
     minTradeSize cfg <= Math_abs (otherTokens (planDeltas s p)) \/
     (includeStocks cfg = true /\
      minTradeSize cfg <= Math_abs (stocks (planDeltas s p)))) /\
  (forall cfg target state a,
     In a (Manager.calculateRebalanceActions cfg target state) ->
     Manager.minTrade cfg <= Manager.tradeUsd a /\
     (exists t, In (Manager.fromSymbol a, t) target /\
                Manager.threshold cfg
                < Manager.currentPct state (Manager.fromSymbol a) - t) /\
     (exists t, In (Manager.toSymbol a, t) target /\
                Manager.threshold cfg
                < t - Manager.currentPct state (Manager.toSymbol a))).
Proof.
  split; [|split; [|split]].
  - intros cfg s p t Hin.
    pose proof (planTrades_amounts cfg s p) as HF.
    pose proof (planTrades_gaps cfg s p) as HG.
    rewrite Forall_forall in HF, HG. split; [apply HF | apply HG]; exact Hin.
  - apply planTrades_category_iff.
  - apply planTrades_nonempty.
  - intros cfg target state a Hin.
    unfold Manager.calculateRebalanceActions in Hin.
    destruct (Manager.partition cfg state target) as [os us] eqn:EP.
    destruct (ManagerFacts.partition_spec _ _ _ _ _ EP) as [Ho Hu].
    destruct (Manager.matchAll (Manager.minTrade cfg) os us) as [[os' us'] acts] eqn:EM.
    destruct (ManagerFacts.matchAll_actions _ _ _ _ _ _ EM) as [HA _].
    cbn [snd] in Hin. rewrite Forall_forall in HA, Ho, Hu.
    destruct (HA a Hin) as (Hm & Hf & Ht).
    split; [exact Hm|]. split.
    + apply in_map_iff in Hf. destruct Hf as (o & Eo & Hino).
      destruct (Ho o Hino) as (_ & t & Hin' & Hth).
      exists t. rewrite <- Eo. split; assumption.
    + apply in_map_iff in Ht. destruct Ht as (u & Eu & Hinu).
      destruct (Hu u Hinu) as (_ & t & Hin' & Hth).
      exists t. rewrite <- Eu. split; assumption.
Qed.

Lemma plan_trades_respect_minimum_witness :
  let s := analyzeProfile aggressiveProfile in
  let t := mkSwap COMMON_TOKENS.USDC COMMON_TOKENS.SOL "Increase SOL allocation"
             (sol (planDeltas s driftedPortfolio)) 0 in
  In t (planTrades DEFAULT_CONFIG s driftedPortfolio) /\
  minTradeSize DEFAULT_CONFIG <= amountUsd t /\
  amountUsd t == Math_abs (categoryGap (planDeltas s driftedPortfolio) (tradeCategory t)).
Proof.
  intros s t.
  assert (Hin : In t (planTrades DEFAULT_CONFIG s driftedPortfolio))
    by (vm_compute; left; reflexivity).
  split; [exact Hin|].
  exact (proj1 plan_trades_respect_minimum DEFAULT_CONFIG s driftedPortfolio t Hin).
Defined.

(** C3, as stated, fails on the plan.  An account without stocks holds SOL
    and stablecoins one point away from their targets, against a threshold
    of five points: neither side of a trade between them exceeds the
    threshold, and the plan still holds a trade of 100 USD from USDC into
    SOL, the SOL gap of 100 USD reaching the minimum trade size of 10. *)
Lemma plan_trade_within_threshold :
  portfolioStocks driftedPortfolio = [] /\
  Forall (fun c =>
            assetType c = "stablecoins" \/ assetType c = "sol" ->
            Qabs (deviationPct c) <= rebalanceThresholdPct DEFAULT_CONFIG)
         (compareToTarget driftedPortfolio
            (allocations (analyzeProfile aggressiveProfile))) /\
  exists t,
    In t (planTrades DEFAULT_CONFIG (analyzeProfile aggressiveProfile)
            driftedPortfolio) /\
    type t = swap /\
    fromAsset t = Some COMMON_TOKENS.USDC /\
    toAsset t = COMMON_TOKENS.SOL /\
    amountUsd t == 100.
Proof.
  split; [reflexivity|]. split.
  - repeat constructor; intros [H|H]; try discriminate H;
      vm_compute; discriminate.
  - eexists. split; [vm_compute; left; reflexivity|].
    repeat split.
Qed.

(* ---------------------------------------------------------------------- *)
(** ** Trade execution *)
(* ---------------------------------------------------------------------- *)

Section ExecutionFacts.

Variable World : Type.
Variable services : Services World.
Variable config : PortfolioBuilderConfig.

(** Whatever a stage of the pipeline throws, [executeSwap] returns: a failed
    result that carries the message. *)
Lemma executeSwap_catches params st e st' :
  swapPipeline services params st = (Threw e, st') ->
  executeSwap services params st
  = (Returned (swapOutcome params "" 0 swap_failed (Some (thrownMessage e))), st').
Proof. intro H. unfold executeSwap, try_catch. rewrite H. reflexivity. Qed.

Lemma executeSwap_returns params st :
  exists r st', executeSwap services params st = (Returned r, st').
Proof.
  unfold executeSwap, try_catch.
  destruct (swapPipeline services params st) as [[r|e] st']; unfold ret; eauto.
Qed.

Ltac step_done :=
  do 3 eexists; split; [reflexivity|]; split; [reflexivity|];
  cbn; repeat split; auto; try discriminate.

(** One iteration of the loop always returns, pushes one step, and the step
    records what the pipeline did. *)
Lemma executeTrade_spec account total acc trade st :
  exists acc' s st',
    executeTrade services config account total acc trade st = (Returned acc', st') /\
    loopSteps acc' = loopSteps acc ++ [s] /\
    recorded trade (option_map fst (pipelineRun services config account trade st)) s /\
    st' = match pipelineRun services config account trade st with
          | Some run => snd run
          | None => st
          end /\
    loopValueTraded acc'
    = if isCompleted s then loopValueTraded acc + stepAmountUsd s
      else loopValueTraded acc.
Proof.
  unfold executeTrade, pipelineRun, try_catch, recorded.
  destruct (type trade) eqn:Ety.
  - destruct (fromAsset trade) as [fromMint|] eqn:Efrom.
    + destruct (truthy (Some fromMint)) eqn:Etr.
      * unfold bind.
        destruct (executeSwapTrade services config account fromMint (toAsset trade)
                    (amountUsd trade) st) as [[r|e] st1] eqn:Erun;
          cbn [option_map fst snd]; unfold ret, recordSwap.
        -- destruct (swapStatus r) eqn:Est;
             [| destruct (truthy (swapError r)) eqn:Eerr
              | destruct (truthy (swapError r)) eqn:Eerr ];
             step_done;
             (destruct (swapError r); [reflexivity | discriminate Eerr]).
        -- step_done.
      * unfold ret. step_done.
    + unfold ret. step_done.
  - unfold ret. step_done.
  - unfold ret. step_done.
Qed.

(** A stage of the pipeline that throws, for a swap whose input price was
    read: the iteration returns, the pushed step is failed, and it carries
    the message of the failure. *)
Lemma stage_failure_marks_step_failed
    account total acc trade fromMint price st st1 e st2 :
  type trade = swap ->
  fromAsset trade = Some fromMint ->
  truthy (Some fromMint) = true ->
  getTokenPrice services fromMint st = (Returned (Some price), st1) ->
  swapPipeline services
    {| paramInputMint := fromMint; paramOutputMint := toAsset trade;
       amount := amountUsd trade / price; slippageBps := maxSlippageBps config;
       userPublicKey := account |} st1 = (Threw e, st2) ->
  exists acc' s,
    executeTrade services config account total acc trade st = (Returned acc', st2) /\
    loopSteps acc' = loopSteps acc ++ [s] /\
    status s = failed /\
    loopValueTraded acc' = loopValueTraded acc /\
    (thrownMessage e <> "" ->
     error s = Some (thrownMessage e) /\
     loopErrors acc'
     = loopErrors acc ++ [String.append "swap failed: " (thrownMessage e)]).
Proof.
  intros Hty Hfrom Htr Hprice Hthrow.
  unfold executeTrade, try_catch. rewrite Hty, Hfrom, Htr.
  unfold bind at 1. unfold executeSwapTrade, bind. rewrite Hprice.
  unfold executeSwap, try_catch. rewrite Hthrow. unfold ret, recordSwap.
  cbn [swapStatus swapError swapOutcome truthy].
  destruct (String.eqb_spec (thrownMessage e) "") as [E|E].
  - cbn [negb]. do 2 eexists. split; [reflexivity|]. split; [reflexivity|].
    cbn. repeat split; auto; contradiction.
  - cbn [negb]. do 2 eexists. split; [reflexivity|]. split; [reflexivity|].
    cbn. rewrite Hty. repeat split; auto; contradiction.
Qed.

Lemma completedValue_snoc ss s :
  completedValue (ss ++ [s])
  = if isCompleted s then completedValue ss + stepAmountUsd s else completedValue ss.
Proof.
  unfold completedValue. rewrite filter_app. cbn [filter].
  destruct (isCompleted s).
  - apply reduce_sum_snoc.
  - rewrite app_nil_r. reflexivity.
Qed.

(** The loop never throws: it runs to the end of the list whatever the
    pipeline does, and keeps the traded value equal to the sum over the
    completed steps. *)
Lemma forEach_executeTrade account total :
  forall ts acc st,
    exists acc' st' news,
      forEach (executeTrade services config account total) ts acc st
      = (Returned acc', st') /\
      loopSteps acc' = loopSteps acc ++ news /\
      stepsRecord services config account ts news /\
      (loopValueTraded acc = completedValue (loopSteps acc) ->
       loopValueTraded acc' = completedValue (loopSteps acc')).
Proof.
  induction ts as [|trade rest IH]; intros acc st.
  - exists acc, st, []. cbn [forEach]. unfold ret.
    rewrite app_nil_r. repeat split; auto. constructor.
  - destruct (executeTrade_spec account total acc trade st)
      as (acc1 & s & st1 & Hrun & Hsteps & Hrec & _ & Hval).
    destruct (IH acc1 st1) as (acc' & st' & news & Hloop & Hsteps' & Hrecs & Hinv).
    exists acc', st', (s :: news).
    cbn [forEach]. unfold bind. rewrite Hrun.
    split; [exact Hloop|]. split; [|split].
    + rewrite Hsteps', Hsteps, <- app_assoc. reflexivity.
    + constructor; [exists st; exact Hrec | exact Hrecs].
    + intro H0. apply Hinv. rewrite Hsteps, completedValue_snoc, Hval, H0.
      reflexivity.
Qed.

Lemma runTrades_spec account total ts st :
  exists acc st',
    runTrades services config account total ts st = (Returned acc, st') /\
    stepsRecord services config account (sortByPriority ts) (loopSteps acc) /\
    loopValueTraded acc = completedValue (loopSteps acc).
Proof.
  unfold runTrades.
  destruct (forEach_executeTrade account total (sortByPriority ts)
              {| loopSteps := []; loopErrors := []; loopValueTraded := 0 |} st)
    as (acc & st' & news & Hrun & Hsteps & Hrec & Hinv).
  exists acc, st'. split; [exact Hrun|]. split.
  - rewrite Hsteps. exact Hrec.
  - apply Hinv. reflexivity.
Qed.

End ExecutionFacts.

Lemma insertByPriority_perm t ts : Permutation (insertByPriority t ts) (t :: ts).
Proof.
  induction ts as [|u rest IH]; cbn [insertByPriority].
  - reflexivity.
  - destruct (priority t <=? priority u)%nat.
    + reflexivity.
    + rewrite IH. apply perm_swap.
Qed.

(** Sorting by priority keeps every trade of the plan. *)
Lemma sortByPriority_perm ts : Permutation (sortByPriority ts) ts.
Proof.
  induction ts as [|t rest IH]; cbn [sortByPriority fold_right].
  - reflexivity.
  - fold (sortByPriority rest). rewrite insertByPriority_perm, IH. reflexivity.
Qed.

Section AllocationFacts.

Variable World : Type.
Variable services : Services World.
Variable config : PortfolioBuilderConfig.

(** Reading the portfolio is one logged call. *)
Lemma getPortfolio_run account st :
  getPortfolio services account st
  = match fetchBalances services account (world st) with
    | (Returned b, w) =>
        (Returned (buildPortfolio account (fst b) (snd b)),
         {| world := w; calls := calls st ++ [CallGetPortfolio account] |})
    | (Threw e, w) =>
        (Threw e, {| world := w; calls := calls st ++ [CallGetPortfolio account] |})
    end.
Proof.
  unfold getPortfolio, bind, call, ret.
  destruct (fetchBalances services account (world st)) as [[b|e] w]; reflexivity.
Qed.

(** The three ways [executeAllocation] returns a result. *)
Lemma executeAllocation_inv account profile st r st' :
  executeAllocation services config account profile st = (Returned r, st') ->
  exists b w1,
    fetchBalances services account (world st) = (Returned b, w1) /\
    let st1 := {| world := w1; calls := calls st ++ [CallGetPortfolio account] |} in
    let plan := planFor config profile (buildPortfolio account (fst b) (snd b)) in
    (trades plan = [] /\ st' = st1 /\ r = emptyReport plan) \/
    (trades plan <> [] /\ dryRun config = true /\ st' = st1 /\
     r = dryRunReport plan) \/
    (trades plan <> [] /\ dryRun config = false /\
     exists acc st2 final,
       runTrades services config account (totalValueUsd (currentPortfolio plan))
         (trades plan) st1 = (Returned acc, st2) /\
       getPortfolio services account st2 = (Returned final, st') /\
       r = liveReport acc final).
Proof.
  unfold executeAllocation, createExecutionPlan.
  unfold bind at 1 2. rewrite getPortfolio_run.
  destruct (fetchBalances services account (world st)) as [[b|e] w1] eqn:Eb;
    [|discriminate].
  intro H. exists b, w1. split; [reflexivity|]. cbv zeta. unfold ret at 1 in H.
  set (plan := planFor config profile (buildPortfolio account (fst b) (snd b))) in *.
  set (st1 := {| world := w1; calls := calls st ++ [CallGetPortfolio account] |}) in *.
  destruct (trades plan) as [|t ts] eqn:Et.
  - left. cbn in H. unfold ret in H. inversion H; subst. auto.
  - right. cbn [List.length Nat.eqb] in H.
    destruct (dryRun config) eqn:Ed.
    + left. unfold ret in H. inversion H; subst.
      repeat split; auto. discriminate.
    + right. split; [discriminate|]. split; [reflexivity|].
      unfold bind in H.
      destruct (runTrades services config account
                  (totalValueUsd (currentPortfolio plan)) (t :: ts) st1)
        as [[acc|e] st2] eqn:Er; [|discriminate].
      destruct (getPortfolio services account st2) as [[final|e] st3] eqn:Ef;
        [|discriminate].
      unfold ret in H. inversion H; subst.
      exists acc, st2, final. auto.
Qed.

Lemma completedCount_le ss : (completedCount ss <= List.length ss)%nat.
Proof. unfold completedCount. apply filter_length_le. Qed.

Lemma pending_steps total ts :
  let ss := map (fun t => stepOf total t pending) ts in
  Forall (fun s => status s = pending) ss /\
  filter isCompleted ss = [] /\
  reduce_sum stepAmountUsd ss = reduce_sum amountUsd ts.
Proof.
  cbv zeta. split; [|split].
  - apply Forall_forall. intros s Hin. apply in_map_iff in Hin.
    destruct Hin as (t & <- & _). reflexivity.
  - induction ts as [|t rest IH]; [reflexivity | exact IH].
  - rewrite reduce_sum_map. reflexivity.
Qed.

End AllocationFacts.

(** C1 (amended).  For every result returned by [executeAllocation], the
    summary counts the steps and the completed steps.  Outside a dry run
    (and for an empty plan) the status is success exactly when all steps
    completed, failed exactly when none completed and at least one was
    attempted, and partial otherwise.  A dry run of a non-empty plan
    reports success although no step completed. *)
Theorem allocation_status
    {World : Type} (services : Services World) (config : PortfolioBuilderConfig)
    (account : string) (profile : UserProfile)
    (st st' : AgentState World) (r : ExecutionResult) :
  executeAllocation services config account profile st = (Returned r, st') ->
  let attempted := List.length (steps r) in
  let completedSteps := completedCount (steps r) in
  totalTradesAttempted (summary r) = attempted /\
  totalTradesCompleted (summary r) = completedSteps /\
  (dryRun config = false \/ steps r = [] ->
   (resultStatus r = res_success <-> completedSteps = attempted) /\
   (resultStatus r = res_failed <->
    completedSteps = 0%nat /\ (0 < attempted)%nat) /\
   (resultStatus r = res_partial <->
    completedSteps <> attempted /\
    ~ (completedSteps = 0%nat /\ (0 < attempted)%nat))) /\
  (dryRun config = true -> steps r <> [] ->
   resultStatus r = res_success /\ completedSteps = 0%nat /\ (0 < attempted)%nat).
Proof.
  intros H attempted completedSteps. subst attempted completedSteps.
  destruct (executeAllocation_inv _ _ _ _ _ _ _ _ H) as (b & w1 & _ & Hcases).
  cbv zeta in Hcases.
  destruct Hcases as [(He & _ & ->)|[(Hne & Hd & _ & ->)|(Hne & Hd & acc & st2 & fin & _ & _ & ->)]].
  - cbn. intuition (congruence || lia).
  - destruct (pending_steps
                (totalValueUsd (currentPortfolio
                   (planFor config profile (buildPortfolio account (fst b) (snd b)))))
                (trades (planFor config profile (buildPortfolio account (fst b) (snd b)))))
      as (_ & Hf & _). cbv zeta in Hf.
    unfold completedCount. cbn [steps summary dryRunReport totalTradesAttempted
                                  totalTradesCompleted resultStatus].
    rewrite Hf, length_map. cbn [List.length].
    split; [reflexivity|]. split; [reflexivity|]. split.
    + intros [C|C]; [congruence|].
      apply map_eq_nil in C. contradiction.
    + intros _ _. repeat split.
      destruct (trades (planFor config profile (buildPortfolio account (fst b) (snd b))));
        [contradiction | cbn; lia].
  - pose proof (completedCount_le (loopSteps acc)) as Hle.
    unfold completedCount in *.
    cbn [steps summary liveReport totalTradesAttempted totalTradesCompleted
           resultStatus].
    split; [reflexivity|]. split; [reflexivity|]. split.
    + intros _.
      destruct (Nat.eqb_spec (List.length (filter isCompleted (loopSteps acc)))
                  (List.length (loopSteps acc))) as [E|E].
      * intuition (congruence || lia).
      * destruct (Nat.ltb_spec 0 (List.length (filter isCompleted (loopSteps acc))))
          as [L|L]; intuition (congruence || lia).
    + intro C. congruence.
Qed.

Lemma allocation_status_witness :
  exists r st',
    executeAllocation (scriptedServices walletBalances (Some (ErrorObject "No route")))
      liveConfig "acct" walletProfile initialState = (Returned r, st') /\
    resultStatus r = res_partial /\
    totalTradesAttempted (summary r) = 2%nat /\
    totalTradesCompleted (summary r) = completedCount (steps r).
Proof.
  eexists. eexists. split; [vm_compute; reflexivity|].
  split; [reflexivity|]. split; [reflexivity|].
  refine (proj1 (proj2 (allocation_status
                          (scriptedServices walletBalances (Some (ErrorObject "No route")))
                          liveConfig "acct" walletProfile initialState _ _ _))).
  vm_compute. reflexivity.
Defined.

(** C1, as stated, fails on a dry run: the two planned trades come back
    pending, none completed, and the status is success, neither failed nor
    partial. *)
Lemma dry_run_status_is_success :
  exists r st',
    executeAllocation (scriptedServices walletBalances None)
      DEFAULT_CONFIG "acct" walletProfile initialState = (Returned r, st') /\
    resultStatus r = res_success /\
    completedCount (steps r) = 0%nat /\
    List.length (steps r) = 2%nat.
Proof.
  eexists. eexists. split; [vm_compute; reflexivity|].
  repeat split.
Qed.

(** C5 (amended).  For every result returned by [executeAllocation] outside
    a dry run (and for an empty plan), the value traded is the sum of
    [amountUsd] over exactly the completed steps, added in the order of the
    steps.  A dry run of a non-empty plan reports the total value of the
    plan, the sum over all its steps, while no step completed. *)
Theorem value_traded_sums_completed_steps
    {World : Type} (services : Services World) (config : PortfolioBuilderConfig)
    (account : string) (profile : UserProfile)
    (st st' : AgentState World) (r : ExecutionResult) :
  executeAllocation services config account profile st = (Returned r, st') ->
  (dryRun config = false \/ steps r = [] ->
   totalValueTraded (summary r) = completedValue (steps r)) /\
  (completedCount (steps r) = 0%nat -> completedValue (steps r) = 0) /\
  (dryRun config = true -> steps r <> [] ->
   totalValueTraded (summary r) = reduce_sum stepAmountUsd (steps r) /\
   completedValue (steps r) = 0).
Proof.
  intro H.
  split; [|split].
  - destruct (executeAllocation_inv _ _ _ _ _ _ _ _ H) as (b & w1 & _ & Hcases).
    cbv zeta in Hcases.
    destruct Hcases as [(He & _ & ->)|[(Hne & Hd & _ & ->)|(Hne & Hd & acc & st2 & fin & Hrun & _ & ->)]].
    + intros _. reflexivity.
    + intros [C|C]; [congruence|]. cbn [steps dryRunReport] in C.
      apply map_eq_nil in C. contradiction.
    + intros _. cbn [steps summary liveReport totalValueTraded].
      destruct (runTrades_spec _ services config account
                  (totalValueUsd (currentPortfolio
                     (planFor config profile (buildPortfolio account (fst b) (snd b)))))
                  (trades (planFor config profile (buildPortfolio account (fst b) (snd b))))
                  {| world := w1; calls := calls st ++ [CallGetPortfolio account] |})
        as (acc0 & st0 & Hrun0 & _ & Hval).
      rewrite Hrun in Hrun0. inversion Hrun0; subst. exact Hval.
  - unfold completedCount, completedValue. intro Hz.
    apply length_zero_iff_nil in Hz. rewrite Hz. reflexivity.
  - destruct (executeAllocation_inv _ _ _ _ _ _ _ _ H) as (b & w1 & _ & Hcases).
    cbv zeta in Hcases.
    destruct Hcases as [(He & _ & ->)|[(Hne & Hd & _ & ->)|(Hne & Hd & acc & st2 & fin & _ & _ & ->)]].
    + intros _ C. exfalso. apply C. reflexivity.
    + intros _ _.
      destruct (pending_steps
                  (totalValueUsd (currentPortfolio
                     (planFor config profile (buildPortfolio account (fst b) (snd b)))))
                  (trades (planFor config profile (buildPortfolio account (fst b) (snd b)))))
        as (_ & Hf & Hs). cbv zeta in Hf, Hs.
      unfold completedValue. cbn [steps summary dryRunReport totalValueTraded].
      rewrite Hf, Hs. split; reflexivity.
    + intro C. congruence.
Qed.

Lemma value_traded_sums_completed_steps_witness :
  exists r st',
    executeAllocation (scriptedServices walletBalances (Some (ErrorObject "No route")))
      liveConfig "acct" walletProfile initialState = (Returned r, st') /\
    map status (steps r) = [failed; completed] /\
    totalValueTraded (summary r) == 150 /\
    (dryRun liveConfig = false \/ steps r = [] ->
     totalValueTraded (summary r) = completedValue (steps r)).
Proof.
  eexists. eexists. split; [vm_compute; reflexivity|].
  split; [reflexivity|]. split; [reflexivity|].
  refine (proj1 (value_traded_sums_completed_steps
                   (scriptedServices walletBalances (Some (ErrorObject "No route")))
                   liveConfig "acct" walletProfile initialState _ _ _)).
  vm_compute. reflexivity.
Defined.

(** C5, as stated, fails on a dry run: no step completed, so the sum over
    the completed steps is 0, and the value traded is reported as 250. *)
Lemma dry_run_reports_plan_value :
  exists r st',
    executeAllocation (scriptedServices walletBalances None)
      DEFAULT_CONFIG "acct" walletProfile initialState = (Returned r, st') /\
    completedCount (steps r) = 0%nat /\
    completedValue (steps r) == 0 /\
    totalValueTraded (summary r) == 250.
Proof.
  eexists. eexists. split; [vm_compute; reflexivity|].
  repeat split.
Qed.

(** C4.  With [dryRun] set and a non-empty plan, [executeAllocation]
    returns one step per planned trade, every step pending, reports no
    completed trade, and makes no call of the swap pipeline: the only call
    it adds to the log is the read of the portfolio the plan is made from. *)
Theorem dry_run_previews
    {World : Type} (services : Services World) (config : PortfolioBuilderConfig)
    (account : string) (profile : UserProfile) (st : AgentState World)
    (b : list TokenBalance * list StockBalance) (w1 : World) :
  dryRun config = true ->
  fetchBalances services account (world st) = (Returned b, w1) ->
  let plan := planFor config profile (buildPortfolio account (fst b) (snd b)) in
  trades plan <> [] ->
  exists r st',
    executeAllocation services config account profile st = (Returned r, st') /\
    map stepAmountUsd (steps r) = map amountUsd (trades plan) /\
    Forall (fun s => status s = pending) (steps r) /\
    totalTradesCompleted (summary r) = 0%nat /\
    completedCount (steps r) = 0%nat /\
    world st' = w1 /\
    calls st' = calls st ++ [CallGetPortfolio account] /\
    filter isPipelineCall (calls st') = filter isPipelineCall (calls st).
Proof.
  intros Hdry Hfetch plan Hne.
  exists (dryRunReport plan),
         {| world := w1; calls := calls st ++ [CallGetPortfolio account] |}.
  destruct (pending_steps (totalValueUsd (currentPortfolio plan)) (trades plan))
    as (Hp & Hf & _). cbv zeta in Hp, Hf.
  split; [|split; [|split; [|split; [|split; [|split; [|split]]]]]].
  - unfold executeAllocation, createExecutionPlan.
    unfold bind at 1 2. rewrite getPortfolio_run, Hfetch. unfold ret at 1.
    fold plan.
    destruct (trades plan) as [|t ts] eqn:Et; [contradiction|].
    cbn [List.length Nat.eqb]. rewrite Hdry. reflexivity.
  - cbn [steps dryRunReport]. rewrite map_map. reflexivity.
  - exact Hp.
  - reflexivity.
  - unfold completedCount. cbn [steps dryRunReport]. rewrite Hf. reflexivity.
  - reflexivity.
  - reflexivity.
  - cbn [calls]. rewrite filter_app. cbn. apply app_nil_r.
Qed.

Lemma dry_run_previews_witness :
  let services := scriptedServices walletBalances None in
  let plan := planFor DEFAULT_CONFIG walletProfile
                (buildPortfolio "acct" (fst walletBalances) (snd walletBalances)) in
  dryRun DEFAULT_CONFIG = true /\
  fetchBalances services "acct" (world initialState) = (Returned walletBalances, 0%nat) /\
  List.length (trades plan) = 2%nat /\
  exists r st',
    executeAllocation services DEFAULT_CONFIG "acct" walletProfile initialState
    = (Returned r, st') /\
    map stepAmountUsd (steps r) = map amountUsd (trades plan) /\
    Forall (fun s => status s = pending) (steps r) /\
    totalTradesCompleted (summary r) = 0%nat /\
    completedCount (steps r) = 0%nat /\
    world st' = 0%nat /\
    calls st' = calls initialState ++ [CallGetPortfolio "acct"] /\
    filter isPipelineCall (calls st') = filter isPipelineCall (calls initialState).
Proof.
  intros services plan.
  split; [reflexivity|]. split; [reflexivity|]. split; [vm_compute; reflexivity|].
  apply (dry_run_previews services DEFAULT_CONFIG "acct" walletProfile initialState
           walletBalances 0%nat).
  - reflexivity.
  - reflexivity.
  - vm_compute. discriminate.
Defined.

Section RecordingFacts.

Variable World : Type.
Variable services : Services World.
Variable config : PortfolioBuilderConfig.
Hypothesis text : messagesCarryText services.

Ltac pipeline_stage :=
  let E := fresh "E" in
  match goal with
  | |- context [fetchToken ?s ?m ?w] =>
      destruct (fetchToken s m w) as [[?|?] ?] eqn:E
  | |- context [fetchQuote ?s ?p ?a ?w] =>
      destruct (fetchQuote s p a w) as [[?|?] ?] eqn:E
  | |- context [fetchSwapInstructions ?s ?q ?u ?w] =>
      destruct (fetchSwapInstructions s q u w) as [[?|?] ?] eqn:E
  | |- context [buildTransaction ?s ?i ?u ?w] =>
      destruct (buildTransaction s i u w) as [[?|?] ?] eqn:E
  | |- context [signTransaction ?s ?t ?w] =>
      destruct (signTransaction s t w) as [[?|?] ?] eqn:E
  | |- context [sendRawTransaction ?s ?t ?w] =>
      destruct (sendRawTransaction s t w) as [[?|?] ?] eqn:E
  | |- context [confirmTransaction ?s ?t ?w] =>
      destruct (confirmTransaction s t w) as [[?|?] ?] eqn:E
  | |- context [match ?o with Some _ => _ | None => _ end] =>
      is_var o; destruct o
  end; cbn [world calls].

(** Whatever the pipeline throws carries a message: it comes from a
    service, or from one of the pipeline's own checks. *)
Lemma swapPipeline_throws_text params st e st' :
  swapPipeline services params st = (Threw e, st') -> thrownMessage e <> "".
Proof.
  destruct text as (T1 & T2 & T3 & T4 & T5 & T6 & T7).
  unfold throwsText in *.
  unfold swapPipeline, getSwapQuote, getSwapInstructions, buildSwapTransaction,
    getToken, bind, call, ret, throw.
  repeat pipeline_stage; intro H; inversion H; subst;
    first [ discriminate | eauto ].
Qed.

(** A result the pipeline returns is a success, or a failure with a
    message. *)
Lemma swapPipeline_returns_text params st r st' :
  swapPipeline services params st = (Returned r, st') ->
  swapStatus r <> swap_success -> truthy (swapError r) = true.
Proof.
  unfold swapPipeline, getSwapQuote, getSwapInstructions, buildSwapTransaction,
    getToken, bind, call, ret, throw.
  repeat pipeline_stage; intro H; inversion H; subst; intro Hs;
    first [ reflexivity | contradiction Hs; reflexivity ].
Qed.

Lemma executeSwapTrade_failure_text account fromMint toMint amountUsd st r st' :
  executeSwapTrade services config account fromMint toMint amountUsd st
  = (Returned r, st') ->
  swapStatus r <> swap_success -> truthy (swapError r) = true.
Proof.
  unfold executeSwapTrade, getTokenPrice, bind, call.
  destruct (fetchTokenPrice services fromMint (world st)) as [[[price|]|e] w];
    [| unfold ret; intro H; inversion H; subst; reflexivity | discriminate].
  unfold executeSwap, try_catch.
  match goal with
  | |- context [swapPipeline services ?p ?s] =>
      destruct (swapPipeline services p s) as [[r0|e] st0] eqn:E
  end.
  - intro H. inversion H; subst. exact (swapPipeline_returns_text _ _ _ _ E).
  - unfold ret. intro H. inversion H; subst. intros _.
    cbn [swapError swapOutcome truthy].
    pose proof (swapPipeline_throws_text _ _ _ _ E) as Hm.
    apply String.eqb_neq in Hm. rewrite Hm. reflexivity.
Qed.

(** One iteration of the loop: a step that ends failed carries an error
    and adds one line to the errors; any other step carries none and adds
    none. *)
Lemma executeTrade_records_failure account total acc trade st acc' st' :
  executeTrade services config account total acc trade st = (Returned acc', st') ->
  exists s,
    loopSteps acc' = loopSteps acc ++ [s] /\
    (if isFailed s
     then (exists m, error s = Some m) /\
          exists line, loopErrors acc' = loopErrors acc ++ [line]
     else error s = None /\ loopErrors acc' = loopErrors acc).
Proof.
  unfold executeTrade, try_catch.
  destruct (type trade) eqn:Ety.
  - destruct (fromAsset trade) as [fromMint|] eqn:Efrom.
    + destruct (truthy (Some fromMint)) eqn:Etr.
      * unfold bind.
        destruct (executeSwapTrade services config account fromMint (toAsset trade)
                    (amountUsd trade) st) as [[r|e] st1] eqn:Erun;
          unfold ret, recordSwap; intro H; inversion H; subst; clear H.
        -- destruct (swapStatus r) eqn:Est.
           ++ eexists. split; [reflexivity|]. cbn. split; reflexivity.
           ++ rewrite (executeSwapTrade_failure_text _ _ _ _ _ _ _ Erun)
                by (rewrite Est; discriminate).
              eexists. split; [reflexivity|]. cbn. split; eauto.
           ++ rewrite (executeSwapTrade_failure_text _ _ _ _ _ _ _ Erun)
                by (rewrite Est; discriminate).
              eexists. split; [reflexivity|]. cbn. split; eauto.
        -- eexists. split; [reflexivity|]. cbn. split; eauto.
      * unfold ret. intro H. inversion H; subst.
        eexists. split; [reflexivity|]. cbn. split; reflexivity.
    + unfold ret. intro H. inversion H; subst.
      eexists. split; [reflexivity|]. cbn. split; reflexivity.
  - unfold ret. intro H. inversion H; subst.
    eexists. split; [reflexivity|]. cbn. split; eauto.
  - unfold ret. intro H. inversion H; subst.
    eexists. split; [reflexivity|]. cbn. split; eauto.
Qed.

Lemma forEach_records_failures account total :
  forall ts acc st acc' st',
    forEach (executeTrade services config account total) ts acc st
    = (Returned acc', st') ->
    exists news,
      loopSteps acc' = loopSteps acc ++ news /\
      Forall (fun s => if isFailed s then exists m, error s = Some m
                       else error s = None) news /\
      List.length (loopErrors acc')
      = (List.length (loopErrors acc) + List.length (filter isFailed news))%nat.
Proof.
  induction ts as [|trade rest IH]; intros acc st acc' st' H; cbn [forEach] in H.
  - unfold ret in H. inversion H; subst. exists [].
    rewrite app_nil_r. split; [reflexivity|]. split; [constructor|].
    cbn. lia.
  - unfold bind in H.
    destruct (executeTrade services config account total acc trade st)
      as [[acc1|e] st1] eqn:E1; [|discriminate].
    destruct (executeTrade_records_failure _ _ _ _ _ _ _ E1) as (s & Hs & Hrec).
    destruct (IH _ _ _ _ H) as (news & Hn & HF & Hlen).
    exists (s :: news). split; [rewrite Hn, Hs, <- app_assoc; reflexivity|].
    cbn [filter]. destruct (isFailed s) eqn:Ef.
    + destruct Hrec as [Hm (line & Hl)]. split.
      * constructor; [rewrite Ef; exact Hm | exact HF].
      * rewrite Hlen, Hl, length_app. cbn. lia.
    + destruct Hrec as [Hm Hl]. split.
      * constructor; [rewrite Ef; exact Hm | exact HF].
      * rewrite Hlen, Hl. reflexivity.
Qed.

(** A result of [executeAllocation] that is not a dry run of a plan: every
    failed step carries an error, and the summary lists one error per
    failed step. *)
Lemma executeAllocation_records_failures account profile st r st' :
  dryRun config = false ->
  executeAllocation services config account profile st = (Returned r, st') ->
  Forall (fun s => if isFailed s then exists m, error s = Some m
                   else error s = None) (steps r) /\
  List.length (errors (summary r)) = List.length (filter isFailed (steps r)).
Proof.
  intros Hlive H.
  destruct (executeAllocation_inv _ services config _ _ _ _ _ H)
    as (b & w1 & _ & Hcases).
  cbv zeta in Hcases.
  destruct Hcases as [(_ & _ & ->)|[(_ & Hd & _)|(_ & _ & acc & st2 & final & Hrun & _ & ->)]].
  - cbn. split; [constructor | reflexivity].
  - rewrite Hd in Hlive. discriminate Hlive.
  - unfold runTrades in Hrun.
    destruct (forEach_records_failures _ _ _ _ _ _ _ Hrun) as (news & Hn & HF & Hlen).
    cbn [loopSteps loopErrors app List.length Nat.add] in Hn, Hlen.
    cbn [steps summary errors liveReport]. rewrite Hn. split; assumption.
Qed.

End RecordingFacts.

(** C2.  Whatever a stage of the swap pipeline throws is caught by
    [executeSwap] and returned as a failed result carrying the message, and
    the step of that trade is failed and records the message as its error.
    The loop over the plan never throws and runs to the end: it returns one
    step for every trade of the plan, in priority order, each recording
    what the pipeline did for its trade.  When every failure the services
    raise carries a message, every failed step of a result carries an
    error, and the summary lists one error per failed step. *)
Theorem trade_failures_are_contained
    {World : Type} (services : Services World) (config : PortfolioBuilderConfig) :
  (forall params st e st1,
     swapPipeline services params st = (Threw e, st1) ->
     executeSwap services params st
     = (Returned (swapOutcome params "" 0 swap_failed (Some (thrownMessage e))), st1)) /\
  (forall params st, exists r st1, executeSwap services params st = (Returned r, st1)) /\
  (forall account total acc trade fromMint price st st1 e st2,
     type trade = swap ->
     fromAsset trade = Some fromMint ->
     truthy (Some fromMint) = true ->
     getTokenPrice services fromMint st = (Returned (Some price), st1) ->
     swapPipeline services
       {| paramInputMint := fromMint; paramOutputMint := toAsset trade;
          amount := amountUsd trade / price; slippageBps := maxSlippageBps config;
          userPublicKey := account |} st1 = (Threw e, st2) ->
     exists acc' s,
       executeTrade services config account total acc trade st = (Returned acc', st2) /\
       loopSteps acc' = loopSteps acc ++ [s] /\
       status s = failed /\
       loopValueTraded acc' = loopValueTraded acc /\
       (thrownMessage e <> "" ->
        error s = Some (thrownMessage e) /\
        loopErrors acc'
        = loopErrors acc ++ [String.append "swap failed: " (thrownMessage e)])) /\
  (forall account total ts st,
     exists acc st',
       runTrades services config account total ts st = (Returned acc, st') /\
       Permutation (sortByPriority ts) ts /\
       List.length (loopSteps acc) = List.length ts /\
       stepsRecord services config account (sortByPriority ts) (loopSteps acc)) /\
  (messagesCarryText services ->
   (forall params st e st1,
      swapPipeline services params st = (Threw e, st1) -> thrownMessage e <> "") /\
   (forall account profile st r st',
      dryRun config = false ->
      executeAllocation services config account profile st = (Returned r, st') ->
      Forall (fun s => if isFailed s then exists m, error s = Some m
                       else error s = None) (steps r) /\
      List.length (errors (summary r)) = List.length (filter isFailed (steps r)))).
Proof.
  split; [|split; [|split; [|split]]].
  - intros params st e st1. apply executeSwap_catches.
  - intros params st. apply executeSwap_returns.
  - apply stage_failure_marks_step_failed.
  - intros account total ts st.
    destruct (runTrades_spec _ services config account total ts st)
      as (acc & st' & Hrun & Hrec & _).
    exists acc, st'. split; [exact Hrun|]. split; [apply sortByPriority_perm|].
    split; [|exact Hrec].
    unfold stepsRecord in Hrec. apply Forall2_length in Hrec.
    rewrite <- Hrec. apply Permutation_length, sortByPriority_perm.
  - intro Htext. split.
    + intros params st e st1. apply (swapPipeline_throws_text _ services Htext).
    + intros account profile st r st'.
      apply (executeAllocation_records_failures _ services config Htext).
Qed.

(** The first quote request fails with 'No route': the step of that trade
    is failed with that error, the second trade still runs and completes,
    and the summary lists the one error. *)
Lemma trade_failures_are_contained_witness :
  messagesCarryText (scriptedServices walletBalances (Some (ErrorObject "No route"))) /\
  exists r st',
    executeAllocation (scriptedServices walletBalances (Some (ErrorObject "No route")))
      liveConfig "acct" walletProfile initialState = (Returned r, st') /\
    map (fun s => (status s, error s)) (steps r)
    = [(failed, Some "No route"); (completed, None)] /\
    Forall (fun s => if isFailed s then exists m, error s = Some m
                     else error s = None) (steps r) /\
    List.length (errors (summary r)) = List.length (filter isFailed (steps r)).
Proof.
  assert (Htext : messagesCarryText
                    (scriptedServices walletBalances (Some (ErrorObject "No route")))).
  { unfold messagesCarryText, throwsText. repeat split;
      intros; cbn in *;
      try match goal with
          | H : (match ?w with O => _ | S _ => _ end) = _ |- _ => destruct w
          end;
      match goal with
      | H : _ = (Threw _, _) |- _ => inversion H; subst
      end; discriminate. }
  split; [exact Htext|].
  do 2 eexists. split; [vm_compute; reflexivity|]. split; [reflexivity|].
  destruct (trade_failures_are_contained
              (scriptedServices walletBalances (Some (ErrorObject "No route")))
              liveConfig) as (_ & _ & _ & _ & Hrecorded).
  destruct (Hrecorded Htext) as [_ Hrun].
  exact (Hrun "acct" walletProfile initialState _ _ eq_refl eq_refl).
Defined.

(** The same run with a message: the step's error and the summary carry it
    (scenario C of the specification). *)
Example no_route_is_recorded :
  exists r st',
    executeAllocation (scriptedServices walletBalances (Some (ErrorObject "No route")))
      liveConfig "acct" walletProfile initialState = (Returned r, st') /\
    map (fun s => (status s, error s)) (steps r)
    = [(failed, Some "No route"); (completed, None)] /\
    errors (summary r) = ["swap failed: No route"] /\
    resultStatus r = res_partial /\
    totalTradesCompleted (summary r) = 1%nat.
Proof.
  eexists. eexists. split; [vm_compute; reflexivity|].
  repeat split.
Qed.

(* ====================================================================== *)
(** * Further properties of the code *)
(* ====================================================================== *)

(* ---------------------------------------------------------------------- *)
(** ** The shape of a plan *)
(* ---------------------------------------------------------------------- *)

Lemma categoryTrade_Forall (P : PlannedTrade -> Prop) minSize delta buy sell st :
  (forall a p, P (buy a p)) ->
  (forall a p, P (sell a p)) ->
  Forall P (fst st) ->
  Forall P (fst (categoryTrade minSize delta buy sell st)).
Proof.
  intros Hbuy Hsell HF. destruct st as [ts prio]. unfold categoryTrade.
  destruct (Num.geb (Math_abs delta) minSize); [|exact HF].
  destruct (Num.gtb delta 0); cbn [fst] in *;
    apply Forall_app; (split; [exact HF|]); constructor; auto.
Qed.

Lemma categoryTrade_length minSize delta buy sell st :
  (List.length (fst (categoryTrade minSize delta buy sell st))
   <= S (List.length (fst st)))%nat.
Proof.
  destruct st as [ts prio]. unfold categoryTrade.
  destruct (Num.geb (Math_abs delta) minSize); [|cbn; lia].
  destruct (Num.gtb delta 0); cbn [fst]; rewrite length_app; cbn; lia.
Qed.

(** The priority counter of the plan is the number of trades pushed so far,
    and every trade carries the value the counter had when it was pushed. *)
Lemma categoryTrade_priorities minSize delta buy sell st :
  (forall a p, priority (buy a p) = p) ->
  (forall a p, priority (sell a p) = p) ->
  map priority (fst st) = seq 0 (List.length (fst st)) /\
  snd st = List.length (fst st) ->
  map priority (fst (categoryTrade minSize delta buy sell st))
  = seq 0 (List.length (fst (categoryTrade minSize delta buy sell st))) /\
  snd (categoryTrade minSize delta buy sell st)
  = List.length (fst (categoryTrade minSize delta buy sell st)).
Proof.
  intros Hbuy Hsell [Hmap Hprio]. destruct st as [ts prio]. cbn [fst snd] in *.
  unfold categoryTrade.
  destruct (Num.geb (Math_abs delta) minSize); [|cbn [fst snd]; auto].
  destruct (Num.gtb delta 0); cbn [fst snd];
    rewrite map_app, length_app, seq_app, Hmap; cbn [map List.length seq];
    rewrite ?Hbuy, ?Hsell, Hprio, Nat.add_1_r; auto.
Qed.

Lemma planTrades_priorities cfg s p :
  map priority (planTrades cfg s p) = seq 0 (List.length (planTrades cfg s p)).
Proof.
  unfold planTrades. cbv zeta.
  assert (H0 : map priority (fst (@nil PlannedTrade, 0%nat))
               = seq 0 (List.length (fst (@nil PlannedTrade, 0%nat))) /\
               snd (@nil PlannedTrade, 0%nat)
               = List.length (fst (@nil PlannedTrade, 0%nat)))
    by (split; reflexivity).
  destruct (includeStocks cfg);
    repeat (apply categoryTrade_priorities; try reflexivity); exact H0.
Qed.

(** A list whose priorities count up from [a] is sorted. *)
Lemma counting_priorities_sorted :
  forall ts a,
    map priority ts = seq a (List.length ts) ->
    StronglySorted (fun x y => (priority x <= priority y)%nat) ts.
Proof.
  induction ts as [|t rest IH]; intros a H; [constructor|].
  cbn in H. injection H as Ht Hrest.
  constructor; [exact (IH _ Hrest)|].
  apply Forall_forall. intros y Hy.
  apply (in_map priority) in Hy. rewrite Hrest in Hy.
  apply in_seq in Hy. lia.
Qed.

(** The stable sort leaves a sorted list as it is. *)
Lemma sortByPriority_sorted ts :
  StronglySorted (fun x y => (priority x <= priority y)%nat) ts ->
  sortByPriority ts = ts.
Proof.
  induction 1 as [|t rest Hs IH Hall]; [reflexivity|].
  cbn [sortByPriority fold_right]. fold (sortByPriority rest). rewrite IH.
  destruct rest as [|u rest']; [reflexivity|].
  cbn [insertByPriority]. inversion Hall as [|? ? Hle _]; subst.
  apply Nat.leb_le in Hle. rewrite Hle. reflexivity.
Qed.

(** X1.  The trades of a plan come in the order SOL, other tokens, stocks
    (one per category whose gap reaches the minimum trade size), and their
    priorities count up from 0 in that order, so the sort by priority that
    opens the execution loop leaves the plan as it is. *)
Theorem plan_priorities_follow_emission
    (cfg : PortfolioBuilderConfig) (s : StrategyDefinition) (p : Portfolio) :
  map tradeCategory (planTrades cfg s p)
  = filter (fun c => existsb (String.eqb c) (plannedCategories cfg s p))
           ["sol"; "otherTokens"; "stocks"] /\
  map priority (planTrades cfg s p) = seq 0 (List.length (planTrades cfg s p)) /\
  sortByPriority (planTrades cfg s p) = planTrades cfg s p.
Proof.
  split; [|split; [apply planTrades_priorities|]].
  - rewrite planTrades_categories. unfold plannedCategories. cbv zeta.
    destruct (Num.geb (Math_abs (sol (planDeltas s p))) (minTradeSize cfg));
      destruct (Num.geb (Math_abs (otherTokens (planDeltas s p))) (minTradeSize cfg));
      destruct (includeStocks cfg
                && Num.geb (Math_abs (stocks (planDeltas s p))) (minTradeSize cfg));
      reflexivity.
  - apply sortByPriority_sorted.
    apply (counting_priorities_sorted _ 0%nat), planTrades_priorities.
Qed.

Lemma planTrades_shape cfg s p :
  Forall (fun t => routedThroughUsdc t \/ (includeStocks cfg = true /\ stockOrder t))
         (planTrades cfg s p).
Proof.
  unfold planTrades. cbv zeta.
  destruct (includeStocks cfg);
    repeat (apply categoryTrade_Forall;
            try (intros a q; unfold routedThroughUsdc, stockOrder, mkSwap, mkStock;
                 cbn; tauto));
    constructor.
Qed.

(** X2.  A plan holds at most three trades, two when stocks are disabled.
    Every trade is a swap with USDC on one side and SOL or WBTC on the
    other, or, with stocks enabled, a stock order for AAPL; the stablecoin
    gap never produces a trade of its own. *)
Theorem plan_routes_through_usdc
    (cfg : PortfolioBuilderConfig) (s : StrategyDefinition) (p : Portfolio) :
  (List.length (planTrades cfg s p) <= 3)%nat /\
  (includeStocks cfg = false -> (List.length (planTrades cfg s p) <= 2)%nat) /\
  Forall (fun t => routedThroughUsdc t \/ (includeStocks cfg = true /\ stockOrder t))
         (planTrades cfg s p).
Proof.
  split; [|split; [|apply planTrades_shape]].
  - unfold planTrades. cbv zeta.
    destruct (includeStocks cfg);
      repeat (etransitivity; [apply categoryTrade_length | apply le_n_S]);
      cbn; lia.
  - intro Hs. unfold planTrades. cbv zeta. rewrite Hs.
    repeat (etransitivity; [apply categoryTrade_length | apply le_n_S]).
    cbn. lia.
Qed.

(* ---------------------------------------------------------------------- *)
(** ** What a live run leaves behind *)
(* ---------------------------------------------------------------------- *)

Lemma Forall2_Forall_right {A B : Type} (P : A -> Prop) (R : A -> B -> Prop)
    (Q : B -> Prop) (l : list A) (l' : list B) :
  (forall x y, P x -> R x y -> Q y) ->
  Forall P l -> Forall2 R l l' -> Forall Q l'.
Proof.
  intros H HP HR. induction HR as [|x y l l' Hxy _ IH]; [constructor|].
  inversion HP; subst. constructor; eauto.
Qed.

Lemma Forall2_In_left {A B : Type} (R : A -> B -> Prop) (l : list A) (l' : list B) x :
  Forall2 R l l' -> In x l -> exists y, In y l' /\ R x y.
Proof.
  induction 1 as [|a b l l' Hab _ IH]; intro Hin; [contradiction|].
  destruct Hin as [->|Hin].
  - exists b. split; [left; reflexivity | exact Hab].
  - destruct (IH Hin) as (y & Hy & Hr). exists y. split; [right; exact Hy | exact Hr].
Qed.

(** A step recorded for a trade of a plan is completed or failed. *)
Lemma recorded_plan_trade_terminal
    {World : Type} (services : Services World) (config cfg : PortfolioBuilderConfig)
    account trade st s :
  routedThroughUsdc trade \/ (includeStocks cfg = true /\ stockOrder trade) ->
  recorded trade (option_map fst (pipelineRun services config account trade st)) s ->
  status s = completed \/ status s = failed.
Proof.
  unfold recorded, pipelineRun.
  intros [[Hty Hside]|[_ [Hty _]]] (_ & _ & _ & Hrun).
  - rewrite Hty in Hrun.
    assert (Hfrom : exists f, fromAsset trade = Some f /\ truthy (Some f) = true).
    { destruct Hside as [[Hf _]|[_ [Hf|Hf]]]; rewrite Hf; eexists; split;
        reflexivity. }
    destruct Hfrom as (f & Hf & Htr). rewrite Hf, Htr in Hrun.
    cbn [option_map] in Hrun.
    destruct (fst (executeSwapTrade services config account f (toAsset trade)
                     (amountUsd trade) st)) as [res|e].
    + destruct Hrun as [_ Hst]. destruct (swapStatus res); tauto.
    + tauto.
  - destruct Hty as [Hty|Hty]; rewrite Hty in Hrun; cbn in Hrun; tauto.
Qed.

(** X3.  After a live run every step is completed or failed: no step of a
    plan made by [createExecutionPlan] is left pending or executing. *)
Theorem live_steps_are_terminal
    {World : Type} (services : Services World) (config : PortfolioBuilderConfig)
    (account : string) (profile : UserProfile)
    (st st' : AgentState World) (r : ExecutionResult) :
  dryRun config = false ->
  executeAllocation services config account profile st = (Returned r, st') ->
  Forall (fun s => status s = completed \/ status s = failed) (steps r).
Proof.
  intros Hlive H.
  destruct (executeAllocation_inv _ _ _ _ _ _ _ _ H) as (b & w1 & _ & Hcases).
  cbv zeta in Hcases.
  destruct Hcases as [(_ & _ & ->)|[(_ & Hd & _)|(_ & _ & acc & st2 & fin & Hrun & _ & ->)]].
  - constructor.
  - congruence.
  - cbn [steps liveReport].
    match type of Hrun with
    | runTrades _ _ _ ?total ?ts ?st1 = _ =>
        destruct (runTrades_spec _ services config account total ts st1)
          as (acc0 & st0 & Hrun0 & Hrec & _)
    end.
    rewrite Hrun in Hrun0. inversion Hrun0; subst acc0 st0.
    unfold stepsRecord in Hrec.
    eapply Forall2_Forall_right; [| |exact Hrec].
    + intros trade s Hshape [stk Hk].
      eapply recorded_plan_trade_terminal; [exact Hshape | exact Hk].
    + eapply Permutation_Forall; [symmetry; apply sortByPriority_perm|].
      cbn [trades planFor]. apply (planTrades_shape config).
Qed.

Lemma live_steps_are_terminal_witness :
  exists r st',
    executeAllocation (scriptedServices walletBalances (Some (ErrorObject "No route")))
      liveConfig "acct" walletProfile initialState = (Returned r, st') /\
    map status (steps r) = [failed; completed] /\
    Forall (fun s => status s = completed \/ status s = failed) (steps r).
Proof.
  eexists. eexists. split; [vm_compute; reflexivity|].
  split; [reflexivity|].
  refine (live_steps_are_terminal
            (scriptedServices walletBalances (Some (ErrorObject "No route")))
            liveConfig "acct" walletProfile initialState _ _ _ _).
  - reflexivity.
  - vm_compute. reflexivity.
Defined.

(** A gap that reaches the minimum trade size makes its block push the buy
    or the sell it was given. *)
Lemma categoryTrade_emitted minSize delta buy sell st :
  minSize <= Math_abs delta ->
  exists a p,
    fst (categoryTrade minSize delta buy sell st) = fst st ++ [buy a p] \/
    fst (categoryTrade minSize delta buy sell st) = fst st ++ [sell a p].
Proof.
  intro H. destruct st as [ts prio]. unfold categoryTrade.
  apply geb_ge in H. rewrite H.
  destruct (Num.gtb delta 0); cbn [fst]; do 2 eexists; [left | right]; reflexivity.
Qed.

Lemma planTrades_stock_order cfg s p :
  includeStocks cfg = true ->
  minTradeSize cfg <= Math_abs (stocks (planDeltas s p)) ->
  exists t, In t (planTrades cfg s p) /\ stockOrder t.
Proof.
  intros Hs Hgap. unfold planTrades. cbv zeta. rewrite Hs.
  match goal with
  | |- context [categoryTrade ?m ?d ?b ?sl ?st0] =>
      destruct (categoryTrade_emitted m d b sl st0 Hgap) as (a & q & [E|E])
  end; rewrite E; eexists; (split; [apply in_or_app; right; left; reflexivity|]);
    unfold stockOrder, mkStock; cbn; tauto.
Qed.

Lemma filter_all_length {A : Type} (f : A -> bool) (l : list A) :
  List.length (filter f l) = List.length l -> Forall (fun x => f x = true) l.
Proof.
  induction l as [|x l IH]; intro H; [constructor|].
  cbn [filter] in H. destruct (f x) eqn:E.
  - cbn in H. injection H as H. constructor; auto.
  - pose proof (filter_length_le f l) as Hle. cbn in H. lia.
Qed.

(** X4.  Stock orders are never executed.  With stocks enabled and a stock
    gap that reaches the minimum trade size, a live run holds a failed
    stock step with the error 'Stock trading not yet implemented', and its
    status is never 'success'. *)
Theorem stock_orders_always_fail
    {World : Type} (services : Services World) (config : PortfolioBuilderConfig)
    (account : string) (profile : UserProfile)
    (st st' : AgentState World) (r : ExecutionResult)
    (b : list TokenBalance * list StockBalance) (w1 : World) :
  dryRun config = false ->
  includeStocks config = true ->
  fetchBalances services account (world st) = (Returned b, w1) ->
  minTradeSize config
  <= Math_abs (stocks (planDeltas (analyzeProfile profile)
                         (buildPortfolio account (fst b) (snd b)))) ->
  executeAllocation services config account profile st = (Returned r, st') ->
  resultStatus r <> res_success /\
  exists s, In s (steps r) /\ stepType s <> swap /\ asset s = "AAPL" /\
            status s = failed /\
            error s = Some "Stock trading not yet implemented".
Proof.
  intros Hlive Hstocks Hfetch Hgap H.
  destruct (executeAllocation_inv _ _ _ _ _ _ _ _ H) as (b' & w1' & Hfetch' & Hcases).
  rewrite Hfetch in Hfetch'. inversion Hfetch'; subst b' w1'. cbv zeta in Hcases.
  destruct (planTrades_stock_order config (analyzeProfile profile)
              (buildPortfolio account (fst b) (snd b)) Hstocks Hgap)
    as (t & Hin & Hstock).
  destruct Hcases as [(He & _)|[(_ & Hd & _)|(_ & _ & acc & st2 & fin & Hrun & _ & ->)]].
  - cbn [trades planFor] in He. rewrite He in Hin. contradiction.
  - congruence.
  - match type of Hrun with
    | runTrades _ _ _ ?total ?ts ?st1 = _ =>
        destruct (runTrades_spec _ services config account total ts st1)
          as (acc0 & st0 & Hrun0 & Hrec & _)
    end.
    rewrite Hrun in Hrun0. inversion Hrun0; subst acc0 st0.
    unfold stepsRecord in Hrec. cbn [trades planFor] in Hrec.
    assert (Hin' : In t (sortByPriority
                           (planTrades config (analyzeProfile profile)
                              (buildPortfolio account (fst b) (snd b))))).
    { eapply Permutation_in; [symmetry; apply sortByPriority_perm | exact Hin]. }
    destruct (Forall2_In_left _ _ _ _ Hrec Hin') as (s & Hs & stk & Hk).
    destruct Hstock as (Hty & Hfrom & Hto).
    assert (Hfacts : stepType s <> swap /\ asset s = "AAPL" /\ status s = failed /\
                     error s = Some "Stock trading not yet implemented").
    { unfold recorded, pipelineRun in Hk.
      destruct Hk as (Est & Eas & _ & Hrunk).
      rewrite Est, Eas, Hto.
      destruct Hty as [Hty|Hty]; rewrite Hty in *; cbn in Hrunk;
        repeat split; try tauto; discriminate. }
    split.
    + cbn [resultStatus liveReport].
      destruct (Nat.eqb_spec (List.length (filter isCompleted (loopSteps acc)))
                  (List.length (loopSteps acc))) as [E|E].
      * exfalso. apply filter_all_length in E. rewrite Forall_forall in E.
        specialize (E s Hs). unfold isCompleted in E.
        destruct Hfacts as (_ & _ & Hf & _). rewrite Hf in E. discriminate.
      * destruct (0 <? _)%nat; discriminate.
    + exists s. cbn [steps liveReport]. tauto.
Qed.

Lemma stock_orders_always_fail_witness :
  exists r st',
    executeAllocation (scriptedServices walletBalances None)
      stocksConfig "acct" walletProfile initialState = (Returned r, st') /\
    map status (steps r) = [completed; completed; failed] /\
    resultStatus r = res_partial /\
    (resultStatus r <> res_success /\
     exists s, In s (steps r) /\ stepType s <> swap /\ asset s = "AAPL" /\
               status s = failed /\
               error s = Some "Stock trading not yet implemented").
Proof.
  eexists. eexists. split; [vm_compute; reflexivity|].
  split; [reflexivity|]. split; [reflexivity|].
  refine (stock_orders_always_fail (scriptedServices walletBalances None)
            stocksConfig "acct" walletProfile initialState _ _
            walletBalances 0%nat _ _ _ _ _).
  - reflexivity.
  - reflexivity.
  - reflexivity.
  - vm_compute. discriminate.
  - vm_compute. reflexivity.
Defined.

(** X5.  A portfolio whose gaps are all below the minimum trade size is
    left alone: whatever the dry-run setting, [executeAllocation] returns
    success with no steps and the portfolio it read, after a single read of
    the portfolio and no other call. *)
Theorem balanced_portfolio_is_left_alone
    {World : Type} (services : Services World) (config : PortfolioBuilderConfig)
    (account : string) (profile : UserProfile) (st : AgentState World)
    (b : list TokenBalance * list StockBalance) (w1 : World) :
  fetchBalances services account (world st) = (Returned b, w1) ->
  let p := buildPortfolio account (fst b) (snd b) in
  let deltas := planDeltas (analyzeProfile profile) p in
  Math_abs (sol deltas) < minTradeSize config ->
  Math_abs (otherTokens deltas) < minTradeSize config ->
  includeStocks config = false \/ Math_abs (stocks deltas) < minTradeSize config ->
  exists r,
    executeAllocation services config account profile st
    = (Returned r, {| world := w1; calls := calls st ++ [CallGetPortfolio account] |}) /\
    resultStatus r = res_success /\
    steps r = [] /\
    totalValueTraded (summary r) = 0 /\
    errors (summary r) = [] /\
    portfolio r = Some p.
Proof.
  intros Hfetch p deltas Hsol Hother Hstocks.
  assert (Hempty : planTrades config (analyzeProfile profile) p = []).
  { destruct (planTrades config (analyzeProfile profile) p) as [|t ts] eqn:E;
      [reflexivity|].
    assert (Hne : planTrades config (analyzeProfile profile) p <> [])
      by (rewrite E; discriminate).
    apply planTrades_nonempty in Hne. fold deltas in Hne.
    destruct Hne as [C|[C|[Cs C]]]; [lra | lra |].
    destruct Hstocks as [Hs|Hs]; [congruence | lra]. }
  exists (emptyReport (planFor config profile p)).
  split; [|repeat split].
  unfold executeAllocation, createExecutionPlan.
  unfold bind at 1 2. rewrite getPortfolio_run, Hfetch. unfold ret at 1.
  fold p. cbn [trades planFor]. rewrite Hempty. reflexivity.
Qed.

Lemma balanced_portfolio_is_left_alone_witness :
  let services := scriptedServices balancedBalances None in
  let p := buildPortfolio "acct" (fst balancedBalances) (snd balancedBalances) in
  exists r,
    executeAllocation services liveConfig "acct" walletProfile initialState
    = (Returned r, {| world := 0%nat; calls := [CallGetPortfolio "acct"] |}) /\
    resultStatus r = res_success /\
    steps r = [] /\
    totalValueTraded (summary r) = 0 /\
    errors (summary r) = [] /\
    portfolio r = Some p.
Proof.
  intros services p.
  apply (balanced_portfolio_is_left_alone services liveConfig "acct" walletProfile
           initialState balancedBalances 0%nat).
  - reflexivity.
  - vm_compute. reflexivity.
  - vm_compute. reflexivity.
  - left. reflexivity.
Defined.

(* ---------------------------------------------------------------------- *)
(** ** Allocation percentages and the health score *)
(* ---------------------------------------------------------------------- *)

(** No mint is both a stablecoin and SOL. *)
Lemma stablecoin_not_sol m : isStablecoin m = true -> isSol m = false.
Proof.
  unfold isStablecoin, isSol, stablecoinMints. cbn [existsb].
  rewrite orb_false_r. intro H. apply orb_true_iff in H.
  destruct H as [H|H]; apply String.eqb_eq in H; subst m; reflexivity.
Qed.

(** The three token categories split the value of the tokens. *)
Lemma token_categories_partition ts :
  stablecoinValue ts + solValue ts + otherTokenValue ts == reduce_sum valueUsd ts.
Proof.
  unfold stablecoinValue, solValue, otherTokenValue.
  induction ts as [|t rest IH]; [reflexivity|].
  rewrite reduce_sum_cons. cbn [filter].
  destruct (isStablecoin (mint t)) eqn:Es.
  - rewrite (stablecoin_not_sol _ Es). cbn [negb andb].
    rewrite reduce_sum_cons. lra.
  - destruct (isSol (mint t)); cbn [negb andb]; rewrite reduce_sum_cons; lra.
Qed.

(** Percentages of parts that add up to a total other than zero add up to
    100. *)
Lemma calculateAllocation_total ts ss total :
  ~ total == 0 ->
  stablecoinValue ts + solValue ts + otherTokenValue ts + stockValue ss == total ->
  allocationTotal (calculateAllocation ts ss total) == 100.
Proof.
  intros Hnz Hsum. unfold calculateAllocation.
  destruct (Num.eqb total 0) eqn:E.
  - apply eqb_eq in E. contradiction.
  - unfold allocationTotal. cbn [stablecoins sol otherTokens stocks].
    transitivity ((stablecoinValue ts + solValue ts + otherTokenValue ts
                   + stockValue ss) / total * 100).
    + field. exact Hnz.
    + rewrite Hsum. field. exact Hnz.
Qed.

Lemma buildPortfolio_parts account ts ss :
  stablecoinValue ts + solValue ts + otherTokenValue ts + stockValue ss
  == totalValueUsd (buildPortfolio account ts ss).
Proof.
  cbn [buildPortfolio totalValueUsd]. unfold stockValue.
  rewrite <- (token_categories_partition ts). reflexivity.
Qed.

(** X6.  The allocation counts every token in exactly one of its three
    token categories: the lists that [calculateAllocation] sums for the
    stablecoins, for SOL and for the other tokens are pairwise disjoint and
    together hold every token of the portfolio once. *)
Theorem tokens_fall_in_one_category (ts : list TokenBalance) :
  let stable := filter (fun t => isStablecoin (mint t)) ts in
  let solTokens := filter (fun t => isSol (mint t)) ts in
  let other :=
    filter (fun t => negb (isStablecoin (mint t)) && negb (isSol (mint t))) ts in
  stablecoinValue ts = reduce_sum valueUsd stable /\
  solValue ts = reduce_sum valueUsd solTokens /\
  otherTokenValue ts = reduce_sum valueUsd other /\
  Permutation ts (stable ++ solTokens ++ other) /\
  (forall t, In t stable -> ~ In t solTokens /\ ~ In t other) /\
  (forall t, In t solTokens -> ~ In t other).
Proof.
  intros stable solTokens other.
  split; [reflexivity|]. split; [reflexivity|]. split; [reflexivity|].
  split; [|split].
  - unfold stable, solTokens, other.
    induction ts as [|t rest IH]; [constructor|].
    cbn [filter]. destruct (isStablecoin (mint t)) eqn:Es.
    + rewrite (stablecoin_not_sol _ Es). cbn [negb andb app].
      constructor. exact IH.
    + destruct (isSol (mint t)); cbn [negb andb].
      * apply Permutation_cons_app. exact IH.
      * rewrite app_assoc. apply Permutation_cons_app.
        rewrite <- app_assoc. exact IH.
  - intros t Hin. apply filter_In in Hin. destruct Hin as [_ Hs].
    split; intro C; apply filter_In in C; destruct C as [_ C].
    + rewrite (stablecoin_not_sol _ Hs) in C. discriminate C.
    + rewrite Hs in C. discriminate C.
  - intros t Hin. apply filter_In in Hin. destruct Hin as [_ Hs].
    intro C. apply filter_In in C. destruct C as [_ C].
    rewrite Hs, andb_false_r in C. discriminate C.
Qed.

Lemma Math_max_ge_r a b : b <= Math_max a b.
Proof.
  destruct (Math_max_spec a b) as [[H ->]|[H ->]]; lra.
Qed.

(** X7.  A portfolio that does not need rebalancing at a threshold has a
    health score of at least 100 minus twice the threshold (rounded): each
    of the four deviations is within the threshold, and the score loses half
    a point per point of deviation. *)
Theorem balanced_portfolio_is_healthy
    (p : Portfolio) (target : Allocations) (thresholdPct : Q) :
  needsRebalancing p target thresholdPct = false ->
  0 <= thresholdPct /\
  (Math_round (100 - 2 * thresholdPct)
   <= calculateHealthScore (compareToTarget p target))%Z.
Proof.
  unfold needsRebalancing, compareToTarget. cbn [existsb deviationPct].
  intro H. repeat (apply orb_false_iff in H; destruct H as [?H H]).
  repeat match goal with
         | Hc : Num.gtb _ _ = false |- _ => apply ltb_ge in Hc
         end.
  pose proof (Math_abs_nonneg (stablecoins (allocation p) - stablecoins target)).
  split; [lra|].
  rewrite calculateHealthScore_raw. apply Math_round_le.
  unfold rawScore. cbn [sumAbsDeviation deviationPct].
  eapply Qle_trans; [|apply Math_max_ge_r].
  unfold Math_abs in *. halves. lra.
Qed.

Lemma balanced_portfolio_is_healthy_witness :
  let target := allocations (analyzeProfile nearTargetProfile) in
  needsRebalancing nearTargetPortfolio target 5 = false /\
  (Math_round (100 - 2 * 5)
   <= calculateHealthScore (compareToTarget nearTargetPortfolio target))%Z.
Proof.
  intro target. split.
  - vm_compute. reflexivity.
  - apply (balanced_portfolio_is_healthy nearTargetPortfolio target 5).
    vm_compute. reflexivity.
Defined.

(* ---------------------------------------------------------------------- *)
(** ** The stages of a swap *)
(* ---------------------------------------------------------------------- *)

Ltac split_outcome X :=
  let o := fresh "o" in
  let w := fresh "w" in
  destruct X as [o w]; destruct o; cbn [world calls].

Ltac run_stage :=
  match goal with
  | |- context [fetchToken ?s ?m ?w] => split_outcome (fetchToken s m w)
  | |- context [fetchQuote ?s ?p ?a ?w] => split_outcome (fetchQuote s p a w)
  | |- context [fetchSwapInstructions ?s ?q ?u ?w] =>
      split_outcome (fetchSwapInstructions s q u w)
  | |- context [buildTransaction ?s ?i ?u ?w] =>
      split_outcome (buildTransaction s i u w)
  | |- context [signTransaction ?s ?t ?w] => split_outcome (signTransaction s t w)
  | |- context [sendRawTransaction ?s ?t ?w] =>
      split_outcome (sendRawTransaction s t w)
  | |- context [confirmTransaction ?s ?t ?w] =>
      split_outcome (confirmTransaction s t w)
  | |- context [match ?o with Some _ => _ | None => _ end] =>
      is_var o; destruct o
  end.

Ltac stopped_after k :=
  exists k; split; [reflexivity|];
  split; [cbn [calls firstn pipelineCalls]; rewrite <- ?app_assoc; reflexivity|];
  cbn; repeat split; intros; try discriminate; try congruence; eauto.

(** X8.  A swap makes its calls in one fixed order (token lookups, quote,
    instructions, build, sign, send, confirm) and stops at the first stage
    that fails: the calls added to the log are always a prefix of that
    sequence.  It always returns; the result is a success only after all
    nine calls, and it carries a signature only when the transaction was
    sent; every other result is failed with an error message and an output
    amount of 0. *)
Theorem swap_stages_run_in_order
    {World : Type} (services : Services World) (params : SwapParams)
    (st : AgentState World) :
  exists r st' k,
    executeSwap services params st = (Returned r, st') /\
    calls st' = calls st ++ firstn k (pipelineCalls params) /\
    (swapStatus r = swap_success -> k = 9%nat /\ swapError r = None) /\
    (signature r <> "" -> k = 9%nat) /\
    (swapStatus r <> swap_success ->
     swapStatus r = swap_failed /\ outputAmount r = 0 /\
     exists m, swapError r = Some m).
Proof.
  unfold executeSwap, try_catch, swapPipeline, getSwapQuote, getSwapInstructions,
    buildSwapTransaction, getToken, bind, call, ret, throw.
  repeat run_stage; do 2 eexists;
    first [ stopped_after 0%nat | stopped_after 1%nat | stopped_after 2%nat
          | stopped_after 3%nat | stopped_after 4%nat | stopped_after 5%nat
          | stopped_after 6%nat | stopped_after 7%nat | stopped_after 8%nat
          | stopped_after 9%nat ].
Qed.

(** X9.  A swap whose token metadata cannot be resolved never reaches the
    quote.  When the first lookup of the input token or the lookup of the
    output token finds nothing, the swap fails with 'Could not resolve token
    info' after those two lookups; when both resolve and the lookup that
    [getSwapQuote] repeats for the input token finds nothing, it fails with
    'Unknown input token: ' and the mint after three lookups. *)
Theorem unresolved_token_stops_swap
    {World : Type} (services : Services World) (params : SwapParams)
    (st : AgentState World) (tin tout : option nat) (w1 w2 : World) :
  fetchToken services (paramInputMint params) (world st) = (Returned tin, w1) ->
  fetchToken services (paramOutputMint params) w1 = (Returned tout, w2) ->
  (tin = None \/ tout = None ->
   executeSwap services params st
   = (Returned (swapOutcome params "" 0 swap_failed
                  (Some "Could not resolve token info")),
      {| world := w2;
         calls := calls st ++ [CallGetToken (paramInputMint params);
                               CallGetToken (paramOutputMint params)] |})) /\
  (forall w3,
     tin <> None -> tout <> None ->
     fetchToken services (paramInputMint params) w2 = (Returned None, w3) ->
     executeSwap services params st
     = (Returned (swapOutcome params "" 0 swap_failed
                    (Some (String.append "Unknown input token: "
                             (paramInputMint params)))),
        {| world := w3;
           calls := calls st ++ [CallGetToken (paramInputMint params);
                                 CallGetToken (paramOutputMint params);
                                 CallGetToken (paramInputMint params)] |})).
Proof.
  intros Hin Hout.
  unfold executeSwap, try_catch, swapPipeline, getSwapQuote, getToken, bind, call,
    ret, throw.
  rewrite Hin. cbn [world calls]. rewrite Hout. cbn [world calls].
  split.
  - intros [->| ->]; [|destruct tin]; rewrite <- ?app_assoc; reflexivity.
  - intros w3 Hi Ho H3. destruct tin; [|congruence]. destruct tout; [|congruence].
    cbv beta iota. cbn [world calls]. rewrite H3. cbn [world calls thrownMessage].
    rewrite <- !app_assoc. reflexivity.
Qed.

Lemma unresolved_token_stops_swap_witness :
  let services :=
    {| fetchBalances := fun _ w => (Returned walletBalances, w);
       fetchTokenPrice := fun _ w => (Returned (Some 1), w);
       fetchToken := fun m w =>
         (Returned (if String.eqb m COMMON_TOKENS.USDC then Some 6%nat else None), w);
       fetchQuote := fun _ _ w => (Threw OtherValue, w);
       fetchSwapInstructions := fun _ _ w => (Threw OtherValue, w);
       buildTransaction := fun _ _ w => (Threw OtherValue, w);
       signTransaction := fun _ w => (Threw OtherValue, w);
       sendRawTransaction := fun _ w => (Threw OtherValue, w);
       confirmTransaction := fun _ w => (Threw OtherValue, w) |} in
  let params :=
    {| paramInputMint := COMMON_TOKENS.USDC; paramOutputMint := "unlisted";
       amount := 5; slippageBps := 300; userPublicKey := "acct" |} in
  executeSwap services params initialState
  = (Returned (swapOutcome params "" 0 swap_failed
                 (Some "Could not resolve token info")),
     {| world := 0%nat;
        calls := [CallGetToken COMMON_TOKENS.USDC; CallGetToken "unlisted"] |}).
Proof.
  intros services params.
  refine (proj1 (unresolved_token_stops_swap services params initialState
                   (Some 6%nat) None 0%nat 0%nat _ _) _).
  - reflexivity.
  - reflexivity.
  - right. reflexivity.
Defined.

(* ---------------------------------------------------------------------- *)
(** ** Recommendations, analysis and rebalancing *)
(* ---------------------------------------------------------------------- *)

Section ReportingFacts.

Variable config : PortfolioBuilderConfig.
Variable toFixed : Q -> nat -> string.

Lemma recommendationFor_none c :
  Num.gtb (Math_abs (deviationPct c)) (rebalanceThresholdPct config) = false ->
  recommendationFor config toFixed c = [].
Proof. intro H. unfold recommendationFor. rewrite H. reflexivity. Qed.

(** A recommendation for a category starts with the letter C. *)
Lemma recommendationFor_some c :
  Num.gtb (Math_abs (deviationPct c)) (rebalanceThresholdPct config) = true ->
  exists rest, recommendationFor config toFixed c = [String "C"%char rest].
Proof.
  intro H. unfold recommendationFor. rewrite H.
  destruct (Num.gtb (deviationPct c) 0); eexists; reflexivity.
Qed.

Lemma recommendations_count comparison :
  List.length (flat_map (recommendationFor config toFixed) comparison)
  = List.length
      (filter (fun c => Num.gtb (Math_abs (deviationPct c))
                                (rebalanceThresholdPct config)) comparison).
Proof.
  induction comparison as [|c rest IH]; [reflexivity|].
  cbn [flat_map filter]. rewrite length_app, IH.
  destruct (Num.gtb (Math_abs (deviationPct c)) (rebalanceThresholdPct config)) eqn:E.
  - destruct (recommendationFor_some c E) as [x ->]. reflexivity.
  - rewrite (recommendationFor_none c E). reflexivity.
Qed.

Lemma recommendations_start_with_C comparison :
  Forall (fun s => exists rest, s = String "C"%char rest)
         (flat_map (recommendationFor config toFixed) comparison).
Proof.
  induction comparison as [|c rest IH]; [constructor|].
  cbn [flat_map]. apply Forall_app. split; [|exact IH].
  destruct (Num.gtb (Math_abs (deviationPct c)) (rebalanceThresholdPct config)) eqn:E.
  - destruct (recommendationFor_some c E) as [x ->]. repeat constructor. eauto.
  - rewrite (recommendationFor_none c E). constructor.
Qed.

Lemma filter_nil_existsb {A : Type} (f : A -> bool) (l : list A) :
  filter f l = [] <-> existsb f l = false.
Proof.
  induction l as [|x l IH]; [tauto|]. cbn. destruct (f x); cbn.
  - split; discriminate.
  - exact IH.
Qed.

End ReportingFacts.

(** X10.  The recommendations hold one line per category whose absolute
    deviation exceeds the rebalance threshold, and the single line
    'Portfolio is well-balanced. No immediate action needed.' exactly when
    no category does, that is, exactly when [needsRebalancing] at the
    configured threshold is false. *)
Theorem recommendations_agree_with_needsRebalancing
    (config : PortfolioBuilderConfig) (toFixed : Q -> nat -> string)
    (p : Portfolio) (target : Allocations) :
  let comparison := compareToTarget p target in
  let over :=
    filter (fun c => Num.gtb (Math_abs (deviationPct c)) (rebalanceThresholdPct config))
           comparison in
  (needsRebalancing p target (rebalanceThresholdPct config) = false <->
   generateRecommendations config toFixed comparison = [balancedMessage]) /\
  (needsRebalancing p target (rebalanceThresholdPct config) = true ->
   List.length (generateRecommendations config toFixed comparison) = List.length over /\
   ~ In balancedMessage (generateRecommendations config toFixed comparison)).
Proof.
  intros comparison over. unfold needsRebalancing. fold comparison.
  unfold generateRecommendations.
  pose proof (recommendations_count config toFixed comparison) as Hc.
  pose proof (recommendations_start_with_C config toFixed comparison) as HC.
  fold over in Hc.
  destruct (filter_nil_existsb
              (fun c => Num.gtb (Math_abs (deviationPct c)) (rebalanceThresholdPct config))
              comparison) as [F1 F2].
  fold over in F1, F2.
  set (found := flat_map (recommendationFor config toFixed) comparison) in *.
  assert (Hbal : ~ In balancedMessage found).
  { intro Hin. rewrite Forall_forall in HC. destruct (HC _ Hin) as [rest E].
    discriminate E. }
  destruct (Nat.eqb_spec (List.length found) 0) as [E|E].
  - assert (Hl : List.length over = 0%nat) by (rewrite <- Hc; exact E).
    assert (Ho : over = []) by (apply length_zero_iff_nil; exact Hl).
    split; [split; [reflexivity | intros _; exact (F1 Ho)]|].
    intro Hn. rewrite (F1 Ho) in Hn. discriminate.
  - assert (Ho : over <> []) by (intro C; apply E; rewrite Hc, C; reflexivity).
    split.
    + split.
      * intro Hn. apply F2 in Hn. contradiction.
      * intro Hf. exfalso. apply Hbal. rewrite Hf. left. reflexivity.
    + intros _. split; [exact Hc | exact Hbal].
Qed.

(** X11.  [rebalanceIfNeeded] trades only when all three gates are open.
    When the portfolio is within the threshold, or no signer is given, or
    auto-execute is off, it returns no execution result and no 'after'
    portfolio, reports whether rebalancing was needed, and has made a single
    read of the portfolio and no other call. *)
Theorem rebalance_gates
    {World : Type} (services : Services World) (config : PortfolioBuilderConfig)
    (account : string) (profile : UserProfile) (signer : option string)
    (st : AgentState World)
    (b : list TokenBalance * list StockBalance) (w1 : World) :
  fetchBalances services account (world st) = (Returned b, w1) ->
  let p := buildPortfolio account (fst b) (snd b) in
  let needed :=
    needsRebalancing p (allocations (analyzeProfile profile))
      (rebalanceThresholdPct config) in
  needed = false \/ signer = None \/ autoExecute config = false ->
  exists res,
    rebalanceIfNeeded services config account profile signer st
    = (Returned res,
       {| world := w1; calls := calls st ++ [CallGetPortfolio account] |}) /\
    rebalanceNeeded res = needed /\
    executionResult res = None /\
    after res = None /\
    before res = p.
Proof.
  intros Hfetch p needed Hgate.
  unfold rebalanceIfNeeded. unfold bind at 1. rewrite getPortfolio_run, Hfetch.
  fold p. fold needed.
  destruct needed eqn:En; cbn [negb].
  - destruct Hgate as [C|[->|Ha]]; [discriminate| |].
    + cbn [orb]. unfold ret. eexists. split; [reflexivity|]. repeat split.
    + rewrite Ha. cbn [negb]. rewrite orb_true_r.
      unfold ret. eexists. split; [reflexivity|]. repeat split.
  - unfold ret. eexists. split; [reflexivity|]. repeat split.
Qed.

Lemma rebalance_gates_witness :
  let services := scriptedServices walletBalances None in
  let p := buildPortfolio "acct" (fst walletBalances) (snd walletBalances) in
  needsRebalancing p (allocations (analyzeProfile walletProfile))
    (rebalanceThresholdPct DEFAULT_CONFIG) = true /\
  exists res,
    rebalanceIfNeeded services DEFAULT_CONFIG "acct" walletProfile (Some "key")
      initialState
    = (Returned res, {| world := 0%nat; calls := [CallGetPortfolio "acct"] |}) /\
    rebalanceNeeded res = true /\
    executionResult res = None /\
    after res = None /\
    before res = p.
Proof.
  intros services p. split; [vm_compute; reflexivity|].
  apply (rebalance_gates services DEFAULT_CONFIG "acct" walletProfile (Some "key")
           initialState walletBalances 0%nat).
  - reflexivity.
  - right. right. reflexivity.
Defined.

(** The strategy recommended for a profile always sums to 100. *)
Lemma analyzeProfile_total profile :
  allocationTotal (allocations (analyzeProfile profile)) == 100.
Proof.
  unfold analyzeProfile, adjustStrategyForProfile. cbn [allocations].
  apply normalize_total. rewrite adjustments_total.
  destruct (riskTolerance profile); vm_compute; discriminate.
Qed.

Lemma actionFor_sell d : actionFor d = action_sell <-> 0 < d.
Proof.
  unfold actionFor. destruct (Num.gtb d 0) eqn:G.
  - apply gtb_gt in G. tauto.
  - apply ltb_ge in G. split; [|lra].
    destruct (Num.ltb d 0); discriminate.
Qed.

Lemma actionFor_buy d : actionFor d = action_buy <-> d < 0.
Proof.
  unfold actionFor. destruct (Num.gtb d 0) eqn:G.
  - apply gtb_gt in G. split; [discriminate | lra].
  - destruct (Num.ltb d 0) eqn:L.
    + apply ltb_lt in L. tauto.
    + apply ltb_ge in L. split; [discriminate | lra].
Qed.

(** X12.  The analysis of a portfolio with a total value other than zero
    never advises selling without buying, nor buying without selling: the
    deviations of the four categories sum to zero, so a row marked 'sell'
    comes with a row marked 'buy' and the other way round.  The analysis
    reads the portfolio once and makes no other call. *)
Theorem analysis_pairs_sell_with_buy
    {World : Type} (services : Services World) (config : PortfolioBuilderConfig)
    (toFixed : Q -> nat -> string)
    (account : string) (profile : UserProfile) (st : AgentState World)
    (b : list TokenBalance * list StockBalance) (w1 : World) :
  fetchBalances services account (world st) = (Returned b, w1) ->
  ~ totalValueUsd (buildPortfolio account (fst b) (snd b)) == 0 ->
  exists a,
    analyzePortfolio services config toFixed account profile st
    = (Returned a, {| world := w1; calls := calls st ++ [CallGetPortfolio account] |}) /\
    map rowAssetType (analysisComparison a)
    = ["stablecoins"; "sol"; "otherTokens"; "stocks"] /\
    (In action_sell (map action (analysisComparison a)) <->
     In action_buy (map action (analysisComparison a))).
Proof.
  intros Hfetch Hnz.
  unfold analyzePortfolio. unfold bind. rewrite getPortfolio_run, Hfetch. unfold ret.
  eexists. split; [reflexivity|]. split; [reflexivity|].
  cbn [analysisComparison compareToTarget map action deviationPct].
  assert (Ha : allocationTotal (allocation (buildPortfolio account (fst b) (snd b)))
               == 100).
  { change (allocation (buildPortfolio account (fst b) (snd b)))
      with (calculateAllocation (fst b) (snd b)
              (totalValueUsd (buildPortfolio account (fst b) (snd b)))).
    apply calculateAllocation_total; [exact Hnz | apply buildPortfolio_parts]. }
  pose proof (analyzeProfile_total profile) as Ht.
  unfold allocationTotal in Ha, Ht.
  set (al := allocation (buildPortfolio account (fst b) (snd b))) in *.
  set (tg := allocations (analyzeProfile profile)) in *.
  cbn [In]. rewrite !actionFor_sell, !actionFor_buy.
  split; intros [H|[H|[H|[H|[]]]]];
    destruct (Qlt_le_dec (stablecoins al - stablecoins tg) 0);
    destruct (Qlt_le_dec (sol al - sol tg) 0);
    destruct (Qlt_le_dec (otherTokens al - otherTokens tg) 0);
    destruct (Qlt_le_dec (stocks al - stocks tg) 0);
    destruct (Qlt_le_dec 0 (stablecoins al - stablecoins tg));
    destruct (Qlt_le_dec 0 (sol al - sol tg));
    destruct (Qlt_le_dec 0 (otherTokens al - otherTokens tg));
    destruct (Qlt_le_dec 0 (stocks al - stocks tg));
    try tauto; exfalso; lra.
Qed.

Lemma analysis_pairs_sell_with_buy_witness :
  let services := scriptedServices walletBalances None in
  let toFixed := fun (_ : Q) (_ : nat) => "0.0" in
  ~ totalValueUsd (buildPortfolio "acct" (fst walletBalances) (snd walletBalances)) == 0 /\
  exists a,
    analyzePortfolio services DEFAULT_CONFIG toFixed "acct" walletProfile initialState
    = (Returned a, {| world := 0%nat; calls := [CallGetPortfolio "acct"] |}) /\
    map rowAssetType (analysisComparison a)
    = ["stablecoins"; "sol"; "otherTokens"; "stocks"] /\
    (In action_sell (map action (analysisComparison a)) <->
     In action_buy (map action (analysisComparison a))).
Proof.
  intros services toFixed. split; [vm_compute; discriminate|].
  apply (analysis_pairs_sell_with_buy services DEFAULT_CONFIG toFixed "acct"
           walletProfile initialState walletBalances 0%nat).
  - reflexivity.
  - vm_compute. discriminate.
Defined.

(* ---------------------------------------------------------------------- *)
(** ** The manager's portfolio state *)
(* ---------------------------------------------------------------------- *)

Module ManagerPortfolioFacts.
Import Manager ManagerPortfolio.

Lemma values_kept total hs :
  map valueUsd (map (withPercentage total) hs) = map valueUsd hs.
Proof. rewrite map_map. reflexivity. Qed.

Lemma reduce_sum_via_map {A : Type} (f : A -> Q) (l : list A) :
  reduce_sum f l = reduce_sum (fun x => x) (map f l).
Proof. rewrite reduce_sum_map. reflexivity. Qed.

End ManagerPortfolioFacts.

(** X13.  In the state [getPortfolioState] builds, the total is the sum of
    the holdings' values, accumulated in their order; when the total is
    positive every percentage is the holding's share of it, and otherwise
    every percentage is 0. *)
Theorem portfolio_state_percentages (p : ManagerPortfolio.WalletPortfolio) :
  let state := ManagerPortfolio.getPortfolioState p in
  Manager.totalValueUsd state
  = reduce_sum Manager.valueUsd (Manager.holdings state) /\
  (0 < Manager.totalValueUsd state ->
   Forall (fun h => Manager.percentage h
                    == Manager.valueUsd h / Manager.totalValueUsd state * 100)
          (Manager.holdings state)) /\
  (~ 0 < Manager.totalValueUsd state ->
   Forall (fun h => Manager.percentage h = 0) (Manager.holdings state)).
Proof.
  intro state. unfold state, ManagerPortfolio.getPortfolioState.
  cbn [Manager.totalValueUsd Manager.holdings].
  set (pushed := ManagerPortfolio.rawHoldings p).
  change (fold_left (fun sum h => sum + Manager.valueUsd h) pushed 0)
    with (reduce_sum Manager.valueUsd pushed).
  set (total := reduce_sum Manager.valueUsd pushed).
  split; [|split].
  - rewrite (ManagerPortfolioFacts.reduce_sum_via_map Manager.valueUsd
               (map (ManagerPortfolio.withPercentage total) pushed)).
    rewrite ManagerPortfolioFacts.values_kept.
    rewrite <- ManagerPortfolioFacts.reduce_sum_via_map. reflexivity.
  - intro Hpos.
    apply Forall_forall. intros h Hin. apply in_map_iff in Hin.
    destruct Hin as (h0 & <- & _). cbn.
    apply gtb_gt in Hpos. rewrite Hpos. reflexivity.
  - intro Hneg. apply Forall_forall. intros h Hin. apply in_map_iff in Hin.
    destruct Hin as (h0 & <- & _). cbn.
    destruct (Num.gtb total 0) eqn:G; [|reflexivity].
    apply gtb_gt in G. contradiction.
Qed.

(* ---------------------------------------------------------------------- *)
(** ** More on the manager's rebalance actions *)
(* ---------------------------------------------------------------------- *)

Module ManagerMatchFacts.
Import Manager ManagerPortfolio.

(** A lookup in an object with distinct keys finds the entry it holds. *)
Lemma lookup_in {V : Type} (d : Dict V) key v :
  NoDup (map fst d) -> In (key, v) d -> lookup d key = Some v.
Proof.
  induction d as [|[k x] rest IH]; intros Hnd Hin; [contradiction|].
  cbn in Hnd. inversion Hnd as [|? ? Hnot Hrest]; subst.
  cbn [lookup]. destruct Hin as [E|Hin].
  - inversion E; subst. rewrite String.eqb_refl. reflexivity.
  - destruct (String.eqb_spec k key) as [->|_].
    + exfalso. apply Hnot. apply (in_map fst) in Hin. exact Hin.
    + apply IH; assumption.
Qed.

Lemma or_default_eq v d : or_default (Some v) d == v \/ (v == 0 /\ or_default (Some v) d = d).
Proof.
  unfold or_default. destruct (Num.eqb v 0) eqn:E.
  - right. apply eqb_eq in E. auto.
  - left. reflexivity.
Qed.

Lemma or_default_zero v : or_default (Some v) 0 == v.
Proof.
  destruct (or_default_eq v 0) as [H|[H ->]]; [exact H | symmetry; exact H].
Qed.

(** With distinct keys in the target, no symbol is both overweight and
    underweight. *)
Lemma partition_disjoint cfg state :
  forall target overs unders,
    NoDup (map fst target) ->
    partition cfg state target = (overs, unders) ->
    forall o u, In o overs -> In u unders -> overSymbol o <> underSymbol u.
Proof.
  induction target as [|[sym t] rest IH]; intros overs unders Hnd H;
    cbn [partition] in H.
  - inversion H; subst. intros o u [].
  - cbn in Hnd. inversion Hnd as [|? ? Hnot Hrest]; subst.
    destruct (partition cfg state rest) as [os us] eqn:E.
    pose proof (IH _ _ Hrest eq_refl) as IHd.
    destruct (ManagerFacts.partition_spec _ _ _ _ _ E) as [Ho Hu].
    rewrite Forall_forall in Ho, Hu.
    assert (Hos : forall o, In o os -> overSymbol o <> sym).
    { intros o Hin C. destruct (Ho o Hin) as (_ & t0 & Hin0 & _).
      apply Hnot. rewrite <- C. apply (in_map fst) in Hin0. exact Hin0. }
    assert (Hus : forall u, In u us -> underSymbol u <> sym).
    { intros u Hin C. destruct (Hu u Hin) as (_ & t0 & Hin0 & _).
      apply Hnot. rewrite <- C. apply (in_map fst) in Hin0. exact Hin0. }
    destruct (Num.gtb _ (minTrade cfg) && Num.gtb _ (threshold cfg)).
    + destruct (lookup TOKEN_INFO sym); inversion H; subst; [|exact IHd].
      intros o u [<-|Hin] Hinu; [|exact (IHd o u Hin Hinu)].
      cbn [overSymbol]. intro C. exact (Hus u Hinu (eq_sym C)).
    + destruct (Num.ltb _ (- minTrade cfg) && Num.gtb _ (threshold cfg)).
      * destruct (lookup TOKEN_INFO sym); inversion H; subst; [|exact IHd].
        intros o u Hino [<-|Hin]; [|exact (IHd o u Hino Hin)].
        cbn [underSymbol]. exact (Hos o Hino).
      * inversion H; subst. exact IHd.
Qed.

End ManagerMatchFacts.

(** X15.  With distinct symbols in the target, no action trades a token for
    itself: the symbol sold is never the symbol bought. *)
Theorem action_sides_differ
    (cfg : Manager.ManagerConfig) (target : Manager.TargetAllocation)
    (state : Manager.PortfolioState) (a : Manager.RebalanceAction) :
  NoDup (map fst target) ->
  In a (Manager.calculateRebalanceActions cfg target state) ->
  Manager.fromSymbol a <> Manager.toSymbol a.
Proof.
  intros Hnd Hin. unfold Manager.calculateRebalanceActions in Hin.
  destruct (Manager.partition cfg state target) as [os us] eqn:EP.
  pose proof (ManagerMatchFacts.partition_disjoint _ _ _ _ _ Hnd EP) as Hdis.
  destruct (Manager.matchAll (Manager.minTrade cfg) os us) as [[os' us'] acts] eqn:EM.
  destruct (ManagerFacts.matchAll_actions _ _ _ _ _ _ EM) as [HA _].
  cbn [snd] in Hin. rewrite Forall_forall in HA.
  destruct (HA a Hin) as (_ & Hf & Ht).
  apply in_map_iff in Hf. destruct Hf as (o & Eo & Ho).
  apply in_map_iff in Ht. destruct Ht as (u & Eu & Hu).
  rewrite <- Eo, <- Eu. exact (Hdis o u Ho Hu).
Qed.

Lemma exampleTarget_keys : NoDup (map fst exampleTarget).
Proof.
  repeat constructor; cbn; intro H;
    repeat (destruct H as [H|H]; [discriminate H|]); exact H.
Defined.

Lemma action_sides_differ_witness :
  let actions :=
    Manager.calculateRebalanceActions exampleManagerConfig exampleTarget exampleState in
  let a := nth 0 actions
             {| Manager.fromSymbol := ""; Manager.toSymbol := "";
                Manager.amount := 0; Manager.tradeUsd := 0 |} in
  (In a actions /\ Manager.fromSymbol a = "USDC" /\ Manager.toSymbol a = "SOL") /\
  Manager.fromSymbol a <> Manager.toSymbol a.
Proof.
  intros actions a.
  assert (Hin : In a actions) by (vm_compute; left; reflexivity).
  split.
  - split; [exact Hin|]. split; reflexivity.
  - exact (action_sides_differ exampleManagerConfig exampleTarget exampleState a
             exampleTarget_keys Hin).
Defined.

(** X16.  The check agrees with the planner: with distinct symbols and no
    negative percentage in the target and a threshold that is not negative,
    whenever [calculateRebalanceActions] proposes an action,
    [checkRebalanceNeeded] on the same state answers true. *)
Theorem actions_imply_rebalance_needed
    (cfg : Manager.ManagerConfig) (target : Manager.TargetAllocation)
    (state : Manager.PortfolioState) :
  NoDup (map fst target) ->
  Forall (fun entry => 0 <= snd entry) target ->
  0 <= Manager.threshold cfg ->
  Manager.calculateRebalanceActions cfg target state <> [] ->
  ManagerPortfolio.checkRebalanceNeeded cfg target state = true.
Proof.
  intros Hnd Hpos Hth Hne. unfold Manager.calculateRebalanceActions in Hne.
  destruct (Manager.partition cfg state target) as [os us] eqn:EP.
  destruct (ManagerFacts.partition_spec _ _ _ _ _ EP) as [Ho _].
  destruct (Manager.matchAll (Manager.minTrade cfg) os us) as [[os' us'] acts] eqn:EM.
  destruct (ManagerFacts.matchAll_actions _ _ _ _ _ _ EM) as [HA _].
  cbn [snd] in Hne. destruct acts as [|a acts]; [contradiction|].
  inversion HA as [|? ? (_ & Hf & _) _]; subst.
  apply in_map_iff in Hf. destruct Hf as (o & Eo & Hino).
  rewrite Forall_forall in Ho. destruct (Ho o Hino) as (_ & t & Hin & Hgap).
  rewrite Forall_forall in Hpos. pose proof (Hpos _ Hin) as Ht. cbn [snd] in Ht.
  unfold Manager.currentPct, Manager.findHolding in Hgap.
  unfold ManagerPortfolio.checkRebalanceNeeded.
  destruct (find (fun h => String.eqb (Manager.symbol h) (Manager.overSymbol o))
                 (Manager.holdings state)) as [h|] eqn:Ef.
  - apply find_some in Ef. destruct Ef as [Hh Hsym].
    apply String.eqb_eq in Hsym.
    apply existsb_exists. exists h. split; [exact Hh|].
    cbv zeta. apply gtb_gt. rewrite Hsym.
    rewrite (ManagerMatchFacts.lookup_in target _ t Hnd Hin).
    cbn [option_map] in Hgap.
    pose proof (ManagerMatchFacts.or_default_zero (Manager.percentage h)) as E1.
    pose proof (ManagerMatchFacts.or_default_zero t) as E2.
    unfold Math_abs.
    eapply Qlt_le_trans; [|apply Qle_Qabs]. lra.
  - cbn [option_map] in Hgap. unfold or_default in Hgap. lra.
Qed.

Lemma actions_imply_rebalance_needed_witness :
  Manager.calculateRebalanceActions exampleManagerConfig exampleTarget exampleState <> [] /\
  ManagerPortfolio.checkRebalanceNeeded exampleManagerConfig exampleTarget exampleState
  = true.
Proof.
  assert (Hne : Manager.calculateRebalanceActions exampleManagerConfig exampleTarget
                  exampleState <> []) by (vm_compute; discriminate).
  split; [exact Hne|].
  apply (actions_imply_rebalance_needed exampleManagerConfig exampleTarget exampleState).
  - exact exampleTarget_keys.
  - repeat constructor; vm_compute; discriminate.
  - vm_compute. discriminate.
  - exact Hne.
Defined.

(** ** The agent wallet *)

Module AgentWalletFacts.

Import AgentWallet.

Ltac wallet_unfold :=
  unfold swapSteps, getQuote, request, lift, bind, throw, ret.

(** The body of [swap]'s [try] block leaves the wallet's fields alone and
    logs a prefix of the five stages; it returns only after all five, and
    then with a successful result. *)
Lemma swapSteps_log {World} (backend : Backend World)
    (wid addr inputMint outputMint amountRaw : string) (slippageBps : Q)
    (st : State World) :
  exists out st',
    swapSteps backend wid addr inputMint outputMint amountRaw slippageBps st
    = (out, st') /\
    walletId st' = walletId st /\
    walletAddress st' = walletAddress st /\
    exists n,
      (1 <= n <= 5)%nat /\
      requests st'
      = requests st ++ firstn n (swapStages wid inputMint outputMint amountRaw) /\
      forall r, out = Returned r ->
        n = 5%nat /\ success r = true /\ error r = None /\
        exists sig, txSignature r = Some sig.
Proof.
  wallet_unfold.
  destruct (fetchQuote backend inputMint outputMint amountRaw slippageBps (net st))
    as [[q|e] w1] eqn:E1; cbn [net requests walletId walletAddress];
    [|do 2 eexists; split; [reflexivity|]; cbn [walletId walletAddress requests];
      split; [reflexivity|]; split; [reflexivity|]; exists 1%nat; split; [lia|];
      split; [reflexivity|]; intros r Hr; discriminate Hr].
  destruct (truthy (quoteError q) || negb (truthy (outAmount q)));
    [do 2 eexists; split; [reflexivity|]; cbn [walletId walletAddress requests];
     split; [reflexivity|]; split; [reflexivity|]; exists 1%nat; split; [lia|];
     split; [reflexivity|]; intros r Hr; discriminate Hr|].
  cbn [net requests walletId walletAddress].
  destruct (postSwapInstructions backend q addr slippageBps w1)
    as [[ins|e] w2] eqn:E2; cbn [net requests walletId walletAddress];
    [|do 2 eexists; split; [reflexivity|]; cbn [walletId walletAddress requests];
      split; [reflexivity|]; split; [reflexivity|]; exists 2%nat; split; [lia|];
      split; [rewrite <- app_assoc; reflexivity|]; intros r Hr; discriminate Hr].
  destruct (truthy (instructionsError ins));
    [do 2 eexists; split; [reflexivity|]; cbn [walletId walletAddress requests];
     split; [reflexivity|]; split; [reflexivity|]; exists 2%nat; split; [lia|];
     split; [rewrite <- app_assoc; reflexivity|]; intros r Hr; discriminate Hr|].
  destruct (decodeInstructions backend (instructionsBody ins)) as [all|e];
    [|do 2 eexists; split; [reflexivity|]; cbn [walletId walletAddress requests];
      split; [reflexivity|]; split; [reflexivity|]; exists 2%nat; split; [lia|];
      split; [rewrite <- app_assoc; reflexivity|]; intros r Hr; discriminate Hr].
  cbn [net requests walletId walletAddress].
  destruct (getLatestBlockhash backend w2) as [[bh|e] w3] eqn:E3;
    cbn [net requests walletId walletAddress];
    [|do 2 eexists; split; [reflexivity|]; cbn [walletId walletAddress requests];
      split; [reflexivity|]; split; [reflexivity|]; exists 3%nat; split; [lia|];
      split; [rewrite <- !app_assoc; reflexivity|]; intros r Hr; discriminate Hr].
  destruct (compileTransaction backend all addr bh) as [tx|e];
    [|do 2 eexists; split; [reflexivity|]; cbn [walletId walletAddress requests];
      split; [reflexivity|]; split; [reflexivity|]; exists 3%nat; split; [lia|];
      split; [rewrite <- !app_assoc; reflexivity|]; intros r Hr; discriminate Hr].
  cbn [net requests walletId walletAddress].
  destruct (postSign backend wid tx w3) as [[sg|e] w4] eqn:E4;
    cbn [net requests walletId walletAddress];
    [|do 2 eexists; split; [reflexivity|]; cbn [walletId walletAddress requests];
      split; [reflexivity|]; split; [reflexivity|]; exists 4%nat; split; [lia|];
      split; [rewrite <- !app_assoc; reflexivity|]; intros r Hr; discriminate Hr].
  destruct (truthy (signError sg));
    [do 2 eexists; split; [reflexivity|]; cbn [walletId walletAddress requests];
     split; [reflexivity|]; split; [reflexivity|]; exists 4%nat; split; [lia|];
     split; [rewrite <- !app_assoc; reflexivity|]; intros r Hr; discriminate Hr|].
  destruct (signedTransaction sg) as [signed|];
    [|do 2 eexists; split; [reflexivity|]; cbn [walletId walletAddress requests];
      split; [reflexivity|]; split; [reflexivity|]; exists 4%nat; split; [lia|];
      split; [rewrite <- !app_assoc; reflexivity|]; intros r Hr; discriminate Hr].
  cbn [net requests walletId walletAddress].
  destruct (sendRawTransaction backend signed w4) as [[sig|e] w5] eqn:E5;
    cbn [net requests walletId walletAddress];
    do 2 eexists; (split; [reflexivity|]); cbn [walletId walletAddress requests];
    (split; [reflexivity|]); (split; [reflexivity|]); exists 5%nat; (split; [lia|]);
    (split; [rewrite <- !app_assoc; reflexivity|]); intros r Hr;
    [|discriminate Hr].
  inversion Hr; subst r. cbn. repeat split. eexists; reflexivity.
Qed.

Lemma symbolOf_in (entries : list (string * string)) (m sym : string) :
  NoDup (map snd entries) ->
  (symbolOf entries m = Some sym <-> In (sym, m) entries).
Proof.
  induction entries as [|[s' m'] rest IH]; intros Hnd; cbn [symbolOf In].
  - split; [discriminate|contradiction].
  - cbn [map snd] in Hnd. inversion Hnd as [|? ? Hnot Hrest]; subst.
    destruct (String.eqb m m') eqn:E.
    + apply String.eqb_eq in E. subst m'. split.
      * intros H. inversion H. left. reflexivity.
      * intros [H|H]; [inversion H; reflexivity|].
        exfalso. apply Hnot. apply in_map_iff. exists (sym, m). split; [reflexivity|exact H].
    + apply String.eqb_neq in E. rewrite (IH Hrest). split.
      * intros H. right. exact H.
      * intros [H|H]; [inversion H; subst; contradiction|exact H].
Qed.

Lemma TOKENS_mints_distinct : NoDup (map snd TOKENS).
Proof.
  cbn [map snd TOKENS].
  repeat (constructor; [cbn [In]; intuition discriminate|]).
  constructor.
Qed.

Lemma getAddress_spec {World} (st : State World) :
  getAddress st
  = (match walletAddress st with
     | Some a => if String.eqb a "" then Threw noWalletLoaded else Returned a
     | None => Threw noWalletLoaded
     end, st).
Proof.
  unfold getAddress, getFields, bind, ret, throw. cbn [snd truthy].
  destruct (walletAddress st) as [a|]; cbn [truthy]; [|reflexivity].
  destruct (String.eqb a ""); reflexivity.
Qed.

End AgentWalletFacts.

(** X17.  A swap needs a loaded wallet: when the wallet id or the wallet
    address is unset (or empty), [swap] throws the no-wallet error, out of
    its [try] block, and makes no request. *)
Theorem swap_requires_wallet {World} (backend : AgentWallet.Backend World)
    (inputMint outputMint amountRaw : string) (slippageBps : Q)
    (st : AgentWallet.State World) :
  truthy (AgentWallet.walletId st) = false \/
  truthy (AgentWallet.walletAddress st) = false ->
  AgentWallet.swap backend inputMint outputMint amountRaw slippageBps st
  = (Threw AgentWallet.noWalletLoaded, st).
Proof.
  intros H. unfold AgentWallet.swap, AgentWallet.getFields, AgentWallet.bind.
  cbn [fst snd].
  destruct H as [H|H]; rewrite H; cbn [negb orb]; [reflexivity|].
  rewrite orb_true_r. reflexivity.
Qed.

Lemma swap_requires_wallet_witness :
  truthy (AgentWallet.walletId freshWallet) = false /\
  AgentWallet.swap (exampleBackend exampleWallet goodQuote [])
    AgentWallet.SOL_MINT "EPjFWdd5AufqSSqeM2qN1xzybapC8G4wEGGkZwyTDt1v" "1000000" 300
    freshWallet
  = (Threw AgentWallet.noWalletLoaded, freshWallet).
Proof.
  split; [reflexivity|].
  apply (swap_requires_wallet (exampleBackend exampleWallet goodQuote [])).
  left. reflexivity.
Defined.

(** X18.  With a wallet loaded, [swap] never throws, whatever the services
    do: it returns a result, leaves the wallet's fields alone and logs a
    prefix of the stages quote, swap instructions, blockhash, signing and
    sending, in that order.  A successful result comes only after all five
    and carries a signature and no error; a failed one carries an error
    message, the requested amount as its input and '0' as its output. *)
Theorem swap_contains_failures {World} (backend : AgentWallet.Backend World)
    (wid addr inputMint outputMint amountRaw : string) (slippageBps : Q)
    (st : AgentWallet.State World) :
  AgentWallet.walletId st = Some wid -> wid <> "" ->
  AgentWallet.walletAddress st = Some addr -> addr <> "" ->
  exists r st' n,
    AgentWallet.swap backend inputMint outputMint amountRaw slippageBps st
    = (Returned r, st') /\
    AgentWallet.walletId st' = Some wid /\
    AgentWallet.walletAddress st' = Some addr /\
    AgentWallet.requests st'
    = AgentWallet.requests st
      ++ firstn n (swapStages wid inputMint outputMint amountRaw) /\
    (1 <= n <= 5)%nat /\
    (if AgentWallet.success r
     then n = 5%nat /\ AgentWallet.error r = None /\
          exists sig, AgentWallet.txSignature r = Some sig
     else exists message,
            AgentWallet.error r = Some message /\
            AgentWallet.txSignature r = None /\
            AgentWallet.inputAmount r = amountRaw /\
            AgentWallet.outputAmount r = Some "0").
Proof.
  intros Hid Hwid Haddr Haddr'.
  unfold AgentWallet.swap, AgentWallet.getFields, AgentWallet.bind,
    AgentWallet.try_catch.
  cbn [fst snd]. rewrite Hid, Haddr. cbn [truthy].
  apply String.eqb_neq in Hwid, Haddr'. rewrite Hwid, Haddr'. cbn [negb orb].
  destruct (AgentWalletFacts.swapSteps_log backend wid addr inputMint outputMint
              amountRaw slippageBps st)
    as (out & st' & E & Hi & Ha & n & Hn & Hreq & Hret).
  rewrite E.
  destruct out as [r|e].
  - exists r, st', n. destruct (Hret r eq_refl) as (Hn5 & Hs & He & Hsig).
    rewrite Hs, Hi, Ha, Hid, Haddr. repeat split; try assumption; lia.
  - unfold AgentWallet.ret. eexists; exists st', n. split; [reflexivity|].
    cbn [AgentWallet.success AgentWallet.error AgentWallet.txSignature
         AgentWallet.inputAmount AgentWallet.outputAmount].
    rewrite Hi, Ha, Hid, Haddr. repeat split; try assumption; try lia.
    eexists. repeat split.
Qed.

Lemma swap_contains_failures_witness :
  AgentWallet.walletId loadedWallet = Some "wallet-1" /\
  AgentWallet.walletAddress loadedWallet = Some "address-1" /\
  exists r st' n,
    AgentWallet.swap (exampleBackend exampleWallet goodQuote [])
      AgentWallet.SOL_MINT "EPjFWdd5AufqSSqeM2qN1xzybapC8G4wEGGkZwyTDt1v" "1000000"
      300 loadedWallet
    = (Returned r, st') /\
    AgentWallet.walletId st' = Some "wallet-1" /\
    AgentWallet.walletAddress st' = Some "address-1" /\
    AgentWallet.requests st'
    = AgentWallet.requests loadedWallet
      ++ firstn n (swapStages "wallet-1" AgentWallet.SOL_MINT
                     "EPjFWdd5AufqSSqeM2qN1xzybapC8G4wEGGkZwyTDt1v" "1000000") /\
    (1 <= n <= 5)%nat /\
    (if AgentWallet.success r
     then n = 5%nat /\ AgentWallet.error r = None /\
          exists sig, AgentWallet.txSignature r = Some sig
     else exists message,
            AgentWallet.error r = Some message /\
            AgentWallet.txSignature r = None /\
            AgentWallet.inputAmount r = "1000000" /\
            AgentWallet.outputAmount r = Some "0").
Proof.
  split; [reflexivity|]. split; [reflexivity|].
  apply (swap_contains_failures (exampleBackend exampleWallet goodQuote [])
           "wallet-1" "address-1").
  - reflexivity.
  - discriminate.
  - reflexivity.
  - discriminate.
Defined.

(** X19.  A swap without a route costs one request: with a wallet loaded,
    when the quote service answers with an error or with no output amount,
    [swap] returns a failed result whose error is the quote's error, or
    'No route found for this swap' when the quote carries none, and only the
    quote request is made. *)
Theorem swap_without_route {World} (backend : AgentWallet.Backend World)
    (wid addr inputMint outputMint amountRaw : string) (slippageBps : Q)
    (st : AgentWallet.State World)
    (quote : AgentWallet.JupiterQuoteResponse) (w : World) :
  AgentWallet.walletId st = Some wid -> wid <> "" ->
  AgentWallet.walletAddress st = Some addr -> addr <> "" ->
  AgentWallet.fetchQuote backend inputMint outputMint amountRaw slippageBps
    (AgentWallet.net st) = (Returned quote, w) ->
  truthy (AgentWallet.quoteError quote) = true \/
  truthy (AgentWallet.outAmount quote) = false ->
  AgentWallet.swap backend inputMint outputMint amountRaw slippageBps st
  = (Returned {| AgentWallet.success := false;
                 AgentWallet.txSignature := None;
                 AgentWallet.error :=
                   Some (match AgentWallet.quoteError quote with
                         | Some e =>
                             if String.eqb e "" then "No route found for this swap"
                             else e
                         | None => "No route found for this swap"
                         end);
                 AgentWallet.inputAmount := amountRaw;
                 AgentWallet.outputAmount := Some "0" |},
     AgentWallet.mkState w
       (AgentWallet.requests st
        ++ [AgentWallet.ReqQuote inputMint outputMint amountRaw])
       (Some wid) (Some addr)).
Proof.
  intros Hid Hwid Haddr Haddr' Hq Hbad.
  unfold AgentWallet.swap, AgentWallet.getFields, AgentWallet.bind,
    AgentWallet.try_catch.
  cbn [fst snd]. rewrite Hid, Haddr. cbn [truthy].
  apply String.eqb_neq in Hwid, Haddr'. rewrite Hwid, Haddr'. cbn [negb orb].
  AgentWalletFacts.wallet_unfold. rewrite Hq.
  assert (Hc : truthy (AgentWallet.quoteError quote)
               || negb (truthy (AgentWallet.outAmount quote)) = true).
  { destruct Hbad as [H|H]; rewrite H; [reflexivity|apply orb_true_r]. }
  rewrite Hc. cbn [thrownMessage]. unfold AgentWallet.orElse.
  rewrite Hid, Haddr.
  destruct (AgentWallet.quoteError quote) as [e|]; cbn [truthy]; [|reflexivity].
  destruct (String.eqb e ""); reflexivity.
Qed.

Lemma swap_without_route_witness :
  truthy (AgentWallet.outAmount noRouteQuote) = false /\
  AgentWallet.swap (exampleBackend exampleWallet noRouteQuote [])
    AgentWallet.SOL_MINT "unlisted" "1000000" 300 loadedWallet
  = (Returned {| AgentWallet.success := false;
                 AgentWallet.txSignature := None;
                 AgentWallet.error := Some "No route found for this swap";
                 AgentWallet.inputAmount := "1000000";
                 AgentWallet.outputAmount := Some "0" |},
     AgentWallet.mkState tt
       [AgentWallet.ReqQuote AgentWallet.SOL_MINT "unlisted" "1000000"]
       (Some "wallet-1") (Some "address-1")).
Proof.
  split; [reflexivity|].
  apply (swap_without_route (exampleBackend exampleWallet noRouteQuote [])
           "wallet-1" "address-1" AgentWallet.SOL_MINT "unlisted" "1000000" 300
           loadedWallet noRouteQuote tt).
  - reflexivity.
  - discriminate.
  - reflexivity.
  - discriminate.
  - reflexivity.
  - right. reflexivity.
Defined.

(** X20.  Loading sets the wallet, failing leaves it: when [createWallet] or
    [loadWallet] returns a wallet, the object holds the id the service
    answered and [getAddress] returns the answered address (it still throws
    the no-wallet error when that address is empty); when either throws, the
    previously loaded wallet is kept. *)
Theorem loading_sets_the_wallet {World} (backend : AgentWallet.Backend World)
    (st st' : AgentWallet.State World) (out : Outcome AgentWallet.Wallet) :
  AgentWallet.createWallet backend st = (out, st') \/
  (exists walletId, AgentWallet.loadWallet backend walletId st = (out, st')) ->
  match out with
  | Returned wallet =>
      AgentWallet.walletId st' = Some (AgentWallet.id wallet) /\
      AgentWallet.getAddress st'
      = (if String.eqb (AgentWallet.address wallet) ""
         then Threw AgentWallet.noWalletLoaded
         else Returned (AgentWallet.address wallet), st')
  | Threw _ =>
      AgentWallet.walletId st' = AgentWallet.walletId st /\
      AgentWallet.walletAddress st' = AgentWallet.walletAddress st
  end.
Proof.
  intros [H|[i H]]; revert H;
    unfold AgentWallet.createWallet, AgentWallet.loadWallet, AgentWallet.request,
      AgentWallet.bind, AgentWallet.setFields, AgentWallet.throw, AgentWallet.ret.
  - destruct (AgentWallet.postWallet backend (AgentWallet.net st))
      as [[[err status|wallet]|e] w]; intros H; inversion H; subst; clear H;
      rewrite ?AgentWalletFacts.getAddress_spec; cbn; auto.
  - destruct (AgentWallet.fetchWallet backend i (AgentWallet.net st))
      as [[[err status|wallet]|e] w]; intros H; inversion H; subst; clear H;
      rewrite ?AgentWalletFacts.getAddress_spec; cbn; auto.
Qed.

Lemma loading_sets_the_wallet_witness :
  exists st',
    AgentWallet.createWallet (exampleBackend exampleWallet goodQuote []) freshWallet
    = (Returned exampleWallet, st') /\
    AgentWallet.walletId st' = Some "wallet-1" /\
    AgentWallet.getAddress st' = (Returned "address-1", st').
Proof.
  eexists. split; [reflexivity|].
  exact (loading_sets_the_wallet (exampleBackend exampleWallet goodQuote [])
           freshWallet _ (Returned exampleWallet) (or_introl eq_refl)).
Defined.

(** X21.  What the wallet's portfolio lists: when [getPortfolio] returns, a
    wallet address was loaded, exactly the balance and the token-account
    requests for it were made, every listed token has a positive amount, and
    a token carries the symbol [sym] exactly when [TOKENS] maps [sym] to its
    mint. *)
Theorem portfolio_lists_positive_named_tokens {World}
    (backend : AgentWallet.Backend World) (st st' : AgentWallet.State World)
    (p : AgentWallet.Portfolio) :
  AgentWallet.getPortfolio backend st = (Returned p, st') ->
  (exists addr,
     AgentWallet.walletAddress st = Some addr /\ addr <> "" /\
     AgentWallet.requests st'
     = AgentWallet.requests st
       ++ [AgentWallet.ReqBalance addr; AgentWallet.ReqTokenAccounts addr]) /\
  Forall (fun t =>
            0 < AgentWallet.amount t /\
            forall sym,
              AgentWallet.symbol t = Some sym
              <-> In (sym, AgentWallet.mint t) AgentWallet.TOKENS)
         (AgentWallet.tokens p).
Proof.
  unfold AgentWallet.getPortfolio. unfold AgentWallet.bind at 1.
  rewrite AgentWalletFacts.getAddress_spec.
  destruct (AgentWallet.walletAddress st) as [addr|] eqn:Ea; [|discriminate].
  destruct (String.eqb addr "") eqn:Ee; [discriminate|].
  apply String.eqb_neq in Ee.
  unfold AgentWallet.bind, AgentWallet.lift, AgentWallet.request, AgentWallet.ret.
  destruct (AgentWallet.publicKey backend addr) as [[]|e]; [|discriminate].
  destruct (AgentWallet.getBalance backend addr (AgentWallet.net st))
    as [[lamports|e] w1]; [|discriminate].
  cbn [AgentWallet.net AgentWallet.requests].
  destruct (AgentWallet.getTokenAccounts backend addr w1)
    as [[accounts|e] w2]; [|discriminate].
  intros H. inversion H; subst; clear H.
  cbn [AgentWallet.requests AgentWallet.tokens]. split.
  - exists addr. split; [reflexivity|]. split; [exact Ee|].
    rewrite <- app_assoc. reflexivity.
  - apply Forall_forall. intros t Ht.
    apply in_map_iff in Ht. destruct Ht as (t0 & <- & Ht0).
    apply filter_In in Ht0. destruct Ht0 as [Hin Hpos].
    apply NumFacts.gtb_gt in Hpos.
    cbn [AgentWallet.named AgentWallet.amount AgentWallet.symbol AgentWallet.mint].
    split; [exact Hpos|]. intros sym.
    apply in_map_iff in Hin. destruct Hin as (acc & <- & _).
    cbn [AgentWallet.tokenOf AgentWallet.symbol AgentWallet.mint].
    rewrite <- (AgentWalletFacts.symbolOf_in AgentWallet.TOKENS _ sym
                  AgentWalletFacts.TOKENS_mints_distinct).
    destruct (AgentWallet.symbolOf AgentWallet.TOKENS (AgentWallet.accountMint acc));
      reflexivity.
Qed.

Lemma portfolio_lists_positive_named_tokens_witness :
  exists p st',
    AgentWallet.getPortfolio (exampleBackend exampleWallet goodQuote exampleAccounts)
      loadedWallet = (Returned p, st') /\
    map AgentWallet.symbol (AgentWallet.tokens p) = [Some "USDC"; None] /\
    Forall (fun t =>
              0 < AgentWallet.amount t /\
              forall sym,
                AgentWallet.symbol t = Some sym
                <-> In (sym, AgentWallet.mint t) AgentWallet.TOKENS)
           (AgentWallet.tokens p).
Proof.
  do 2 eexists. split; [reflexivity|]. split; [reflexivity|].
  exact (proj2 (portfolio_lists_positive_named_tokens
                  (exampleBackend exampleWallet goodQuote exampleAccounts)
                  loadedWallet _ _ eq_refl)).
Defined.

(** ** The market data client *)

Module MarketFacts.

Import Market.

Lemma mapGet_mapSet_same {V} (m : list (string * V)) k v :
  mapGet (mapSet m k v) k = Some v.
Proof.
  induction m as [|[k' v'] rest IH]; cbn [mapSet mapGet].
  - rewrite String.eqb_refl. reflexivity.
  - destruct (String.eqb k k') eqn:E; cbn [mapGet]; rewrite E; [reflexivity|exact IH].
Qed.

Lemma mapGet_mapSet_other {V} (m : list (string * V)) k k' v :
  k' <> k -> mapGet (mapSet m k v) k' = mapGet m k'.
Proof.
  intros Hne. induction m as [|[k0 v0] rest IH]; cbn [mapSet mapGet].
  - apply String.eqb_neq in Hne. rewrite Hne. reflexivity.
  - destruct (String.eqb k k0) eqn:E; cbn [mapGet].
    + apply String.eqb_eq in E. subst k0.
      apply String.eqb_neq in Hne. rewrite Hne. reflexivity.
    + rewrite IH. reflexivity.
Qed.

Lemma extends_refl {V} (c : list (string * V)) : extends c c.
Proof. intros k v H. exact H. Qed.

Lemma extends_keeps {V} (c c' : list (string * V)) : extends c c' -> keeps c c'.
Proof.
  intros H k Hk. destruct (mapGet c k) as [v|] eqn:E; [|contradiction].
  rewrite (H k v E). discriminate.
Qed.

Lemma keeps_trans {V} (a b c : list (string * V)) :
  keeps a b -> keeps b c -> keeps a c.
Proof. intros H1 H2 k Hk. apply H2, H1, Hk. Qed.

Lemma extends_trans {V} (a b c : list (string * V)) :
  extends a b -> extends b c -> extends a c.
Proof. intros H1 H2 k v Hk. apply H2, H1, Hk. Qed.

Lemma mapSet_fresh_extends {V} (c : list (string * V)) k v :
  mapGet c k = None -> extends c (mapSet c k v).
Proof.
  intros Hnone k' v' H. destruct (String.eqb k' k) eqn:E.
  - apply String.eqb_eq in E. subst k'. congruence.
  - apply String.eqb_neq in E. rewrite mapGet_mapSet_other by exact E. exact H.
Qed.

Lemma mapSet_keeps {V} (c : list (string * V)) k v : keeps c (mapSet c k v).
Proof.
  intros k' H. destruct (String.eqb k' k) eqn:E.
  - apply String.eqb_eq in E. subst k'. rewrite mapGet_mapSet_same. discriminate.
  - apply String.eqb_neq in E. rewrite mapGet_mapSet_other by exact E. exact H.
Qed.

Section Client.

Context {World : Type} (backend : Backend World).

(** [getToken] never throws, makes at most the one token request, leaves
    the price cache alone, keeps every cached token, and caches what it
    returns. *)
Lemma getToken_spec (m : string) (st : State World) :
  exists o st',
    getToken backend m st = (Returned o, st') /\
    priceCache st' = priceCache st /\
    (requests st' = requests st \/ requests st' = requests st ++ [ReqToken m]) /\
    extends (tokenCache st) (tokenCache st') /\
    (forall t, o = Some t -> mapGet (tokenCache st') m = Some t) /\
    (forall t, mapGet (tokenCache st) m = Some t -> o = Some t /\ st' = st).
Proof.
  unfold getToken, getTokenCache. unfold bind at 1.
  destruct (mapGet (tokenCache st) m) as [t|] eqn:Ec.
  - exists (Some t), st. unfold ret. split; [reflexivity|].
    split; [reflexivity|]. split; [left; reflexivity|].
    split; [apply extends_refl|]. split.
    + intros t' H. inversion H; subst. exact Ec.
    + intros t' H. inversion H; subst. split; reflexivity.
  - unfold try_catch, bind, request, setTokenCache, ret.
    destruct (fetchToken backend m (net st)) as [[[status|raw]|e] w];
      cbn [net requests tokenCache priceCache];
      do 2 eexists; (split; [reflexivity|]);
      cbn [net requests tokenCache priceCache];
      (split; [reflexivity|]); (split; [right; reflexivity|]).
    + split; [apply extends_refl|]. split; intros t H; discriminate H.
    + split; [apply mapSet_fresh_extends; exact Ec|]. split.
      * intros t H. inversion H; subst. apply mapGet_mapSet_same.
      * intros t H; discriminate H.
    + split; [apply extends_refl|]. split; intros t H; discriminate H.
Qed.

(** The fetching part of [getTokenPrice] never throws, asks for the price
    first and then at most for the token, caches the price it returns, and
    leaves the price cache alone when it returns none. *)
Lemma fetchTokenPrice_spec (m : string) (st : State World) :
  exists o st' l,
    fetchTokenPrice backend m st = (Returned o, st') /\
    requests st' = requests st ++ ReqPrice m :: l /\
    (l = [] \/ l = [ReqToken m]) /\
    extends (tokenCache st) (tokenCache st') /\
    match o with
    | None => priceCache st' = priceCache st
    | Some p => exists stamp, mapGet (priceCache st') m = Some (p, stamp)
    end.
Proof.
  unfold fetchTokenPrice, try_catch. unfold bind at 1. unfold request at 1.
  destruct (fetchPrice backend m (net st)) as [[[status|[pd|]]|e] w].
  - unfold throw, ret. exists None. eexists. exists []. cbn.
    split; [reflexivity|]. split; [reflexivity|]. split; [left; reflexivity|].
    split; [apply extends_refl|reflexivity].
  - set (st1 := {| net := w; requests := requests st ++ [ReqPrice m];
                   tokenCache := tokenCache st; priceCache := priceCache st |}).
    destruct (getToken_spec m st1) as (tok & st2 & E & Hp & Hr & Hx & _ & _).
    unfold bind at 1. rewrite E.
    unfold bind, readClock, setPriceCache, ret.
    destruct (now backend (net st2)) as [d w3]. cbn [net].
    destruct (now backend w3) as [stamp w4].
    cbn [net requests tokenCache priceCache].
    eexists (Some _). eexists.
    destruct Hr as [Hr|Hr]; [exists []|exists [ReqToken m]];
      (split; [reflexivity|]); cbn [requests tokenCache priceCache];
      (split; [rewrite Hr; subst st1; cbn [requests]; rewrite <- ?app_assoc;
               reflexivity|]).
    + split; [left; reflexivity|]. split; [exact Hx|].
      exists stamp. apply mapGet_mapSet_same.
    + split; [right; reflexivity|]. split; [exact Hx|].
      exists stamp. apply mapGet_mapSet_same.
  - unfold ret. exists None. eexists. exists []. cbn.
    split; [reflexivity|]. split; [reflexivity|]. split; [left; reflexivity|].
    split; [apply extends_refl|reflexivity].
  - unfold ret. exists None. eexists. exists []. cbn.
    split; [reflexivity|]. split; [reflexivity|]. split; [left; reflexivity|].
    split; [apply extends_refl|reflexivity].
Qed.

Lemma getTokenPrice_spec (m : string) (st : State World) :
  exists o st' l,
    getTokenPrice backend m st = (Returned o, st') /\
    requests st' = requests st ++ l /\
    (l = [] \/ l = [ReqPrice m] \/ l = [ReqPrice m; ReqToken m]) /\
    extends (tokenCache st) (tokenCache st') /\
    match o with
    | None => priceCache st' = priceCache st
    | Some p => exists stamp, mapGet (priceCache st') m = Some (p, stamp)
    end.
Proof.
  assert (Hfetch : forall st0 : State World,
    requests st0 = requests st -> tokenCache st0 = tokenCache st ->
    priceCache st0 = priceCache st ->
    exists o st' l,
      fetchTokenPrice backend m st0 = (Returned o, st') /\
      requests st' = requests st ++ l /\
      (l = [] \/ l = [ReqPrice m] \/ l = [ReqPrice m; ReqToken m]) /\
      extends (tokenCache st) (tokenCache st') /\
      match o with
      | None => priceCache st' = priceCache st
      | Some p => exists stamp, mapGet (priceCache st') m = Some (p, stamp)
      end).
  { intros st0 Hr Ht Hp.
    destruct (fetchTokenPrice_spec m st0) as (o & st' & l & E & Hl & Hc & Hx & Ho).
    exists o, st', (ReqPrice m :: l). split; [exact E|].
    rewrite Hl, Hr. split; [reflexivity|]. split.
    - destruct Hc as [->| ->]; [right; left|right; right]; reflexivity.
    - rewrite <- Ht. split; [exact Hx|].
      destruct o; [exact Ho|]. rewrite <- Hp. exact Ho. }
  unfold getTokenPrice, getPriceCache. unfold bind at 1.
  destruct (mapGet (priceCache st) m) as [[p stamp]|] eqn:Ec.
  - unfold bind, readClock. destruct (now backend (net st)) as [t w].
    destruct (t - stamp <? PRICE_CACHE_TTL)%Z.
    + unfold ret. exists (Some p). eexists. exists [].
      split; [reflexivity|]. cbn [requests tokenCache priceCache].
      split; [rewrite app_nil_r; reflexivity|]. split; [left; reflexivity|].
      split; [apply extends_refl|]. exists stamp. exact Ec.
    + apply Hfetch; reflexivity.
  - apply Hfetch; reflexivity.
Qed.

Lemma checkCache_spec (mints : list string) result uncached (st : State World) :
  exists res st',
    checkCache backend mints result uncached st = (Returned res, st') /\
    tokenCache st' = tokenCache st.
Proof.
  revert result uncached st.
  induction mints as [|m rest IH]; intros result uncached st; cbn [checkCache].
  - exists (result, uncached), st. split; reflexivity.
  - unfold getPriceCache. unfold bind at 1.
    destruct (mapGet (priceCache st) m) as [[p stamp]|]; [|apply IH].
    unfold bind, readClock. destruct (now backend (net st)) as [t w].
    destruct (t - stamp <? PRICE_CACHE_TTL)%Z;
      match goal with
      | |- context [checkCache backend rest ?r ?u ?s] =>
          destruct (IH r u s) as (res & st' & E & Ht)
      end; exists res, st'; (split; [exact E|exact Ht]).
Qed.

Lemma storePrices_spec data (uncached : list string) result (st : State World) :
  exists res st',
    storePrices backend data uncached result st = (Returned res, st') /\
    extends (tokenCache st) (tokenCache st').
Proof.
  revert result st.
  induction uncached as [|m rest IH]; intros result st; cbn [storePrices].
  - exists result, st. split; [reflexivity|apply extends_refl].
  - destruct (mapGet data m) as [pd|]; [|apply IH].
    destruct (getToken_spec m st) as (tok & st1 & E & _ & _ & Hx & _).
    unfold bind at 1. rewrite E.
    unfold bind, readClock, setPriceCache.
    destruct (now backend (net st1)) as [d w1]. cbn [net].
    destruct (now backend w1) as [stamp w2].
    cbn [net requests tokenCache priceCache].
    match goal with
    | |- context [storePrices backend data rest ?r ?s] =>
        destruct (IH r s) as (res & st' & E' & Hx')
    end.
    exists res, st'. split; [exact E'|].
    cbn [tokenCache] in Hx'. eapply extends_trans; [exact Hx|exact Hx'].
Qed.

Lemma collectTokens_spec (mints : list string) tokens (st : State World) :
  exists res st',
    collectTokens backend mints tokens st = (Returned res, st') /\
    extends (tokenCache st) (tokenCache st').
Proof.
  revert tokens st.
  induction mints as [|m rest IH]; intros tokens st; cbn [collectTokens].
  - exists tokens, st. split; [reflexivity|apply extends_refl].
  - destruct (getToken_spec m st) as (tok & st1 & E & _ & _ & Hx & _).
    unfold bind. rewrite E.
    match goal with
    | |- context [collectTokens backend rest ?r ?s] =>
        destruct (IH r s) as (res & st' & E' & Hx')
    end.
    exists res, st'. split; [exact E'|].
    eapply extends_trans; [exact Hx|exact Hx'].
Qed.

Lemma getTokenPrices_tokenCache (mints : list string) (st : State World) :
  extends (tokenCache st) (tokenCache (snd (getTokenPrices backend mints st))).
Proof.
  unfold getTokenPrices. unfold bind at 1.
  destruct (checkCache_spec mints [] [] st) as ([result uncached] & st1 & E & Ht).
  rewrite E. rewrite <- Ht. destruct uncached as [|u us].
  - unfold ret. cbn [snd]. apply extends_refl.
  - unfold try_catch, bind, request, throw.
    destruct (fetchPrices backend (u :: us) (net st1)) as [[[status|data]|e] w];
      cbn [snd tokenCache]; try apply extends_refl.
    destruct (storePrices_spec data (u :: us) result
                {| net := w; requests := requests st1 ++ [ReqPrices (u :: us)];
                   tokenCache := tokenCache st1; priceCache := priceCache st1 |})
      as (res & st2 & E2 & Hx).
    rewrite E2. cbn [snd]. cbn [tokenCache] in Hx. exact Hx.
Qed.

Lemma cacheAll_keeps (result : list Token) (st : State World) :
  exists st',
    cacheAll result st = (Returned tt, st') /\
    requests st' = requests st /\
    keeps (tokenCache st) (tokenCache st').
Proof.
  revert st. induction result as [|token rest IH]; intros st; cbn [cacheAll].
  - exists st. unfold ret. split; [reflexivity|]. split; [reflexivity|].
    apply extends_keeps, extends_refl.
  - unfold bind at 1. unfold setTokenCache at 1.
    destruct (IH {| net := net st; requests := requests st;
                    tokenCache := mapSet (tokenCache st) (mint token) token;
                    priceCache := priceCache st |}) as (st' & E & Hr & Hk).
    exists st'. split; [exact E|]. split; [exact Hr|].
    eapply keeps_trans; [apply mapSet_keeps|exact Hk].
Qed.

(** No call removes a key of the token cache; only [getAvailableTokens]
    can change the token stored under a key. *)
Lemma runMarketCall_tokenCache (c : MarketCall) (st : State World) :
  keeps (tokenCache st) (tokenCache (runMarketCall backend c st)) /\
  (c <> DoGetAvailableTokens ->
   extends (tokenCache st) (tokenCache (runMarketCall backend c st))).
Proof.
  destruct c as [|m|m|ms| |m amount|]; cbn [runMarketCall].
  - split; [|intros H; contradiction H; reflexivity].
    unfold getAvailableTokens, try_catch, bind, request, throw, ret.
    destruct (fetchTokenList backend (net st)) as [[[status|raws]|e] w];
      cbn [snd tokenCache]; try (apply extends_keeps, extends_refl).
    destruct (cacheAll_keeps (map tokenOfRaw raws)
                {| net := w; requests := requests st ++ [ReqTokenList];
                   tokenCache := tokenCache st; priceCache := priceCache st |})
      as (st' & E & _ & Hk).
    rewrite E. cbn [snd]. exact Hk.
  - destruct (getToken_spec m st) as (o & st' & E & _ & _ & Hx & _).
    rewrite E. cbn [snd]. split; [apply extends_keeps|intros _]; exact Hx.
  - destruct (getTokenPrice_spec m st) as (o & st' & l & E & _ & _ & Hx & _).
    rewrite E. cbn [snd]. split; [apply extends_keeps|intros _]; exact Hx.
  - pose proof (getTokenPrices_tokenCache ms st) as Hx.
    split; [apply extends_keeps|intros _]; exact Hx.
  - unfold getCommonTokens.
    destruct (collectTokens_spec (map snd COMMON_TOKEN_ENTRIES) [] st)
      as (res & st1 & E & Hx).
    rewrite E. cbn [snd]. split; [apply extends_keeps|intros _]; exact Hx.
  - unfold calculateTokenValue, bind.
    destruct (getTokenPrice_spec m st) as (o & st' & l & E & _ & _ & Hx & _).
    rewrite E. destruct o; unfold ret, throw; cbn [snd];
      (split; [apply extends_keeps|intros _]; exact Hx).
  - cbn. split; [apply extends_keeps|intros _]; apply extends_refl.
Qed.

Lemma runMarketCalls_tokenCache (cs : list MarketCall) (st : State World) :
  keeps (tokenCache st) (tokenCache (runMarketCalls backend cs st)) /\
  (~ In DoGetAvailableTokens cs ->
   extends (tokenCache st) (tokenCache (runMarketCalls backend cs st))).
Proof.
  revert st. induction cs as [|c cs IH]; intros st; cbn [runMarketCalls fold_left].
  - split; [apply extends_keeps|intros _]; apply extends_refl.
  - destruct (runMarketCall_tokenCache c st) as [Hk Hx].
    destruct (IH (runMarketCall backend c st)) as [Hk' Hx'].
    split.
    + eapply keeps_trans; [exact Hk|exact Hk'].
    + intros Hn. eapply extends_trans.
      * apply Hx. intros ->. apply Hn. left. reflexivity.
      * apply Hx'. intros Hin. apply Hn. right. exact Hin.
Qed.

End Client.

End MarketFacts.

(** X22.  A token that was fetched once is never requested again: after
    [getToken] has returned a token for a mint, and after any further calls
    of the methods that touch the caches ([getAvailableTokens], [getToken],
    [getTokenPrice], [getTokenPrices], [getCommonTokens],
    [calculateTokenValue], [clearPriceCache]), [getToken] for that mint
    returns a token without any request and without changing the client; it
    is the same token unless [getAvailableTokens] was called in between. *)
Theorem cached_token_needs_no_request {World} (backend : Market.Backend World)
    (mint : string) (st st1 : Market.State World) (t : Market.Token)
    (calls : list MarketCall) :
  Market.getToken backend mint st = (Returned (Some t), st1) ->
  exists t',
    Market.getToken backend mint (runMarketCalls backend calls st1)
    = (Returned (Some t'), runMarketCalls backend calls st1) /\
    (~ In DoGetAvailableTokens calls -> t' = t).
Proof.
  intros E.
  destruct (MarketFacts.getToken_spec backend mint st)
    as (o & st' & E' & _ & _ & _ & Hc & _).
  rewrite E in E'. inversion E'; subst o st'. specialize (Hc t eq_refl).
  destruct (MarketFacts.runMarketCalls_tokenCache backend calls st1) as [Hk Hx].
  destruct (Market.mapGet (Market.tokenCache (runMarketCalls backend calls st1)) mint)
    as [t'|] eqn:E2.
  - exists t'.
    destruct (MarketFacts.getToken_spec backend mint (runMarketCalls backend calls st1))
      as (o & st' & E3 & _ & _ & _ & _ & Hhit).
    destruct (Hhit t' E2) as [-> ->]. split; [exact E3|].
    intros Hn. specialize (Hx Hn mint t Hc). congruence.
  - exfalso. apply (Hk mint); [rewrite Hc; discriminate|exact E2].
Qed.

Lemma cached_token_needs_no_request_witness :
  exists st1 t,
    Market.getToken (exampleMarket "usdc-mint") "usdc-mint" emptyMarket
    = (Returned (Some t), st1) /\
    exists t',
      Market.getToken (exampleMarket "usdc-mint") "usdc-mint"
        (runMarketCalls (exampleMarket "usdc-mint")
           [DoGetTokenPrice "other"; DoClearPriceCache; DoGetToken "other"] st1)
      = (Returned (Some t'),
         runMarketCalls (exampleMarket "usdc-mint")
           [DoGetTokenPrice "other"; DoClearPriceCache; DoGetToken "other"] st1) /\
      (~ In DoGetAvailableTokens
            [DoGetTokenPrice "other"; DoClearPriceCache; DoGetToken "other"] ->
       t' = t).
Proof.
  do 2 eexists. split; [reflexivity|].
  exact (cached_token_needs_no_request (exampleMarket "usdc-mint") "usdc-mint"
           emptyMarket _ _ _ eq_refl).
Defined.

(** X23.  Reading a price never throws: whatever the services do,
    [getTokenPrice] returns a price or null, after no request, the price
    request, or the price request followed by the token request; when it
    returns null the price cache is as before. *)
Theorem price_reads_never_throw {World} (backend : Market.Backend World)
    (mint : string) (st : Market.State World) :
  exists o st' l,
    Market.getTokenPrice backend mint st = (Returned o, st') /\
    Market.requests st' = Market.requests st ++ l /\
    (l = [] \/ l = [Market.ReqPrice mint] \/
     l = [Market.ReqPrice mint; Market.ReqToken mint]) /\
    (o = None -> Market.priceCache st' = Market.priceCache st).
Proof.
  destruct (MarketFacts.getTokenPrice_spec backend mint st)
    as (o & st' & l & E & Hr & Hl & _ & Ho).
  exists o, st', l. split; [exact E|]. split; [exact Hr|]. split; [exact Hl|].
  intros ->. exact Ho.
Qed.

(** X24.  The price cache lives for 30 seconds: a price that [getTokenPrice]
    returned is cached with a time stamp; as long as the clock reads less
    than 30000 ms past the stamp, [getTokenPrice] returns that price with no
    request, and from 30000 ms on it asks the price service again. *)
Theorem fresh_price_is_served_from_cache {World} (backend : Market.Backend World)
    (mint : string) (st st1 : Market.State World) (p : Market.TokenPrice) :
  Market.getTokenPrice backend mint st = (Returned (Some p), st1) ->
  exists stamp,
    Market.mapGet (Market.priceCache st1) mint = Some (p, stamp) /\
    forall st2 : Market.State World,
      Market.mapGet (Market.priceCache st2) mint = Some (p, stamp) ->
      exists o st3 l,
        Market.getTokenPrice backend mint st2 = (Returned o, st3) /\
        Market.requests st3 = Market.requests st2 ++ l /\
        if (fst (Market.now backend (Market.net st2)) - stamp <? 30000)%Z
        then o = Some p /\ l = []
        else exists rest, l = Market.ReqPrice mint :: rest.
Proof.
  intros E.
  destruct (MarketFacts.getTokenPrice_spec backend mint st)
    as (o & st' & l & E' & _ & _ & _ & Ho).
  rewrite E in E'. inversion E'; subst o st'. destruct Ho as [stamp Hc].
  exists stamp. split; [exact Hc|]. intros st2 H2.
  unfold Market.getTokenPrice, Market.getPriceCache. unfold Market.bind at 1.
  rewrite H2. unfold Market.bind, Market.readClock.
  destruct (Market.now backend (Market.net st2)) as [t w]. cbn [fst].
  change Market.PRICE_CACHE_TTL with 30000%Z.
  destruct (t - stamp <? 30000)%Z.
  - unfold Market.ret. exists (Some p). eexists. exists [].
    split; [reflexivity|]. cbn [Market.requests].
    split; [rewrite app_nil_r; reflexivity|]. split; reflexivity.
  - destruct (MarketFacts.fetchTokenPrice_spec backend mint
                {| Market.net := w; Market.requests := Market.requests st2;
                   Market.tokenCache := Market.tokenCache st2;
                   Market.priceCache := Market.priceCache st2 |})
      as (o & st3 & rest & E3 & Hr & _).
    exists o, st3, (Market.ReqPrice mint :: rest). split; [exact E3|].
    split; [exact Hr|]. exists rest. reflexivity.
Qed.

Lemma fresh_price_is_served_from_cache_witness :
  exists p st1,
    Market.getTokenPrice (exampleMarket "usdc-mint") "usdc-mint" emptyMarket
    = (Returned (Some p), st1) /\
    Market.getTokenPrice (exampleMarket "usdc-mint") "usdc-mint" st1
    = (Returned (Some p), st1) /\
    exists stamp,
      Market.mapGet (Market.priceCache st1) "usdc-mint" = Some (p, stamp) /\
      forall st2 : Market.State Z,
        Market.mapGet (Market.priceCache st2) "usdc-mint" = Some (p, stamp) ->
        exists o st3 l,
          Market.getTokenPrice (exampleMarket "usdc-mint") "usdc-mint" st2
          = (Returned o, st3) /\
          Market.requests st3 = Market.requests st2 ++ l /\
          if (fst (Market.now (exampleMarket "usdc-mint") (Market.net st2)) - stamp
              <? 30000)%Z
          then o = Some p /\ l = []
          else exists rest, l = Market.ReqPrice "usdc-mint" :: rest.
Proof.
  do 2 eexists. split; [reflexivity|]. split; [reflexivity|].
  exact (fresh_price_is_served_from_cache (exampleMarket "usdc-mint") "usdc-mint"
           emptyMarket _ _ eq_refl).
Defined.

(** X25.  Clearing the price cache forces fresh data: right after
    [clearPriceCache], [getTokenPrice] for any mint starts with a request to
    the price service, and the token cache is kept. *)
Theorem clearing_forces_a_fresh_price {World} (backend : Market.Backend World)
    (mint : string) (st : Market.State World) :
  exists o st' rest,
    Market.getTokenPrice backend mint (snd (Market.clearPriceCache st))
    = (Returned o, st') /\
    Market.requests st' = Market.requests st ++ Market.ReqPrice mint :: rest /\
    extends (Market.tokenCache st) (Market.tokenCache st').
Proof.
  unfold Market.clearPriceCache. cbn [snd].
  unfold Market.getTokenPrice, Market.getPriceCache. unfold Market.bind at 1.
  cbn [Market.priceCache Market.mapGet].
  destruct (MarketFacts.fetchTokenPrice_spec backend mint
              {| Market.net := Market.net st; Market.requests := Market.requests st;
                 Market.tokenCache := Market.tokenCache st;
                 Market.priceCache := [] |})
    as (o & st3 & rest & E3 & Hr & _ & Hx & _).
  exists o, st3, rest. split; [exact E3|]. split; [exact Hr|exact Hx].
Qed.
